(** * codecheck: a convention checker for TypeScript projects

    Shallow embedding of [codecheck.py] (class [TypeScriptConventionChecker])
    and the properties its specification states about it.

    Conventions of the embedding.
    - A Python [str] is a [string], one [ascii] per character; the character
      classes below are Python's own tables on the code points 0..255.
    - [self.violations] and the log are threaded explicitly through a small
      state-and-exception monad; checker objects live in a heap, so that two
      results of [check_all] on one checker are one list object.
    - The file system, the external linter, [json.loads] and
      [os.path.relpath] (which reads the working directory) are the fields
      of a [world] that the run reads and never writes.
    - Paths follow [posixpath]. *)

From Stdlib Require Import String Ascii List Bool Arith ZArith Lia.
From Stdlib Require Import DecimalString.
Import ListNotations.
Open Scope list_scope.
Open Scope string_scope.

Set Implicit Arguments.

(* ------------------------------------------------------------------ *)
(** * Python strings *)

Module PyStr.

Definition code (c : ascii) : nat := nat_of_ascii c.

Definition between (lo hi : nat) (c : ascii) : bool :=
  (lo <=? code c)%nat && (code c <=? hi)%nat.

Definition is_lower : ascii -> bool := between 97 122.   (* [a-z] *)
Definition is_upper : ascii -> bool := between 65 90.    (* [A-Z] *)
Definition is_digit : ascii -> bool := between 48 57.    (* [0-9] *)

(** [str.isspace], which is also the class [\s] of [re] on [str]. *)
Definition is_space (c : ascii) : bool :=
  between 9 13 c || between 28 32 c
  || (code c =? 133)%nat || (code c =? 160)%nat.

(** The class [\w] of [re] on [str]: alphanumeric or underscore. *)
Definition is_word (c : ascii) : bool :=
  is_digit c || is_upper c || is_lower c || (code c =? 95)%nat
  || (code c =? 170)%nat || between 178 179 c || (code c =? 181)%nat
  || between 185 186 c || between 188 190 c || between 192 214 c
  || between 216 246 c || between 248 255 c.

Definition newline : ascii := "010"%char.
Definition carriage_return : ascii := "013"%char.

(** [s.startswith(p)]: the rest of [s] after [p], if [s] starts with [p]. *)
Fixpoint strip_prefix (p s : string) : option string :=
  match p, s with
  | EmptyString, _ => Some s
  | String a p', String b s' =>
      if Ascii.eqb a b then strip_prefix p' s' else None
  | String _ _, EmptyString => None
  end.

Definition startswith (p s : string) : bool :=
  match strip_prefix p s with Some _ => true | None => false end.

(** [s.endswith(p)] *)
Fixpoint endswith (p s : string) : bool :=
  String.eqb p s
  || match s with
     | EmptyString => false
     | String _ s' => endswith p s'
     end.

(** [s.endswith((p1, ..., pn))] *)
Definition endswith_any (ps : list string) (s : string) : bool :=
  existsb (fun p => endswith p s) ps.

(** [sub in s] *)
Fixpoint contains (sub s : string) : bool :=
  startswith sub s
  || match s with
     | EmptyString => false
     | String _ s' => contains sub s'
     end.

(** [s.lstrip()] *)
Fixpoint lstrip (s : string) : string :=
  match s with
  | String c s' => if is_space c then lstrip s' else s
  | EmptyString => EmptyString
  end.

(** [s.rstrip()] *)
Fixpoint rstrip (s : string) : string :=
  match s with
  | EmptyString => EmptyString
  | String c s' =>
      match rstrip s' with
      | EmptyString => if is_space c then EmptyString else String c EmptyString
      | r => String c r
      end
  end.

(** [s.strip()] *)
Definition strip (s : string) : string := rstrip (lstrip s).

(** [s.count('\n')] *)
Fixpoint count_newlines (s : string) : nat :=
  match s with
  | EmptyString => 0
  | String c s' =>
      (if Ascii.eqb c newline then 1 else 0) + count_newlines s'
  end.

(** [s[:n]] for [0 <= n] *)
Fixpoint take (n : nat) (s : string) : string :=
  match n, s with
  | S n', String c s' => String c (take n' s')
  | _, _ => EmptyString
  end.

(** [s[n:]] for [0 <= n] *)
Fixpoint drop (n : nat) (s : string) : string :=
  match n, s with
  | S n', String _ s' => drop n' s'
  | _, _ => s
  end.

(** [s.split('.')[0]]: the text before the first dot. *)
Fixpoint before_first_dot (s : string) : string :=
  match s with
  | EmptyString => EmptyString
  | String c s' =>
      if Ascii.eqb c "."%char then EmptyString
      else String c (before_first_dot s')
  end.

(** The lines a text-mode file yields: each ends with its newline,
    except possibly the last. *)
Fixpoint lines (s : string) : list string :=
  match s with
  | EmptyString => []
  | String c s' =>
      if Ascii.eqb c newline then String c EmptyString :: lines s'
      else match lines s' with
           | [] => [String c EmptyString]
           | l :: ls => String c l :: ls
           end
  end.

(** Universal newlines ([newline=None] of [open]): a carriage return,
    with or without a following line feed, is read as one line feed. *)
Fixpoint translate_newlines (s : string) : string :=
  match s with
  | EmptyString => EmptyString
  | String c s' =>
      if Ascii.eqb c carriage_return
      then String newline
             (match s' with
              | String d s'' =>
                  if Ascii.eqb d newline then translate_newlines s''
                  else translate_newlines s'
              | EmptyString => EmptyString
              end)
      else String c (translate_newlines s')
  end.

(** [sep.join(parts)] *)
Definition join (sep : string) (parts : list string) : string :=
  String.concat sep parts.

(** [str(n)] for an [int] *)
Definition of_Z (n : Z) : string := NilZero.string_of_int (Z.to_int n).

Definition of_nat (n : nat) : string := of_Z (Z.of_nat n).

End PyStr.

(* ------------------------------------------------------------------ *)
(** * The regular expressions of the checker

    A backtracking matcher in continuation-passing style: a pattern takes
    the continuation that matches what follows it, then the position and
    the text remaining there.  Alternatives are tried in the order of
    [re]: a quantifier first consumes as much as it can. *)

Module Re.
Import PyStr.

Section Matcher.
Variable A : Type.

Definition cont := nat -> string -> option A.

(** a literal *)
Definition lit (p : string) (k : cont) : cont :=
  fun pos s =>
    match strip_prefix p s with
    | Some r => k (pos + String.length p) r
    | None => None
    end.

(** one character of a class *)
Definition cls (f : ascii -> bool) (k : cont) : cont :=
  fun pos s =>
    match s with
    | String c r => if f c then k (S pos) r else None
    | EmptyString => None
    end.

(** [f*], greedy *)
Fixpoint star (f : ascii -> bool) (k : cont) (pos : nat) (s : string)
  : option A :=
  match s with
  | String c r =>
      if f c then
        match star f k (S pos) r with
        | Some x => Some x
        | None => k pos s
        end
      else k pos s
  | EmptyString => k pos s
  end.

(** [f+], greedy *)
Definition plus (f : ascii -> bool) (k : cont) : cont :=
  cls f (star f k).

(** [^], without [re.MULTILINE]: the start of the text only *)
Definition bol (k : cont) : cont :=
  fun pos s => if (pos =? 0)%nat then k pos s else None.

(** [$], without [re.MULTILINE]: the end of the text, or just before
    a newline that ends it *)
Definition eol (k : cont) : cont :=
  fun pos s =>
    match s with
    | EmptyString => k pos s
    | String c EmptyString => if Ascii.eqb c newline then k pos s else None
    | _ => None
    end.
End Matcher.

(** [(?!p)]: succeeds, consuming nothing, where [p] does not match *)
Definition neg_lookahead (A : Type) (p : cont unit -> cont unit)
    (k : cont A) : cont A :=
  fun pos s =>
    match p (fun _ _ => Some tt) pos s with
    | Some _ => None
    | None => k pos s
    end.

Definition accept : cont unit := fun _ _ => Some tt.

Definition is_some (A : Type) (o : option A) : bool :=
  match o with Some _ => true | None => false end.

(** [re.match(p, s)] as a truth value *)
Definition re_match (p : cont unit -> cont unit) (s : string) : bool :=
  is_some (p accept 0 s).

(** [re.search(p, s)] as a truth value: a match at some position *)
Fixpoint search_from (p : cont unit -> cont unit) (pos : nat) (s : string)
  : bool :=
  is_some (p accept pos s)
  || match s with
     | EmptyString => false
     | String _ r => search_from p (S pos) r
     end.

Definition re_search (p : cont unit -> cont unit) (s : string) : bool :=
  search_from p 0 s.

(** ** The patterns *)

Definition alnum (c : ascii) : bool := is_lower c || is_upper c || is_digit c.
Definition lower_digit (c : ascii) : bool := is_lower c || is_digit c.
Definition lower_digit_dash (c : ascii) : bool :=
  is_lower c || is_digit c || Ascii.eqb c "-"%char.

(** [^[a-z][a-zA-Z0-9]*$] *)
Definition camel_case : cont unit -> cont unit :=
  fun k => bol (cls is_lower (star alnum (eol k))).

(** [^[a-z][a-z0-9-]*[a-z0-9]$] *)
Definition kebab_case : cont unit -> cont unit :=
  fun k => bol (cls is_lower (star lower_digit_dash (cls lower_digit (eol k)))).

(** [^[A-Z][a-zA-Z0-9]*$], the body of the lookahead of [class_pattern] *)
Definition pascal_anchored : cont unit -> cont unit :=
  fun k => bol (cls is_upper (star alnum (eol k))).

(** [^I[A-Z][a-zA-Z0-9]*$], the body of the lookahead of
    [interface_pattern] *)
Definition ipascal_anchored : cont unit -> cont unit :=
  fun k => bol (lit "I" (cls is_upper (star alnum (eol k)))).

(** [TODO\s*\(@\w+\)] *)
Definition todo_assignee : cont unit -> cont unit :=
  fun k => lit "TODO" (star is_space (lit "(@" (plus is_word (lit ")" k)))).

(** [\s*function] *)
Definition function_decl : cont unit -> cont unit :=
  fun k => star is_space (lit "function" k).

(** [\s*const\s+\w+\s*=\s*function] *)
Definition const_function_decl : cont unit -> cont unit :=
  fun k =>
    star is_space (lit "const" (plus is_space (plus is_word
      (star is_space (lit "=" (star is_space (lit "function" k))))))).

(** A match of a pattern with one group: the spans of the match and of
    group 1, as offsets into the text searched. *)
Record span1 := {
  m_start : nat;
  m_end : nat;
  g1_start : nat;
  g1_end : nat
}.

(** [keyword\s+(?!la)(\w+)], tried at position [pos] *)
Definition keyword_name (keyword : string)
    (la : cont unit -> cont unit) (pos : nat) (s : string) : option span1 :=
  lit keyword
    (plus is_space
      (neg_lookahead la
        (fun g0 =>
           plus is_word
             (fun g1 _ =>
                Some {| m_start := pos; m_end := g1;
                        g1_start := g0; g1_end := g1 |}) g0)))
    pos s.

(** [class\s+(?!^[A-Z][a-zA-Z0-9]*$)(\w+)] *)
Definition class_pattern : nat -> string -> option span1 :=
  keyword_name "class" pascal_anchored.

(** [interface\s+(?!^I[A-Z][a-zA-Z0-9]*$)(\w+)] *)
Definition interface_pattern : nat -> string -> option span1 :=
  keyword_name "interface" ipascal_anchored.

(** [re.finditer(p, content)]: the matches from left to right, each
    search resuming where the previous match ended.  [skip] counts the
    characters still inside the previous match.  (The patterns here
    match no empty text.) *)
Fixpoint finditer_from (p : nat -> string -> option span1)
    (skip pos : nat) (s : string) : list span1 :=
  match skip with
  | S skip' =>
      match s with
      | String _ r => finditer_from p skip' (S pos) r
      | EmptyString => []
      end
  | O =>
      match p pos s with
      | Some m =>
          m :: match s with
               | String _ r =>
                   finditer_from p (m_end m - pos - 1) (S pos) r
               | EmptyString => []
               end
      | None =>
          match s with
          | String _ r => finditer_from p 0 (S pos) r
          | EmptyString => []
          end
      end
  end.

Definition finditer (p : nat -> string -> option span1) (content : string)
  : list span1 :=
  finditer_from p 0 0 content.

(** [match.group(1)] *)
Definition group1 (content : string) (m : span1) : string :=
  take (g1_end m - g1_start m) (drop (g1_start m) content).

End Re.

(* ------------------------------------------------------------------ *)
(** * posixpath *)

Module OsPath.
Import PyStr.

(** [os.path.join(a, b)] *)
Definition join (a b : string) : string :=
  if startswith "/" b then b
  else if String.eqb a "" || endswith "/" a then a ++ b
  else a ++ "/" ++ b.

(** [os.path.basename(p)]: the text after the last slash. *)
Fixpoint basename (p : string) : string :=
  match p with
  | EmptyString => EmptyString
  | String c p' =>
      if contains "/" p then basename p' else p
  end.

End OsPath.

(* ------------------------------------------------------------------ *)
(** * Data model *)

Record ConventionViolation := {
  file_path : string;
  line_number : Z;
  rule : string;
  message : string
}.

(** The exception classes that occur in a run. *)
Inductive exn_class :=
| OSError              (* with FileNotFoundError, PermissionError *)
| UnicodeDecodeError
| JSONDecodeError
| CalledProcessError
| KeyError
| TypeError
| AttributeError
| ValueError.

Record exn := { exn_cls : exn_class; exn_str : string }.

Definition exn_class_eqb (a b : exn_class) : bool :=
  match a, b with
  | OSError, OSError | UnicodeDecodeError, UnicodeDecodeError
  | JSONDecodeError, JSONDecodeError | CalledProcessError, CalledProcessError
  | KeyError, KeyError | TypeError, TypeError
  | AttributeError, AttributeError | ValueError, ValueError => true
  | _, _ => false
  end.

(** How a call ends.  [Untyped] is no Python exception: it marks the point
    where the external linter's output puts a value into a
    [ConventionViolation] that its declared field types exclude (a file path
    or message that is no string, a line that is no integer).  Python goes
    on with such a record; this typed model has no value for it and stops. *)
Inductive outcome (A : Type) :=
| Return (a : A)
| Raise (e : exn)
| Untyped.
Arguments Raise {A} e.
Arguments Untyped {A}.

(** What [json.loads] builds. *)
#[local] Unset Elimination Schemes.
Inductive json :=
| JNull
| JBool (b : bool)
| JInt (n : Z)
| JFloat (repr : string)
| JStr (s : string)
| JList (items : list json)
| JDict (items : list (string * json)).   (* keys distinct, insertion order *)
#[local] Set Elimination Schemes.

(** What opening and reading a file gives: [open] fails, or the file
    delivers [text] (as decoded, before newline translation) and then ends,
    or fails with [fault] after delivering [text]. *)
Inductive file_outcome :=
| OpenError (e : exn)
| Stream (text : string) (fault : option exn).

(** What [subprocess.run] gives: it raises (the command cannot be started),
    or the process completes. *)
Inductive process_outcome :=
| SpawnError (e : exn)
| Completed (returncode : Z) (stdout : string).

Record world := {
  (** [os.path.exists] *)
  path_exists : string -> bool;
  (** [os.walk(top)]: the triples (root, dirs, files) in the order yielded *)
  walk : string -> list (string * list string * list string);
  (** [open(path, 'r', encoding='utf-8')] and reading from it *)
  open_utf8 : string -> file_outcome;
  (** [subprocess.run(['npx', 'eslint', '.', '--format', 'json'],
      capture_output=True, text=True, cwd=cwd)] *)
  run_npx_eslint : string -> process_outcome;
  (** [json.loads]: the value, or the text of the [JSONDecodeError] *)
  json_loads : string -> json + string;
  (** [os.path.relpath(path, start)] for a non-empty [path] *)
  relpath : string -> string -> string
}.

Inductive log_level := INFO | ERROR.

Record log_record := { level : log_level; text_of : string }.

(** The fields of a checker object. *)
Record checker := {
  project_path : string;
  violations : list ConventionViolation
}.

(** What a method of the checker sees and changes: its object and the log. *)
Record state := {
  self : checker;
  log : list log_record
}.

(* ------------------------------------------------------------------ *)
(** * The monad of the checker's methods *)

Definition M (A : Type) : Type := state -> outcome A * state.

Definition ret (A : Type) (a : A) : M A := fun s => (Return a, s).

Definition bind (A B : Type) (m : M A) (k : A -> M B) : M B :=
  fun s =>
    match m s with
    | (Return a, s') => k a s'
    | (Raise e, s') => (Raise e, s')
    | (Untyped, s') => (Untyped, s')
    end.

Notation "x <- m ;; k" := (bind m (fun x => k))
  (at level 61, m at next level, right associativity).
Notation "m ;; k" := (bind m (fun _ => k))
  (at level 61, right associativity).

Definition raise {A : Type} (e : exn) : M A := fun s => (Raise e, s).

Definition untyped {A : Type} : M A := fun s => (Untyped, s).

(** [try: m  except cls_1: h_1 ... except cls_n: h_n] *)
Fixpoint handler_for (hs : list (exn_class * (exn -> M unit))) (e : exn)
  : option (M unit) :=
  match hs with
  | [] => None
  | (c, h) :: hs' =>
      if exn_class_eqb (exn_cls e) c then Some (h e) else handler_for hs' e
  end.

Definition try_except (m : M unit) (hs : list (exn_class * (exn -> M unit)))
  : M unit :=
  fun s =>
    match m s with
    | (Raise e, s') =>
        match handler_for hs e with
        | Some h => h s'
        | None => (Raise e, s')
        end
    | r => r
    end.

(** [for x in xs: body] *)
Fixpoint for_each (X : Type) (xs : list X) (body : X -> M unit) : M unit :=
  match xs with
  | [] => ret tt
  | x :: xs' => body x ;; for_each xs' body
  end.

(** [if b: m] *)
Definition when (b : bool) (m : M unit) : M unit := if b then m else ret tt.

Definition get_project_path : M string :=
  fun s => (Return (project_path (self s)), s).

Definition get_violations : M (list ConventionViolation) :=
  fun s => (Return (violations (self s)), s).

(** [self.violations.append(v)] *)
Definition append_violation (v : ConventionViolation) : M unit :=
  fun s =>
    (Return tt,
     {| self := {| project_path := project_path (self s);
                   violations := (violations (self s) ++ [v])%list |};
        log := log s |}).

(** [self.logger.info(msg)], [self.logger.error(msg)] *)
Definition logger (lv : log_level) (msg : string) : M unit :=
  fun s =>
    (Return tt,
     {| self := self s;
        log := (log s ++ [{| level := lv; text_of := msg |}])%list |}).

(** [enumerate(xs, start)] *)
Fixpoint enumerate (X : Type) (start : nat) (xs : list X) : list (nat * X) :=
  match xs with
  | [] => []
  | x :: xs' => (start, x) :: enumerate (S start) xs'
  end.

(** [xs[lo:hi]] for [0 <= lo] and [0 <= hi] *)
Definition slice (X : Type) (lo hi : nat) (xs : list X) : list X :=
  firstn (hi - lo) (skipn lo xs).

Definition nl : string := String PyStr.newline EmptyString.

(* ------------------------------------------------------------------ *)
(** * The checks *)

Section Checks.
Import PyStr.
Variable w : world.

Definition required_files : list string :=
  ["package.json"; "tsconfig.json"; "README.md"].
Definition required_dirs : list string := ["src"; "test"; "dist"].

Definition project_structure_violation (root kind name : string)
  : ConventionViolation :=
  {| file_path := root;
     line_number := 0;
     rule := "project_structure";
     message := "Missing required " ++ kind ++ ": " ++ name |}.

Definition missing (root name : string) : bool :=
  negb (path_exists w (OsPath.join root name)).

Definition check_project_structure : M unit :=
  root <- get_project_path ;;
  for_each required_files (fun file =>
    when (missing root file)
      (append_violation (project_structure_violation root "file" file))) ;;
  for_each required_dirs (fun directory =>
    when (missing root directory)
      (append_violation
         (project_structure_violation root "directory" directory))).

Definition recognised_endings : list string :=
  [".ts"; ".tsx"; ".test.ts"; ".spec.ts"].

Definition check_file_naming (path : string) : M unit :=
  let filename := OsPath.basename path in
  when (negb (endswith_any recognised_endings filename))
    (append_violation
       {| file_path := path;
          line_number := 0;
          rule := "file_naming";
          message := "Invalid file extension: " ++ filename |}) ;;
  let name_without_ext := before_first_dot filename in
  when (negb (Re.re_match Re.camel_case name_without_ext
              || Re.re_match Re.kebab_case name_without_ext))
    (append_violation
       {| file_path := path;
          line_number := 0;
          rule := "file_naming";
          message :=
            "File name should be camelCase or kebab-case: " ++ filename |}).

(** [for line_num, line in enumerate(file, 1): body], under
    [with open(path, 'r', encoding='utf-8') as file]: the lines delivered
    are processed before a fault of the stream is raised. *)
Definition for_lines_of_file (path : string) (body : nat * string -> M unit)
  : M unit :=
  match open_utf8 w path with
  | OpenError e => raise e
  | Stream text fault =>
      for_each (enumerate 1 (lines (translate_newlines text))) body ;;
      match fault with
      | Some e => raise e
      | None => ret tt
      end
  end.

(** [file.read()] under the same [with]: the whole text or the error. *)
Definition read_file (path : string) : M string :=
  match open_utf8 w path with
  | OpenError e => raise e
  | Stream _ (Some e) => raise e
  | Stream text None => ret (translate_newlines text)
  end.

(** [file.readlines()] *)
Definition readlines_file (path : string) : M (list string) :=
  content <- read_file path ;;
  ret (lines content).

Definition line_length_violation (path : string) (max_length : Z)
    (line_num : nat) : ConventionViolation :=
  {| file_path := path;
     line_number := Z.of_nat line_num;
     rule := "line_length";
     message := "Line exceeds " ++ of_Z max_length ++ " characters" |}.

Definition too_long (max_length : Z) (line : string) : bool :=
  (max_length <? Z.of_nat (String.length (rstrip line)))%Z.

Definition check_line_length (path : string) (max_length : Z) : M unit :=
  for_lines_of_file path (fun '(line_num, line) =>
    when (too_long max_length line)
      (append_violation (line_length_violation path max_length line_num))).

(** [content[:match.start()].count('\n') + 1] *)
Definition line_of_match (content : string) (m : Re.span1) : Z :=
  Z.of_nat (count_newlines (take (Re.m_start m) content) + 1).

Definition check_naming_conventions (path : string) : M unit :=
  content <- read_file path ;;
  for_each (Re.finditer Re.class_pattern content) (fun m =>
    append_violation
      {| file_path := path;
         line_number := line_of_match content m;
         rule := "naming_convention";
         message :=
           "Class name should be PascalCase: " ++ Re.group1 content m |}) ;;
  for_each (Re.finditer Re.interface_pattern content) (fun m =>
    append_violation
      {| file_path := path;
         line_number := line_of_match content m;
         rule := "naming_convention";
         message :=
           "Interface name should be PascalCase with I prefix: "
           ++ Re.group1 content m |}).

(** [import_lines] and [current_section] of the source are local and never
    read; they leave no trace in the result. *)
Definition check_imports (path : string) : M unit :=
  content <- readlines_file path ;;
  for_each (enumerate 1 content) (fun '(line_num, line) =>
    when (startswith "import" (strip line))
      (when (contains ".." line)
         (append_violation
            {| file_path := path;
               line_number := Z.of_nat line_num;
               rule := "imports";
               message := "Avoid using parent directory imports (..)" |}))).

Definition todo_violation (path : string) (line_num : nat)
  : ConventionViolation :=
  {| file_path := path;
     line_number := Z.of_nat line_num;
     rule := "documentation";
     message := "TODO comment should have an assignee (@username)" |}.

Definition jsdoc_violation (path : string) (line_num : nat)
  : ConventionViolation :=
  {| file_path := path;
     line_number := Z.of_nat line_num;
     rule := "documentation";
     message := "Missing JSDoc comment for function" |}.

(** ['TODO' in line and not re.search(r'TODO\s*\(@\w+\)', line)] *)
Definition todo_unassigned (line : string) : bool :=
  contains "TODO" line && negb (Re.re_search Re.todo_assignee line).

(** [re.match(r'\s*function', line)
     or re.match(r'\s*const\s+\w+\s*=\s*function', line)] *)
Definition looks_like_function (line : string) : bool :=
  Re.re_match Re.function_decl line
  || Re.re_match Re.const_function_decl line.

(** [line_num > 1 and not any('/**' in l
       for l in content[max(0, line_num-4):line_num-1])];
    on [nat], [line_num - 4] is already [max(0, line_num-4)]. *)
Definition lacks_jsdoc (content : list string) (line_num : nat) : bool :=
  (1 <? line_num)%nat
  && negb (existsb (contains "/**")
             (slice (Nat.max 0 (line_num - 4)) (line_num - 1) content)).

Definition check_comments_documentation (path : string) : M unit :=
  content <- readlines_file path ;;
  for_each (enumerate 1 content) (fun '(line_num, line) =>
    when (todo_unassigned line)
      (append_violation (todo_violation path line_num)) ;;
    when (looks_like_function line)
      (when (lacks_jsdoc content line_num)
         (append_violation (jsdoc_violation path line_num)))).

(** ** The external linter *)

(** [d[key]] on what [json.loads] built *)
Definition subscript (d : json) (key : string) : outcome json :=
  match d with
  | JDict items =>
      match find (fun kv => String.eqb (fst kv) key) items with
      | Some kv => Return (snd kv)
      | None => Raise {| exn_cls := KeyError; exn_str := key |}
      end
  | JList _ | JStr _ =>
      Raise {| exn_cls := TypeError;
               exn_str := "indices must be integers" |}
  | JNull | JBool _ | JInt _ | JFloat _ =>
      Raise {| exn_cls := TypeError;
               exn_str := "object is not subscriptable" |}
  end.

(** [for x in v]: the items iterated *)
Definition iterate (v : json) : outcome (list json) :=
  match v with
  | JList items => Return items
  | JDict items => Return (map (fun kv => JStr (fst kv)) items)
  | JStr s =>
      Return (map (fun c => JStr (String c EmptyString))
                  (list_ascii_of_string s))
  | JNull | JBool _ | JInt _ | JFloat _ =>
      Raise {| exn_cls := TypeError; exn_str := "object is not iterable" |}
  end.

(** [d.get(key, default)] *)
Definition get_default (d : json) (key : string) (default : json)
  : outcome json :=
  match d with
  | JDict items =>
      match find (fun kv => String.eqb (fst kv) key) items with
      | Some kv => Return (snd kv)
      | None => Return default
      end
  | _ =>
      Raise {| exn_cls := AttributeError;
               exn_str := "object has no attribute 'get'" |}
  end.

Definition lift (A : Type) (o : outcome A) : M A := fun s => (o, s).

Definition as_str (v : json) : M string :=
  match v with JStr s => ret s | _ => untyped end.

Definition as_int (v : json) : M Z :=
  match v with JInt n => ret n | _ => untyped end.

Definition eslint_violations (eslint_results : json) : M unit :=
  file_results <- lift (iterate eslint_results) ;;
  for_each file_results (fun file_result =>
    messages <- lift (subscript file_result "messages") ;;
    messages <- lift (iterate messages) ;;
    for_each messages (fun msg =>
      path <- lift (subscript file_result "filePath") ;;
      line <- lift (get_default msg "line" (JInt 0)) ;;
      text <- lift (subscript msg "message") ;;
      path <- as_str path ;;
      line <- as_int line ;;
      text <- as_str text ;;
      append_violation
        {| file_path := path;
           line_number := line;
           rule := "eslint";
           message := text |})).

Definition run_eslint_check : M unit :=
  try_except
    (root <- get_project_path ;;
     match run_npx_eslint w root with
     | SpawnError e => raise e
     | Completed returncode stdout =>
         when (negb (returncode =? 0)%Z)
           match json_loads w stdout with
           | inr msg => raise {| exn_cls := JSONDecodeError; exn_str := msg |}
           | inl eslint_results => eslint_violations eslint_results
           end
     end)
    [ (CalledProcessError,
       fun e => logger ERROR ("Error running ESLint: " ++ exn_str e));
      (JSONDecodeError,
       fun e => logger ERROR ("Error parsing ESLint output: " ++ exn_str e)) ].

(** ** The run *)

Definition is_typescript (file : string) : bool :=
  endswith_any [".ts"; ".tsx"] file.

Definition check_file (path : string) : M unit :=
  logger INFO ("Checking file: " ++ path) ;;
  check_file_naming path ;;
  check_line_length path 100 ;;
  check_naming_conventions path ;;
  check_imports path ;;
  check_comments_documentation path.

Definition check_files : M unit :=
  top <- get_project_path ;;
  for_each (walk w top) (fun '(root, _, files) =>
    for_each files (fun file =>
      when (is_typescript file) (check_file (OsPath.join root file)))).

(** The statements of [check_all] before its [return]. *)
Definition check_all_steps : M unit :=
  logger INFO "Starting convention checks..." ;;
  check_project_structure ;;
  check_files ;;
  run_eslint_check ;;
  logger INFO "Convention checks completed.".

Definition check_all : M (list ConventionViolation) :=
  check_all_steps ;;
  get_violations.

End Checks.

(* ------------------------------------------------------------------ *)
(** * The report *)

Section Report.
Import PyStr.
Variable w : world.

(** The characters that end the message of the source are not all in the
    8-bit range; they stand here as the UTF-8 bytes the source file has. *)
Definition report_tail : string :=
  string_of_list_ascii
    (map ascii_of_nat [195; 176; 197; 184; 197; 189; 226; 128; 176]).

Definition report_title : string := "# Convention Check Report" ++ nl.

Definition no_violations_report : string :=
  report_title ++ nl ++ "No violations found! " ++ report_tail.

(** [violations_by_file], a [dict]: the keys in insertion order. *)
Definition dict : Type := list (string * list ConventionViolation).

(** [key in d] *)
Definition dict_mem (key : string) (d : dict) : bool :=
  existsb (fun kv => String.eqb (fst kv) key) d.

(** [d[key] = []] for a key that [d] does not hold *)
Definition dict_new (key : string) (d : dict) : dict :=
  (d ++ [(key, [])])%list.

(** [d[key].append(v)] *)
Fixpoint dict_append (key : string) (v : ConventionViolation) (d : dict)
  : dict :=
  match d with
  | [] => []
  | (k, vs) :: d' =>
      if String.eqb k key then (k, (vs ++ [v])%list) :: d'
      else (k, vs) :: dict_append key v d'
  end.

Definition group_step (d : dict) (v : ConventionViolation) : dict :=
  let key := file_path v in
  dict_append key v (if dict_mem key d then d else dict_new key d).

Definition violations_by_file (vs : list ConventionViolation) : dict :=
  fold_left group_step vs [].

(** [os.path.relpath(path, start)] *)
Definition os_path_relpath (path start : string) : outcome string :=
  if String.eqb path ""
  then Raise {| exn_cls := ValueError; exn_str := "no path specified" |}
  else Return (relpath w path start).

Definition heading (rel : string) : string := nl ++ "## " ++ rel ++ nl.

Definition violation_line (v : ConventionViolation) : string :=
  "- Line " ++ of_Z (line_number v) ++ ": [" ++ rule v ++ "] " ++ message v.

Definition total_line (vs : list ConventionViolation) : string :=
  "Total violations found: " ++ of_nat (List.length vs) ++ nl.

(** The loop over [violations_by_file.items()]: what it appends to
    [report]. *)
Fixpoint report_sections (start : string) (d : dict)
  : outcome (list string) :=
  match d with
  | [] => Return []
  | (key, file_violations) :: d' =>
      match os_path_relpath key start with
      | Return rel =>
          match report_sections start d' with
          | Return rest =>
              Return (heading rel :: map violation_line file_violations
                      ++ rest)%list
          | Raise e => Raise e
          | Untyped => Untyped
          end
      | Raise e => Raise e
      | Untyped => Untyped
      end
  end.

Definition generate_report (c : checker) : outcome string :=
  match violations c with
  | [] => Return no_violations_report
  | _ :: _ =>
      match report_sections (project_path c)
              (violations_by_file (violations c)) with
      | Return sections =>
          Return (join nl (report_title :: total_line (violations c)
                           :: sections))
      | Raise e => Raise e
      | Untyped => Untyped
      end
  end.

End Report.

(* ------------------------------------------------------------------ *)
(** * Checker objects

    A checker is an object; [self.violations] is bound once, in
    [__init__], to a new list that every check extends in place and that
    [check_all] returns.  So the list a run returns is the list of its
    checker: a result is the address of that checker, and what it holds is
    read from the heap at the time of reading. *)

Record process := {
  objects : nat -> checker;
  next_object : nat;
  process_log : list log_record
}.

Inductive list_ref := ViolationsOf (a : nat).

(** [TypeScriptConventionChecker(project_path)] *)
Definition new_checker (path : string) (p : process) : nat * process :=
  (next_object p,
   {| objects := fun a =>
        if (a =? next_object p)%nat
        then {| project_path := path; violations := [] |}
        else objects p a;
      next_object := S (next_object p);
      process_log := process_log p |}).

(** A method call on the checker at address [a]. *)
Definition call (A : Type) (a : nat) (m : M A) (p : process)
  : outcome A * process :=
  match m {| self := objects p a; log := process_log p |} with
  | (o, s') =>
      (o,
       {| objects := fun b => if (b =? a)%nat then self s' else objects p b;
          next_object := next_object p;
          process_log := log s' |})
  end.

(** [checker.check_all()]: the list returned is the checker's own. *)
Definition call_check_all (w : world) (a : nat) (p : process)
  : outcome list_ref * process :=
  match call a (check_all w) p with
  | (Return _, p') => (Return (ViolationsOf a), p')
  | (Raise e, p') => (Raise e, p')
  | (Untyped, p') => (Untyped, p')
  end.

(** The elements of a list object, as the heap of [p] has them. *)
Definition deref (p : process) (r : list_ref) : list ConventionViolation :=
  match r with ViolationsOf a => violations (objects p a) end.

(** A run as [main] performs it: a new checker for the root, then
    [check_all]. *)
Definition run_all_checks (w : world) (root : string) (p : process)
  : outcome list_ref * process :=
  let (a, p1) := new_checker root p in
  call_check_all w a p1.

(* ------------------------------------------------------------------ *)
(** * Specification-side definitions *)

(** The state [s] with [d] appended to the violations. *)
Definition add (s : state) (d : list ConventionViolation) : state :=
  {| self := {| project_path := project_path (self s);
                violations := (violations (self s) ++ d)%list |};
     log := log s |}.

Definition mk_state (root : string) (vs : list ConventionViolation)
    (lg : list log_record) : state :=
  {| self := {| project_path := root; violations := vs |}; log := lg |}.

(** A computation that only appends: from a checker with project path
    [root] it ends in one way, appends one list of violations, all
    satisfying [P], and one list of log records, whatever the checker and
    the log held before. *)
Definition appender (P : ConventionViolation -> Prop) (A : Type) (m : M A)
  : Prop :=
  forall root, exists o d lg,
    Forall P d /\
    forall vs l0,
      m (mk_state root vs l0) = (o, mk_state root (vs ++ d) (l0 ++ lg)%list).

(** The paths [check_all] hands to the per-file checks, in order. *)
Definition discovered (w : world) (top : string) : list string :=
  flat_map (fun '(root, _, files) =>
              map (OsPath.join root) (filter is_typescript files))
           (walk w top).

(** The lines a file delivers to a check that iterates over it: none when
    it cannot be opened, those before the fault when it fails midway. *)
Definition lines_of (w : world) (path : string) : list string :=
  match open_utf8 w path with
  | Stream text _ => PyStr.lines (PyStr.translate_newlines text)
  | OpenError _ => []
  end.

(** PascalCase, and PascalCase with a leading I, as the patterns of the
    source spell them. *)
Definition is_pascal_case (name : string) : bool :=
  Re.re_match Re.pascal_anchored name.
Definition is_i_pascal_case (name : string) : bool :=
  Re.re_match Re.ipascal_anchored name.

(** An occurrence of TODO at offset [i] of [line] that no assignee
    annotation follows. *)
Definition unassigned_todo_at (line : string) (i : nat) : bool :=
  PyStr.startswith "TODO" (PyStr.drop i line)
  && negb (Re.is_some (Re.todo_assignee Re.accept i (PyStr.drop i line))).

Definition violation_eq_dec (a b : ConventionViolation) : {a = b} + {a <> b}.
Proof.
  decide equality; try apply string_dec; apply Z.eq_dec.
Defined.

(** The keys of a grouping by first occurrence. *)
Fixpoint first_occurrences (keys : list string) : list string :=
  match keys with
  | [] => []
  | k :: keys' =>
      k :: filter (fun k' => negb (String.eqb k' k)) (first_occurrences keys')
  end.

(** The violations of one file, in encounter order. *)
Definition of_file (key : string) (vs : list ConventionViolation)
  : list ConventionViolation :=
  filter (fun v => String.eqb (file_path v) key) vs.

(** The grouping the report is specified to use. *)
Definition grouped (vs : list ConventionViolation)
  : list (string * list ConventionViolation) :=
  map (fun key => (key, of_file key vs)) (first_occurrences (map file_path vs)).

(** The "Invalid file extension" finding of the file naming check. *)
Definition invalid_extension_finding (v : ConventionViolation) : bool :=
  String.eqb (rule v) "file_naming"
  && PyStr.startswith "Invalid file extension" (message v).

(** What the project structure check appends for the root [root]: the
    missing required files, then the missing required directories. *)
Definition structure_findings (w : world) (root : string)
  : list ConventionViolation :=
  (map (project_structure_violation root "file")
       (filter (missing w root) required_files)
   ++ map (project_structure_violation root "directory")
          (filter (missing w root) required_dirs))%list.

(** What the line length check appends for the lines [ls]. *)
Definition line_length_findings (path : string) (max_length : Z)
    (ls : list string) : list ConventionViolation :=
  flat_map (fun '(line_num, line) =>
              if too_long max_length line
              then [line_length_violation path max_length line_num]
              else [])
           (enumerate 1 ls).

(** What the documentation check appends for one line of [content]. *)
Definition documentation_findings_of_line (path : string)
    (content : list string) (numbered : nat * string)
  : list ConventionViolation :=
  let '(line_num, line) := numbered in
  ((if todo_unassigned line then [todo_violation path line_num] else [])
   ++ (if looks_like_function line && lacks_jsdoc content line_num
       then [jsdoc_violation path line_num] else []))%list.

Definition documentation_findings (path : string) (content : list string)
  : list ConventionViolation :=
  flat_map (documentation_findings_of_line path content)
           (enumerate 1 content).

(** The error a read of the whole file raises, if any. *)
Definition file_error (w : world) (path : string) : option exn :=
  match open_utf8 w path with
  | OpenError e => Some e
  | Stream _ fault => fault
  end.

(** A computation that never fails. *)
Definition returns (A : Type) (m : M A) : Prop :=
  forall s, exists a s', m s = (Return a, s').

(** No "Invalid file extension" finding. *)
Definition extension_accepted (v : ConventionViolation) : Prop :=
  invalid_extension_finding v = false.

(* ------------------------------------------------------------------ *)
(** * Sample projects and auxiliary definitions *)

Definition empty_world : world :=
  {| path_exists := fun _ => false;
     walk := fun _ => [];
     open_utf8 := fun _ =>
       OpenError {| exn_cls := OSError; exn_str := "No such file" |};
     run_npx_eslint := fun _ => Completed 0 "[]";
     json_loads := fun _ => inl (JList []);
     relpath := fun path _ => path |}.

Definition sample_text : string :=
  "ab" ++ nl ++ "abcdefgh  " ++ nl.

Definition sample_world : world :=
  {| path_exists := fun _ => false;
     walk := fun _ => [];
     open_utf8 := fun _ => Stream sample_text None;
     run_npx_eslint := fun _ => Completed 0 "[]";
     json_loads := fun _ => inl (JList []);
     relpath := fun path _ => path |}.

Definition todo_line : string := "// TODO(@alice) keep, TODO drop".

Definition todo_world : world :=
  {| path_exists := fun _ => false;
     walk := fun _ => [];
     open_utf8 := fun _ => Stream (todo_line ++ nl) None;
     run_npx_eslint := fun _ => Completed 0 "[]";
     json_loads := fun _ => inl (JList []);
     relpath := fun path _ => path |}.

Definition jsdoc_text : string :=
  "/** adds */" ++ nl ++ "function add(a, b) {" ++ nl ++ "}" ++ nl ++ nl
  ++ nl ++ "const sub = function (a, b) {" ++ nl.

Definition jsdoc_world : world :=
  {| path_exists := fun _ => false;
     walk := fun _ => [];
     open_utf8 := fun _ => Stream jsdoc_text None;
     run_npx_eslint := fun _ => Completed 0 "[]";
     json_loads := fun _ => inl (JList []);
     relpath := fun path _ => path |}.




Definition pascal_text : string :=
  "class Foo {}" ++ nl ++ "interface IShape {}" ++ nl.

Definition pascal_world : world :=
  {| path_exists := fun _ => true;
     walk := fun _ => [(".", [], ["a.ts"])];
     open_utf8 := fun _ => Stream pascal_text None;
     run_npx_eslint := fun _ => Completed 0 "[]";
     json_loads := fun _ => inl (JList []);
     relpath := fun path _ => path |}.

Definition npx_not_found : exn :=
  {| exn_cls := OSError;
     exn_str := "[Errno 2] No such file or directory: 'npx'" |}.

(** A complete project on a machine without [npx]. *)
Definition no_npx_world : world :=
  {| path_exists := fun _ => true;
     walk := fun _ => [];
     open_utf8 := fun _ => Stream "" None;
     run_npx_eslint := fun _ => SpawnError npx_not_found;
     json_loads := fun _ => inr "Expecting value";
     relpath := fun path _ => path |}.

Definition mem (key : string) (keys : list string) : bool :=
  existsb (fun k => String.eqb k key) keys.

(** The sections of the report, one per group. *)
Definition sections_of (w : world) (start : string)
    (groups : list (string * list ConventionViolation)) : list string :=
  flat_map (fun kv => heading (relpath w (fst kv) start)
                      :: map violation_line (snd kv))
           groups.

Definition sample_violations : list ConventionViolation :=
  [ {| file_path := "/p/src/b.ts"; line_number := 7; rule := "line_length";
       message := "Line exceeds 100 characters" |};
    {| file_path := "/p/src/a.ts"; line_number := 3; rule := "imports";
       message := "Avoid using parent directory imports (..)" |};
    {| file_path := "/p/src/b.ts"; line_number := 2; rule := "documentation";
       message := "Missing JSDoc comment for function" |} ].

(** The scenario of the specification: [MyClass.ts] with a badly named
    class on line 3 and a line of 150 characters on line 5. *)
Definition my_class_text : string :=
  nl ++ nl ++ "class myBadName {}" ++ nl ++ nl
  ++ string_of_list_ascii (repeat "a"%char 150) ++ nl.

Definition my_class_world : world :=
  {| path_exists := fun _ => true;
     walk := fun _ => [("/p/src", [], ["MyClass.ts"])];
     open_utf8 := fun _ => Stream my_class_text None;
     run_npx_eslint := fun _ => Completed 0 "[]";
     json_loads := fun _ => inl (JList []);
     relpath := fun path _ => path |}.




(* ------------------------------------------------------------------ *)
(** * Further specification-side definitions *)

(** The text the lines [ls] make up. *)
Definition text_of_lines (ls : list string) : string :=
  fold_right String.append EmptyString ls.

(** No character of [s] satisfies [f]. *)
Fixpoint none_of (f : ascii -> bool) (s : string) : bool :=
  match s with
  | EmptyString => true
  | String c s' => negb (f c) && none_of f s'
  end.

(** Every character of [s] satisfies [f]. *)
Fixpoint all_of (f : ascii -> bool) (s : string) : bool :=
  match s with
  | EmptyString => true
  | String c s' => f c && all_of f s'
  end.

Definition is_newline (c : ascii) : bool := Ascii.eqb c PyStr.newline.
Definition is_carriage_return (c : ascii) : bool :=
  Ascii.eqb c PyStr.carriage_return.

(** The two findings of the file naming check. *)
Definition extension_finding (path : string) : ConventionViolation :=
  {| file_path := path;
     line_number := 0;
     rule := "file_naming";
     message := "Invalid file extension: " ++ OsPath.basename path |}.

Definition name_finding (path : string) : ConventionViolation :=
  {| file_path := path;
     line_number := 0;
     rule := "file_naming";
     message := "File name should be camelCase or kebab-case: "
                ++ OsPath.basename path |}.

(** What the file naming check appends for [path]. *)
Definition file_naming_findings (path : string) : list ConventionViolation :=
  let filename := OsPath.basename path in
  let name_without_ext := PyStr.before_first_dot filename in
  ((if negb (PyStr.endswith_any recognised_endings filename)
    then [extension_finding path] else [])
   ++ (if negb (Re.re_match Re.camel_case name_without_ext
                || Re.re_match Re.kebab_case name_without_ext)
       then [name_finding path] else []))%list.

(** A lowercase letter, then letters and digits, then at most a final
    newline. *)
Definition camel_shaped (name : string) : Prop :=
  exists c rest tail,
    name = String c (rest ++ tail)
    /\ PyStr.is_lower c = true /\ all_of Re.alnum rest = true
    /\ (tail = "" \/ tail = nl).

(** A lowercase letter, then lowercase letters, digits and dashes, the
    last of them no dash, then at most a final newline. *)
Definition kebab_shaped (name : string) : Prop :=
  exists c mid e tail,
    name = String c (mid ++ String e tail)
    /\ PyStr.is_lower c = true
    /\ all_of Re.lower_digit_dash mid = true
    /\ Re.lower_digit e = true
    /\ (tail = "" \/ tail = nl).

(** What the import check appends for the lines [content]. *)
Definition import_finding (path : string) (line_num : nat)
  : ConventionViolation :=
  {| file_path := path;
     line_number := Z.of_nat line_num;
     rule := "imports";
     message := "Avoid using parent directory imports (..)" |}.

Definition import_findings (path : string) (content : list string)
  : list ConventionViolation :=
  flat_map (fun '(line_num, line) =>
              if PyStr.startswith "import" (PyStr.strip line)
                 && PyStr.contains ".." line
              then [import_finding path line_num] else [])
           (enumerate 1 content).

(** A line with an assignee annotation: TODO, blanks, an opening
    parenthesis and at sign, a non-empty word, a closing parenthesis. *)
Definition has_assignee (line : string) : Prop :=
  exists pre blanks name post,
    line = pre ++ "TODO" ++ blanks ++ "(@" ++ name ++ ")" ++ post
    /\ all_of PyStr.is_space blanks = true
    /\ all_of PyStr.is_word name = true
    /\ name <> "".

(** A line that begins, after blanks, with the word [import]. *)
Definition import_shaped (line : string) : Prop :=
  exists blanks rest,
    line = blanks ++ "import" ++ rest
    /\ all_of PyStr.is_space blanks = true.

(** A line that begins, after blanks, with [function], or with [const],
    blanks, a word, an equals sign between optional blanks, and
    [function]. *)
Definition function_shaped (line : string) : Prop :=
  exists blanks rest,
    line = blanks ++ "function" ++ rest
    /\ all_of PyStr.is_space blanks = true.

Definition const_function_shaped (line : string) : Prop :=
  exists b0 b1 name b2 b3 rest,
    line = b0 ++ "const" ++ b1 ++ name ++ b2 ++ "=" ++ b3 ++ "function"
           ++ rest
    /\ all_of PyStr.is_space b0 = true
    /\ all_of PyStr.is_space b1 = true /\ b1 <> ""
    /\ all_of PyStr.is_word name = true /\ name <> ""
    /\ all_of PyStr.is_space b2 = true
    /\ all_of PyStr.is_space b3 = true.

(** The two findings of the naming convention check, for a match. *)
Definition class_finding (path content : string) (m : Re.span1)
  : ConventionViolation :=
  {| file_path := path;
     line_number := line_of_match content m;
     rule := "naming_convention";
     message := "Class name should be PascalCase: " ++ Re.group1 content m |}.

Definition interface_finding (path content : string) (m : Re.span1)
  : ConventionViolation :=
  {| file_path := path;
     line_number := line_of_match content m;
     rule := "naming_convention";
     message := "Interface name should be PascalCase with I prefix: "
                ++ Re.group1 content m |}.

(** What the naming convention check appends for the text [content]. *)
Definition naming_findings (path content : string)
  : list ConventionViolation :=
  (map (class_finding path content) (Re.finditer Re.class_pattern content)
   ++ map (interface_finding path content)
          (Re.finditer Re.interface_pattern content))%list.

(** At offset [i] of [content] stand [keyword], blanks and the word
    [name]. *)
Definition declares_at (content keyword : string) (i : nat) (name : string)
  : Prop :=
  exists blanks rest,
    PyStr.drop i content = keyword ++ blanks ++ name ++ rest
    /\ (i <= String.length content)%nat
    /\ all_of PyStr.is_space blanks = true /\ blanks <> ""
    /\ all_of PyStr.is_word name = true /\ name <> "".

(** ** The linter's output, read as it is meant *)

(** [d.get(key)] on a JSON object, for reading well-formed output. *)
Definition dict_get (key : string) (j : json) : option json :=
  match j with
  | JDict items =>
      option_map snd (find (fun kv => String.eqb (fst kv) key) items)
  | _ => None
  end.

(** A message object with a string under "message" and, if it has the
    key "line", an integer under it; other keys are free.  The line is 0
    when the key is absent. *)
Definition message_fields (j : json) : option (Z * string) :=
  match dict_get "message" j with
  | Some (JStr text) =>
      match dict_get "line" j with
      | Some (JInt n) => Some (n, text)
      | Some _ => None
      | None => match j with JDict _ => Some (0%Z, text) | _ => None end
      end
  | _ => None
  end.

Fixpoint all_some (X Y : Type) (f : X -> option Y) (xs : list X)
  : option (list Y) :=
  match xs with
  | [] => Some []
  | x :: xs' =>
      match f x, all_some f xs' with
      | Some y, Some ys => Some (y :: ys)
      | _, _ => None
      end
  end.

(** A file object with a string under "filePath" and a list of message
    objects under "messages". *)
Definition file_fields (j : json) : option (string * list (Z * string)) :=
  match dict_get "filePath" j, dict_get "messages" j with
  | Some (JStr path), Some (JList msgs) =>
      option_map (pair path) (all_some message_fields msgs)
  | _, _ => None
  end.

(** A list of file objects. *)
Definition results_fields (j : json)
  : option (list (string * list (Z * string))) :=
  match j with
  | JList files => all_some file_fields files
  | _ => None
  end.

Definition eslint_finding (path : string) (m : Z * string)
  : ConventionViolation :=
  {| file_path := path;
     line_number := fst m;
     rule := "eslint";
     message := snd m |}.

(** One violation per message, file by file. *)
Definition eslint_findings (files : list (string * list (Z * string)))
  : list ConventionViolation :=
  flat_map (fun f => map (eslint_finding (fst f)) (snd f)) files.

(** Output that parses but is no list: a value that cannot be iterated,
    or an object or a string that is not empty. *)
Definition not_a_list (j : json) : bool :=
  match j with
  | JNull | JBool _ | JInt _ | JFloat _ => true
  | JDict (_ :: _) => true
  | JStr (String _ _) => true
  | _ => false
  end.

(** ** What holds of every violation of a run *)

(** Line 0 goes with the two rules about the project and the file as a
    whole, a line from 1 on with the four rules about lines; the linter's
    violations carry what the linter says. *)
Definition scoped (v : ConventionViolation) : Prop :=
  (line_number v = 0%Z
   /\ (rule v = "project_structure" \/ rule v = "file_naming"))
  \/ ((1 <= line_number v)%Z
      /\ (rule v = "line_length" \/ rule v = "naming_convention"
          \/ rule v = "imports" \/ rule v = "documentation"))
  \/ rule v = "eslint".

(** What the per-file checks and the linter append. *)
Definition from_file_or_linter (v : ConventionViolation) : Prop :=
  scoped v
  /\ rule v <> "project_structure"
  /\ (rule v = "eslint" \/ file_path v <> "").

(** A method that leaves the project path alone and only extends the
    violations and the log, however it ends. *)
Definition only_appends (A : Type) (m : M A) : Prop :=
  forall s, exists d lg,
    project_path (self (snd (m s))) = project_path (self s)
    /\ violations (self (snd (m s))) = (violations (self s) ++ d)%list
    /\ log (snd (m s)) = (log s ++ lg)%list.

(** ** A run over files that can all be read *)

(** The text of a file as the checks that read it whole see it. *)
Definition content_of (w : world) (path : string) : string :=
  match open_utf8 w path with
  | Stream text _ => PyStr.translate_newlines text
  | OpenError _ => ""
  end.

(** What the five per-file checks append for [path], in their order. *)
Definition file_findings (w : world) (path : string)
  : list ConventionViolation :=
  (file_naming_findings path
   ++ line_length_findings path 100 (lines_of w path)
   ++ naming_findings path (content_of w path)
   ++ import_findings path (lines_of w path)
   ++ documentation_findings path (lines_of w path))%list.

(** The state [s] with [lg] appended to the log. *)
Definition with_log (s : state) (lg : list log_record) : state :=
  {| self := self s; log := (log s ++ lg)%list |}.

Definition info (msg : string) : log_record :=
  {| level := INFO; text_of := msg |}.

(** The log of a run that completes without a word from the linter. *)
Definition run_log (paths : list string) : list log_record :=
  (info "Starting convention checks..."
   :: map (fun path => info ("Checking file: " ++ path)) paths
   ++ [info "Convention checks completed."])%list.

(** A process with no checker yet. *)
Definition no_objects : process :=
  {| objects := fun _ => {| project_path := ""; violations := [] |};
     next_object := 0;
     process_log := [] |}.

(** ** The entry point *)

(** What [main] leaves behind when it completes: the text written to
    [convention_report.md] and the line printed. *)
Record main_output := {
  written : string;
  printed : string
}.

Definition summary_line (violations : list ConventionViolation) : string :=
  "Found " ++ PyStr.of_nat (List.length violations)
  ++ " violations. See convention_report.md for details.".

(** [main()].  [write_fault] is the error that opening or writing the
    report file raises, if any; what is then on disk is not modelled. *)
Definition main (w : world) (write_fault : option exn) (p : process)
  : outcome main_output * process :=
  let project_path := "." in
  let (checker, p1) := new_checker project_path p in
  match call_check_all w checker p1 with
  | (Return violations, p2) =>
      match generate_report w (objects p2 checker) with
      | Return report =>
          match write_fault with
          | Some e => (Raise e, p2)
          | None =>
              (Return {| written := report;
                         printed := summary_line (deref p2 violations) |},
               p2)
          end
      | Raise e => (Raise e, p2)
      | Untyped => (Untyped, p2)
      end
  | (Raise e, p2) => (Raise e, p2)
  | (Untyped, p2) => (Untyped, p2)
  end.

(** A complete project without source files, where the linter finds
    nothing. *)
Definition no_files_world : world :=
  {| path_exists := fun _ => true;
     walk := fun _ => [(".", ["src"; "test"; "dist"], ["package.json"])];
     open_utf8 := fun _ => Stream "" None;
     run_npx_eslint := fun _ => Completed 0 "[]";
     json_loads := fun _ => inl (JList []);
     relpath := fun path _ => path |}.

(** ** Further sample projects *)

(** The shape of a line: text without newline, then a newline or, for a
    last line that lacks it, nothing. *)
Definition line_shape (l : string) : Prop :=
  exists body,
    none_of is_newline body = true
    /\ (l = body ++ nl \/ (l = body /\ body <> "")).

Definition ends_open (s : string) : bool :=
  negb (PyStr.endswith nl s || String.eqb s "").

Definition import_text : string :=
  "import a from './a';" ++ nl ++ "  import b from '../b';" ++ nl.

Definition import_world : world :=
  {| path_exists := fun _ => true;
     walk := fun _ => [];
     open_utf8 := fun _ => Stream import_text None;
     run_npx_eslint := fun _ => Completed 0 "[]";
     json_loads := fun _ => inl (JList []);
     relpath := fun path _ => path |}.

Definition eslint_output : json :=
  JList
    [ JDict [ ("filePath", JStr "/p/src/a.ts");
              ("messages",
               JList [ JDict [ ("ruleId", JStr "semi"); ("severity", JInt 2);
                               ("message", JStr "Missing semicolon.");
                               ("line", JInt 3); ("column", JInt 9) ];
                       JDict [ ("ruleId", JNull); ("fatal", JBool true);
                               ("message", JStr "Parsing error") ] ]);
              ("errorCount", JInt 2) ];
      JDict [ ("filePath", JStr "/p/src/b.ts"); ("messages", JList []) ] ].

Definition eslint_world : world :=
  {| path_exists := fun _ => true;
     walk := fun _ => [];
     open_utf8 := fun _ => Stream "" None;
     run_npx_eslint := fun _ => Completed 1 "[...]";
     json_loads := fun _ => inl eslint_output;
     relpath := fun path _ => path |}.

Definition eslint_error_world : world :=
  {| path_exists := fun _ => true;
     walk := fun _ => [];
     open_utf8 := fun _ => Stream "" None;
     run_npx_eslint := fun _ => Completed 2 "{...}";
     json_loads := fun _ =>
       inl (JDict [("error", JStr "No ESLint configuration found")]);
     relpath := fun path _ => path |}.

Definition eslint_garbage_world : world :=
  {| path_exists := fun _ => true;
     walk := fun _ => [];
     open_utf8 := fun _ => Stream "" None;
     run_npx_eslint := fun _ => Completed 2 "Oops";
     json_loads := fun _ => inr "Expecting value: line 1 column 1 (char 0)";
     relpath := fun path _ => path |}.

(* ------------------------------------------------------------------ *)
(** * Laws of the monad and of its loops *)

Lemma add_nil (s : state) : add s [] = s.
Proof.
  destruct s as [[root vs] lg]; unfold add; simpl.
  now rewrite app_nil_r.
Qed.

Lemma add_add (s : state) (d1 d2 : list ConventionViolation) :
  add (add s d1) d2 = add s (d1 ++ d2).
Proof.
  unfold add; simpl. now rewrite app_assoc.
Qed.

Lemma bind_ret_l (A B : Type) (a : A) (k : A -> M B) (s : state) :
  bind (ret a) k s = k a s.
Proof. reflexivity. Qed.

Lemma bind_assoc (A B C : Type) (m : M A) (k : A -> M B) (h : B -> M C)
    (s : state) :
  bind (bind m k) h s = bind m (fun a => bind (k a) h) s.
Proof.
  unfold bind. destruct (m s) as [[a | e |] s']; reflexivity.
Qed.


Lemma bind_raises (A B : Type) (m : M A) (k : A -> M B) (s s' : state)
    (e : exn) :
  m s = (Raise e, s') -> bind m k s = (Raise e, s').
Proof. unfold bind; now intros ->. Qed.

Lemma bind_ext (A B : Type) (m : M A) (k k' : A -> M B) (s : state) :
  (forall a s', k a s' = k' a s') -> bind m k s = bind m k' s.
Proof.
  intros H. unfold bind. destruct (m s) as [[a | e |] s']; auto.
Qed.

Lemma for_each_app (X : Type) (xs ys : list X) (body : X -> M unit)
    (s : state) :
  for_each (xs ++ ys) body s = (for_each xs body ;; for_each ys body) s.
Proof.
  revert s; induction xs as [| x xs IH]; intros s; simpl.
  - reflexivity.
  - rewrite bind_assoc. apply bind_ext. intros _ s'. apply IH.
Qed.

Lemma for_each_when (X : Type) (p : X -> bool) (xs : list X)
    (body : X -> M unit) (s : state) :
  for_each xs (fun x => when (p x) (body x)) s
  = for_each (filter p xs) body s.
Proof.
  revert s; induction xs as [| x xs IH]; intros s; simpl; [reflexivity |].
  destruct (p x); simpl.
  - unfold bind. destruct (body x s) as [[[] | e |] s']; auto.
  - apply IH.
Qed.

Lemma for_each_ext (X : Type) (xs : list X) (f g : X -> M unit) (s : state) :
  (forall x s', In x xs -> f x s' = g x s') ->
  for_each xs f s = for_each xs g s.
Proof.
  revert s; induction xs as [| x xs IH]; intros s H; simpl; [reflexivity |].
  unfold bind. rewrite (H x s (or_introl eq_refl)).
  destruct (g x s) as [[[] | e |] s']; auto.
  apply IH. intros y s'' Hy. apply H. now right.
Qed.

Lemma for_each_flat_map (X Y : Type) (g : X -> list Y) (xs : list X)
    (body : Y -> M unit) (s : state) :
  for_each xs (fun x => for_each (g x) body) s
  = for_each (flat_map g xs) body s.
Proof.
  revert s; induction xs as [| x xs IH]; intros s; simpl; [reflexivity |].
  rewrite for_each_app. unfold bind.
  destruct (for_each (g x) body s) as [[[] | e |] s']; auto.
Qed.

Lemma for_each_map (X Y : Type) (g : X -> Y) (xs : list X)
    (body : Y -> M unit) (s : state) :
  for_each (map g xs) body s = for_each xs (fun x => body (g x)) s.
Proof.
  revert s; induction xs as [| x xs IH]; intros s; simpl; [reflexivity |].
  unfold bind. destruct (body (g x) s) as [[[] | e |] s']; auto.
Qed.

(** A loop whose body only appends, and never fails, appends the bodies'
    lists in order. *)
Lemma for_each_appends (X : Type) (f : X -> list ConventionViolation)
    (xs : list X) (body : X -> M unit) (s : state) :
  (forall x s', body x s' = (Return tt, add s' (f x))) ->
  for_each xs body s = (Return tt, add s (flat_map f xs)).
Proof.
  intros H. revert s; induction xs as [| x xs IH]; intros s; simpl.
  - unfold ret. now rewrite add_nil.
  - unfold bind. rewrite H, IH, add_add. reflexivity.
Qed.

Lemma when_appends (b : bool) (v : ConventionViolation) (s : state) :
  when b (append_violation v) s = (Return tt, add s (if b then [v] else [])).
Proof.
  destruct b; simpl.
  - reflexivity.
  - unfold ret. now rewrite add_nil.
Qed.

(** ** Computations that only append *)

Section Appender.
Variable P : ConventionViolation -> Prop.

Lemma appender_ret (A : Type) (a : A) : appender P (ret a).
Proof.
  intros root. exists (Return a), [], []. split; [constructor |].
  intros vs l0. unfold ret. now rewrite !app_nil_r.
Qed.

Lemma appender_raise (A : Type) (e : exn) : appender P (@raise A e).
Proof.
  intros root. exists (Raise e), [], []. split; [constructor |].
  intros vs l0. unfold raise. now rewrite !app_nil_r.
Qed.

Lemma appender_lift (A : Type) (o : outcome A) : appender P (lift o).
Proof.
  intros root. exists o, [], []. split; [constructor |].
  intros vs l0. unfold lift. now rewrite !app_nil_r.
Qed.

Lemma appender_untyped (A : Type) : appender P (@untyped A).
Proof.
  intros root. exists Untyped, [], []. split; [constructor |].
  intros vs l0. unfold untyped. now rewrite !app_nil_r.
Qed.

Lemma appender_logger (lv : log_level) (msg : string) :
  appender P (logger lv msg).
Proof.
  intros root. exists (Return tt), [], [{| level := lv; text_of := msg |}].
  split; [constructor |].
  intros vs l0. unfold logger, mk_state; simpl. now rewrite app_nil_r.
Qed.

Lemma appender_append (v : ConventionViolation) :
  P v -> appender P (append_violation v).
Proof.
  intros Hv root. exists (Return tt), [v], [].
  split; [now repeat constructor |].
  intros vs l0. unfold append_violation, mk_state; simpl. now rewrite app_nil_r.
Qed.

Lemma appender_bind (A B : Type) (m : M A) (k : A -> M B) :
  appender P m -> (forall a, appender P (k a)) -> appender P (bind m k).
Proof.
  intros Hm Hk root.
  destruct (Hm root) as (o & d & lg & Hd & Hrun).
  destruct o as [a | e |].
  - destruct (Hk a root) as (o' & d' & lg' & Hd' & Hrun').
    exists o', (d ++ d')%list, (lg ++ lg')%list. split.
    + apply Forall_app; now split.
    + intros vs l0. unfold bind. now rewrite Hrun, Hrun', !app_assoc.
  - exists (Raise e), d, lg. split; [assumption |].
    intros vs l0. unfold bind. now rewrite Hrun.
  - exists Untyped, d, lg. split; [assumption |].
    intros vs l0. unfold bind. now rewrite Hrun.
Qed.

Lemma appender_when (b : bool) (m : M unit) :
  (b = true -> appender P m) -> appender P (when b m).
Proof.
  destruct b; simpl; intros H; [now apply H | apply appender_ret].
Qed.

Lemma appender_for_each (X : Type) (xs : list X) (body : X -> M unit) :
  (forall x, In x xs -> appender P (body x)) -> appender P (for_each xs body).
Proof.
  induction xs as [| x xs IH]; intros H; simpl.
  - apply appender_ret.
  - apply appender_bind.
    + apply H; now left.
    + intros _. apply IH. intros y Hy. apply H; now right.
Qed.

Lemma appender_get_project_path (A : Type) (k : string -> M A) :
  (forall root, appender P (k root)) ->
  appender P (bind get_project_path k).
Proof.
  intros Hk root. destruct (Hk root root) as (o & d & lg & Hd & Hrun).
  exists o, d, lg. split; [assumption |].
  intros vs l0. unfold bind, get_project_path; simpl. apply Hrun.
Qed.

Lemma appender_try_except (m : M unit)
    (hs : list (exn_class * (exn -> M unit))) :
  appender P m ->
  (forall c h e, In (c, h) hs -> appender P (h e)) ->
  appender P (try_except m hs).
Proof.
  intros Hm Hh root.
  destruct (Hm root) as (o & d & lg & Hd & Hrun).
  destruct o as [[] | e |].
  - exists (Return tt), d, lg. split; [assumption |].
    intros vs l0. unfold try_except. now rewrite Hrun.
  - destruct (handler_for hs e) as [h |] eqn:Hf.
    + assert (Ha : appender P h).
      { clear - Hh Hf. induction hs as [| [c h'] hs IH]; simpl in Hf.
        - discriminate.
        - destruct (exn_class_eqb (exn_cls e) c).
          + injection Hf as <-. eapply Hh. now left.
          + apply IH; [| assumption].
            intros c0 h0 e0 Hin. eapply Hh. right. eassumption. }
      destruct (Ha root) as (o' & d' & lg' & Hd' & Hrun').
      exists o', (d ++ d')%list, (lg ++ lg')%list. split.
      * apply Forall_app; now split.
      * intros vs l0. unfold try_except.
        now rewrite Hrun, Hf, Hrun', !app_assoc.
    + exists (Raise e), d, lg. split; [assumption |].
      intros vs l0. unfold try_except. now rewrite Hrun, Hf.
  - exists Untyped, d, lg. split; [assumption |].
    intros vs l0. unfold try_except. now rewrite Hrun.
Qed.

End Appender.

(* ------------------------------------------------------------------ *)
(** * Lists, numbered lines *)

Lemma flat_map_if (X Y : Type) (p : X -> bool) (g : X -> Y) (xs : list X) :
  flat_map (fun x => if p x then [g x] else []) xs = map g (filter p xs).
Proof.
  induction xs as [| x xs IH]; simpl; [reflexivity |].
  destruct (p x); simpl; now rewrite IH.
Qed.

Lemma in_enumerate (X : Type) (xs : list X) (start k : nat) (x : X) :
  In (k, x) (enumerate start xs)
  <-> (start <= k)%nat /\ nth_error xs (k - start) = Some x.
Proof.
  revert start; induction xs as [| y xs IH]; intros start; simpl.
  - split; [tauto |]. intros [_ H]. now destruct (k - start)%nat.
  - rewrite IH. split.
    + intros [H | [Hle H]].
      * injection H as <- <-. split; [lia |]. now rewrite Nat.sub_diag.
      * split; [lia |].
        replace (k - start)%nat with (S (k - S start)) by lia. exact H.
    + intros [Hle H]. destruct (Nat.eq_dec start k) as [<- | Hne].
      * left. rewrite Nat.sub_diag in H. simpl in H. now injection H as <-.
      * right. split; [lia |].
        replace (k - start)%nat with (S (k - S start)) in H by lia. exact H.
Qed.

(** Among the findings of numbered lines, only line [n] contributes the
    occurrences of a finding that no other line produces. *)
Lemma count_occ_numbered (X : Type)
    (f : nat * X -> list ConventionViolation) (v : ConventionViolation)
    (n : nat) (xs : list X) (start : nat) :
  (forall k x, k <> n -> count_occ violation_eq_dec (f (k, x)) v = 0%nat) ->
  count_occ violation_eq_dec (flat_map f (enumerate start xs)) v
  = match nth_error xs (n - start) with
    | Some x =>
        if (start <=? n)%nat then count_occ violation_eq_dec (f (n, x)) v
        else 0%nat
    | None => 0%nat
    end.
Proof.
  intros Hother. revert start; induction xs as [| y xs IH]; intros start.
  - simpl. now destruct (n - start)%nat.
  - cbn [enumerate flat_map]. rewrite count_occ_app, IH.
    destruct (Nat.eq_dec start n) as [-> | Hne].
    + assert (E : (S n <=? n)%nat = false) by (apply Nat.leb_gt; lia).
      rewrite E, Nat.sub_diag, Nat.leb_refl. cbn [nth_error].
      destruct (nth_error xs (n - S n)); lia.
    + rewrite (Hother start y Hne).
      destruct (start <=? n)%nat eqn:E.
      * apply Nat.leb_le in E.
        assert (E' : (S start <=? n)%nat = true) by (apply Nat.leb_le; lia).
        rewrite E'.
        replace (n - start)%nat with (S (n - S start)) by lia.
        reflexivity.
      * apply Nat.leb_gt in E.
        assert (E' : (S start <=? n)%nat = false) by (apply Nat.leb_gt; lia).
        rewrite E'.
        destruct (nth_error xs (n - S start));
          destruct (nth_error (y :: xs) (n - start)); reflexivity.
Qed.

(* ------------------------------------------------------------------ *)
(** * The project structure check *)

Lemma check_project_structure_appends (w : world) (s : state) :
  check_project_structure w s
  = (Return tt, add s (structure_findings w (project_path (self s)))).
Proof.
  unfold check_project_structure, structure_findings.
  set (root := project_path (self s)).
  unfold bind at 1. unfold get_project_path. fold root.
  unfold bind.
  rewrite (for_each_appends
             (fun file => if missing w root file
                          then [project_structure_violation root "file" file]
                          else [])).
  2: { intros x s'. apply when_appends. }
  rewrite (for_each_appends
             (fun dir => if missing w root dir
                         then [project_structure_violation root "directory" dir]
                         else [])).
  2: { intros x s'. apply when_appends. }
  now rewrite add_add, !flat_map_if.
Qed.

Lemma count_occ_map_filter (f : string -> ConventionViolation)
    (p : string -> bool) (names : list string) (name : string) :
  (forall a b, f a = f b -> a = b) ->
  NoDup names -> In name names ->
  count_occ violation_eq_dec (map f (filter p names)) (f name)
  = if p name then 1%nat else 0%nat.
Proof.
  intros Hinj. induction names as [| x names IH]; intros Hnd Hin.
  - destruct Hin.
  - inversion Hnd as [| ? ? Hx Hnd']; subst.
    assert (Hrest : ~ In name names ->
              count_occ violation_eq_dec (map f (filter p names)) (f name)
              = 0%nat).
    { intros Hout. apply count_occ_not_In. intros H.
      apply in_map_iff in H. destruct H as (y & Hy & Hin').
      apply Hinj in Hy. subst y. apply filter_In in Hin'. tauto. }
    cbn [filter]. destruct Hin as [-> | Hin].
    + destruct (p name); cbn [map count_occ].
      * destruct (violation_eq_dec (f name) (f name)) as [_ | NE];
          [| contradiction]. now rewrite (Hrest Hx).
      * exact (Hrest Hx).
    + assert (Hne : x <> name) by (intros ->; contradiction).
      destruct (p x); cbn [map count_occ]; [| now apply IH].
      destruct (violation_eq_dec (f x) (f name)) as [E | _];
        [apply Hinj in E; contradiction | now apply IH].
Qed.

Lemma count_occ_map_other (g : string -> ConventionViolation)
    (names : list string) (v : ConventionViolation) :
  (forall a, g a <> v) ->
  count_occ violation_eq_dec (map g names) v = 0%nat.
Proof.
  intros H. apply count_occ_not_In. intros Hin.
  apply in_map_iff in Hin. destruct Hin as (a & Ha & _). now apply (H a).
Qed.

Lemma project_structure_violation_inj (root kind a b : string) :
  project_structure_violation root kind a
  = project_structure_violation root kind b -> a = b.
Proof.
  intros H. apply (f_equal message) in H. simpl in H.
  injection H as H. revert H.
  induction kind as [| c kind IH]; simpl; intros H.
  - now injection H.
  - injection H as H. now apply IH.
Qed.

(** C5: the project structure check appends one [project_structure]
    violation per missing required file and one per missing required
    directory (and none for an item that exists), each at line 0 with the
    project root as its file path; a project with none of the six required
    items gets exactly 6. *)
Theorem project_structure_one_per_missing_item (w : world) (s : state) :
  let root := project_path (self s) in
  let d := structure_findings w root in
  check_project_structure w s = (Return tt, add s d)
  /\ (forall name, In name required_files ->
        count_occ violation_eq_dec d
          (project_structure_violation root "file" name)
        = if path_exists w (OsPath.join root name) then 0%nat else 1%nat)
  /\ (forall name, In name required_dirs ->
        count_occ violation_eq_dec d
          (project_structure_violation root "directory" name)
        = if path_exists w (OsPath.join root name) then 0%nat else 1%nat)
  /\ Forall (fun v => rule v = "project_structure"
                      /\ line_number v = 0%Z
                      /\ file_path v = root) d
  /\ List.length d
     = List.length (filter (missing w root) (required_files ++ required_dirs))
  /\ ((forall name, In name (required_files ++ required_dirs) ->
         path_exists w (OsPath.join root name) = false) ->
      List.length d = 6%nat).
Proof.
  intros root d. split; [apply check_project_structure_appends |].
  assert (Hkinds : forall a b,
             project_structure_violation root "directory" a
             <> project_structure_violation root "file" b).
  { intros a b H. apply (f_equal message) in H. discriminate. }
  split.
  { intros name Hin. unfold d, structure_findings.
    rewrite count_occ_app, count_occ_map_filter, count_occ_map_other.
    - unfold missing. now destruct (path_exists w (OsPath.join root name)).
    - intros a. apply Hkinds.
    - intros a b. apply project_structure_violation_inj.
    - repeat constructor; simpl; intuition discriminate.
    - assumption. }
  split.
  { intros name Hin. unfold d, structure_findings.
    rewrite count_occ_app, count_occ_map_filter, count_occ_map_other.
    - unfold missing. now destruct (path_exists w (OsPath.join root name)).
    - intros a H. symmetry in H. now apply Hkinds in H.
    - intros a b. apply project_structure_violation_inj.
    - repeat constructor; simpl; intuition discriminate.
    - assumption. }
  split.
  { unfold d, structure_findings. apply Forall_app; split;
      apply Forall_forall; intros v Hv; apply in_map_iff in Hv;
      destruct Hv as (name & <- & _); simpl; auto. }
  split.
  { unfold d, structure_findings.
    now rewrite filter_app, !length_app, !length_map. }
  intros Hnone.
  unfold d, structure_findings. rewrite length_app, !length_map.
  assert (Hall : forall names,
             incl names (required_files ++ required_dirs) ->
             filter (missing w root) names = names).
  { induction names as [| x xs IH]; intros Hincl; simpl; [reflexivity |].
    unfold missing at 1. rewrite Hnone by (apply Hincl; now left). simpl.
    f_equal. apply IH. intros y Hy. apply Hincl. now right. }
  rewrite !Hall.
  - reflexivity.
  - apply incl_appr, incl_refl.
  - apply incl_appl, incl_refl.
Qed.

Lemma project_structure_one_per_missing_item_witness :
  List.length (structure_findings empty_world "/proj") = 6%nat.
Proof.
  apply (project_structure_one_per_missing_item empty_world
           (mk_state "/proj" [] [])).
  intros name _. reflexivity.
Defined.

(* ------------------------------------------------------------------ *)
(** * The line length check *)

Lemma check_line_length_runs (w : world) (path : string) (max_length : Z)
    (s : state) :
  check_line_length w path max_length s
  = (match file_error w path with
     | None => Return tt
     | Some e => Raise e
     end,
     add s (line_length_findings path max_length (lines_of w path))).
Proof.
  unfold check_line_length, for_lines_of_file, file_error, lines_of.
  destruct (open_utf8 w path) as [e | text fault].
  - unfold raise. now rewrite add_nil.
  - unfold bind, line_length_findings.
    rewrite (for_each_appends
               (fun '(line_num, line) =>
                  if too_long max_length line
                  then [line_length_violation path max_length line_num]
                  else [])).
    + now destruct fault.
    + intros [n line] s'. apply when_appends.
Qed.

(** C6: for every file, threshold and line, the line length check appends
    a [line_length] violation numbered [n] exactly when the file delivers a
    line [n] (counted from 1) whose length without trailing whitespace
    exceeds the threshold; a line at or under the threshold gets none.  The
    check fails only with the error of the file itself, after the lines
    delivered before it. *)
Theorem line_length_violation_iff (w : world) (path : string)
    (max_length : Z) (s : state) :
  let ls := lines_of w path in
  let d := line_length_findings path max_length ls in
  check_line_length w path max_length s
  = (match file_error w path with
     | None => Return tt
     | Some e => Raise e
     end, add s d)
  /\ (forall v, In v d ->
        exists n, v = line_length_violation path max_length n)
  /\ (forall n,
        In (line_length_violation path max_length n) d
        <-> exists line,
              (1 <= n)%nat /\ nth_error ls (n - 1) = Some line
              /\ (max_length < Z.of_nat (String.length (PyStr.rstrip line)))%Z)
  /\ (forall n line,
        nth_error ls (n - 1) = Some line -> (1 <= n)%nat ->
        (Z.of_nat (String.length (PyStr.rstrip line)) <= max_length)%Z ->
        forall v, In v d -> line_number v <> Z.of_nat n).
Proof.
  intros ls d.
  assert (Hin : forall v, In v d <->
            exists n line, (1 <= n)%nat /\ nth_error ls (n - 1) = Some line
              /\ too_long max_length line = true
              /\ v = line_length_violation path max_length n).
  { intros v. unfold d, line_length_findings. rewrite in_flat_map. split.
    - intros ([n line] & Hnl & Hv). apply in_enumerate in Hnl.
      destruct Hnl as [Hle Hnth].
      destruct (too_long max_length line) eqn:E; simpl in Hv; [| tauto].
      destruct Hv as [<- | []]. now exists n, line.
    - intros (n & line & Hle & Hnth & Hlong & ->).
      exists (n, line). split; [now apply in_enumerate |].
      rewrite Hlong. now left. }
  split; [apply check_line_length_runs |].
  split.
  { intros v Hv. apply Hin in Hv. destruct Hv as (n & _ & _ & _ & _ & ->).
    now exists n. }
  split.
  { intros n. rewrite Hin. split.
    - intros (m & line & Hle & Hnth & Hlong & Heq).
      assert (m = n) as ->.
      { apply (f_equal line_number) in Heq. simpl in Heq. lia. }
      exists line. unfold too_long in Hlong. apply Z.ltb_lt in Hlong. auto.
    - intros (line & Hle & Hnth & Hlong). exists n, line.
      repeat split; auto. unfold too_long. now apply Z.ltb_lt. }
  intros n line Hnth Hle Hshort v Hv Hnum.
  apply Hin in Hv. destruct Hv as (m & line' & Hle' & Hnth' & Hlong & ->).
  simpl in Hnum. assert (m = n) as -> by lia.
  rewrite Hnth in Hnth'. injection Hnth' as <-.
  unfold too_long in Hlong. apply Z.ltb_lt in Hlong. lia.
Qed.

Lemma line_length_violation_iff_witness :
  In (line_length_violation "a.ts" 5 2)
     (line_length_findings "a.ts" 5 (lines_of sample_world "a.ts"))
  /\ forall v,
       In v (line_length_findings "a.ts" 5 (lines_of sample_world "a.ts")) ->
       line_number v <> 1%Z.
Proof.
  pose proof (line_length_violation_iff sample_world "a.ts" 5
                (mk_state "." [] [])) as H.
  cbv zeta in H. destruct H as (_ & _ & Hiff & Hshort). split.
  - apply Hiff. exists ("abcdefgh  " ++ nl). split; [lia |].
    split; reflexivity.
  - apply (Hshort 1%nat ("ab" ++ nl)); [reflexivity | lia |].
    vm_compute. discriminate.
Defined.

(* ------------------------------------------------------------------ *)
(** * The documentation check *)

Lemma when_when_appends (b1 b2 : bool) (v : ConventionViolation) (s : state) :
  when b1 (when b2 (append_violation v)) s
  = (Return tt, add s (if b1 && b2 then [v] else [])).
Proof.
  destruct b1; simpl; [apply when_appends |].
  unfold ret. now rewrite add_nil.
Qed.

Lemma check_comments_documentation_appends (w : world) (path : string)
    (s : state) (text : string) :
  open_utf8 w path = Stream text None ->
  check_comments_documentation w path s
  = (Return tt,
     add s (documentation_findings path
              (PyStr.lines (PyStr.translate_newlines text)))).
Proof.
  intros Hopen.
  unfold check_comments_documentation, readlines_file, read_file.
  rewrite Hopen. unfold bind at 1 2. unfold ret at 1 2.
  unfold documentation_findings.
  apply for_each_appends. intros [n line] s'.
  unfold documentation_findings_of_line, bind.
  now rewrite when_appends, when_when_appends, add_add.
Qed.

Lemma strip_prefix_app (p s r : string) :
  PyStr.strip_prefix p s = Some r -> s = p ++ r.
Proof.
  revert s; induction p as [| a p IH]; intros s; simpl.
  - now intros [= ->].
  - destruct s as [| b s]; [discriminate |].
    destruct (Ascii.eqb_spec a b) as [-> | _]; [| discriminate].
    intros H. now rewrite (IH _ H).
Qed.

(** An assignee annotation anywhere in the line is found by the search. *)
Lemma todo_alice_is_found (line : string) (pos : nat) :
  PyStr.contains "TODO(@alice)" line = true ->
  Re.search_from Re.todo_assignee pos line = true.
Proof.
  revert pos; induction line as [| c line IH]; intros pos; simpl.
  - discriminate.
  - intros H. apply orb_true_iff in H. destruct H as [H | H].
    + unfold PyStr.startswith in H.
      destruct (PyStr.strip_prefix "TODO(@alice)" (String c line))
        as [r |] eqn:E; [| discriminate].
      apply strip_prefix_app in E. rewrite E. reflexivity.
    + rewrite (IH _ H). apply orb_true_r.
Qed.

Lemma todo_not_jsdoc (path : string) (k n : nat) :
  jsdoc_violation path k <> todo_violation path n.
Proof. intros H. apply (f_equal message) in H. discriminate. Qed.

Lemma todo_violation_inj (path : string) (k n : nat) :
  todo_violation path k = todo_violation path n -> k = n.
Proof.
  intros H. apply (f_equal line_number) in H. simpl in H. lia.
Qed.

Lemma jsdoc_violation_inj (path : string) (k n : nat) :
  jsdoc_violation path k = jsdoc_violation path n -> k = n.
Proof.
  intros H. apply (f_equal line_number) in H. simpl in H. lia.
Qed.

Lemma count_todo_of_line (path : string) (content : list string)
    (k n : nat) (line : string) :
  count_occ violation_eq_dec
    (documentation_findings_of_line path content (k, line))
    (todo_violation path n)
  = if (k =? n)%nat && todo_unassigned line then 1%nat else 0%nat.
Proof.
  unfold documentation_findings_of_line. rewrite count_occ_app.
  assert (count_occ violation_eq_dec
            (if looks_like_function line && lacks_jsdoc content k
             then [jsdoc_violation path k] else [])
            (todo_violation path n) = 0%nat) as ->.
  { destruct (looks_like_function line && lacks_jsdoc content k);
      cbn [count_occ]; [| reflexivity].
    destruct (violation_eq_dec _ _) as [E | _]; [| reflexivity].
    now apply todo_not_jsdoc in E. }
  destruct (todo_unassigned line); cbn [count_occ].
  - destruct (violation_eq_dec _ _) as [E | NE].
    + apply todo_violation_inj in E. subst. now rewrite Nat.eqb_refl.
    + destruct (Nat.eqb_spec k n) as [-> | _];
        [now contradict NE | reflexivity].
  - now rewrite andb_false_r.
Qed.

(** C7, as the code has it: on a file that reads to its end, line [n]
    gets exactly one "TODO comment should have an assignee" violation when
    it contains TODO and nowhere an annotation [TODO(@name)] (blanks allowed
    before the parenthesis), and none otherwise; a line containing
    [TODO(@alice)] gets none. *)
Theorem todo_violation_per_line (w : world) (path : string) (s : state)
    (text : string) :
  open_utf8 w path = Stream text None ->
  let content := PyStr.lines (PyStr.translate_newlines text) in
  let d := documentation_findings path content in
  check_comments_documentation w path s = (Return tt, add s d)
  /\ (forall n line,
        (1 <= n)%nat -> nth_error content (n - 1) = Some line ->
        count_occ violation_eq_dec d (todo_violation path n)
        = if PyStr.contains "TODO" line
             && negb (Re.re_search Re.todo_assignee line)
          then 1%nat else 0%nat)
  /\ (forall n line,
        (1 <= n)%nat -> nth_error content (n - 1) = Some line ->
        PyStr.contains "TODO(@alice)" line = true ->
        count_occ violation_eq_dec d (todo_violation path n) = 0%nat).
Proof.
  intros Hopen content d.
  assert (Hcount : forall n line,
            (1 <= n)%nat -> nth_error content (n - 1) = Some line ->
            count_occ violation_eq_dec d (todo_violation path n)
            = if todo_unassigned line then 1%nat else 0%nat).
  { intros n line Hle Hnth. unfold d, documentation_findings.
    rewrite (count_occ_numbered _ _ (n := n)).
    - rewrite Hnth. replace (1 <=? n)%nat with true
        by (symmetry; apply Nat.leb_le; lia).
      rewrite count_todo_of_line. now rewrite Nat.eqb_refl.
    - intros k x Hk. rewrite count_todo_of_line.
      destruct (Nat.eqb_spec k n); [contradiction | reflexivity]. }
  split; [now apply check_comments_documentation_appends |].
  split.
  - intros n line Hle Hnth. now rewrite (Hcount n line).
  - intros n line Hle Hnth Halice. rewrite (Hcount n line Hle Hnth).
    unfold todo_unassigned, Re.re_search.
    rewrite (todo_alice_is_found line 0 Halice). now rewrite andb_false_r.
Qed.

Lemma todo_violation_per_line_witness :
  count_occ violation_eq_dec
    (documentation_findings "a.ts"
       (PyStr.lines (PyStr.translate_newlines (todo_line ++ nl))))
    (todo_violation "a.ts" 1) = 0%nat.
Proof.
  pose proof (todo_violation_per_line todo_world "a.ts" (mk_state "." [] [])
                eq_refl) as H.
  cbv zeta in H. destruct H as (_ & _ & H).
  apply (H 1%nat (todo_line ++ nl)); [lia | reflexivity | reflexivity].
Defined.

(** C7 as stated fails: the second TODO of [todo_line], at offset 22, is
    followed by no assignee annotation, and the check appends nothing for
    the line. *)
Lemma todo_occurrence_without_violation :
  nth_error (lines_of todo_world "a.ts") 0 = Some (todo_line ++ nl)
  /\ unassigned_todo_at (todo_line ++ nl) 22 = true
  /\ check_comments_documentation todo_world "a.ts" (mk_state "." [] [])
     = (Return tt, mk_state "." [] [])
  /\ count_occ violation_eq_dec
       (violations (self (snd (check_comments_documentation todo_world "a.ts"
                                 (mk_state "." [] [])))))
       (todo_violation "a.ts" 1) <> 1%nat.
Proof.
  repeat split; try reflexivity. vm_compute. discriminate.
Qed.

Lemma in_slice (X : Type) (lo hi : nat) (xs : list X) (x : X) :
  In x (slice lo hi xs)
  <-> exists i, (lo <= i < hi)%nat /\ nth_error xs i = Some x.
Proof.
  unfold slice. split.
  - intros H. apply In_nth_error in H. destruct H as [j Hj].
    rewrite nth_error_firstn in Hj.
    destruct (Nat.ltb_spec j (hi - lo)) as [Hlt | _]; [| discriminate].
    rewrite nth_error_skipn in Hj. exists (lo + j)%nat. split; [lia | exact Hj].
  - intros (i & [Hlo Hhi] & Hi).
    apply (@nth_error_In _ _ (i - lo)). rewrite nth_error_firstn.
    destruct (Nat.ltb_spec (i - lo) (hi - lo)) as [_ | Hge]; [| lia].
    rewrite nth_error_skipn. now replace (lo + (i - lo))%nat with i by lia.
Qed.

Lemma existsb_false (X : Type) (p : X -> bool) (xs : list X) :
  existsb p xs = false <-> forall x, In x xs -> p x = false.
Proof.
  induction xs as [| y xs IH]; simpl.
  - split; [tauto | reflexivity].
  - rewrite orb_false_iff, IH. split.
    + intros [Hy Hxs] x [<- | Hx]; auto.
    + intros H. split; [apply H; now left |]. intros x Hx. apply H. now right.
Qed.

(** The slice examined by [lacks_jsdoc] holds the lines one, two and three
    places before line [n], as far as the file has them. *)
Lemma lacks_jsdoc_iff (content : list string) (n : nat) :
  lacks_jsdoc content n = true
  <-> (1 < n)%nat
      /\ forall k l, (1 <= k <= 3)%nat -> (k < n)%nat ->
           nth_error content (n - 1 - k) = Some l ->
           PyStr.contains "/**" l = false.
Proof.
  unfold lacks_jsdoc. rewrite andb_true_iff, Nat.ltb_lt, negb_true_iff.
  rewrite existsb_false. simpl Nat.max.
  split; intros [Hn H]; (split; [assumption |]).
  - intros k l Hk Hkn Hnth. apply H. apply in_slice.
    exists (n - 1 - k)%nat. split; [lia | assumption].
  - intros l Hl. apply in_slice in Hl. destruct Hl as (i & Hi & Hnth).
    apply (H (n - 1 - i)%nat l); [lia | lia |].
    now replace (n - 1 - (n - 1 - i))%nat with i by lia.
Qed.

Lemma in_documentation_findings_jsdoc (path : string) (content : list string)
    (n : nat) :
  In (jsdoc_violation path n) (documentation_findings path content)
  <-> exists line,
        (1 <= n)%nat /\ nth_error content (n - 1) = Some line
        /\ looks_like_function line = true /\ lacks_jsdoc content n = true.
Proof.
  unfold documentation_findings. rewrite in_flat_map. split.
  - intros ([k line] & Hk & Hin). apply in_enumerate in Hk.
    destruct Hk as [Hle Hnth].
    unfold documentation_findings_of_line in Hin. apply in_app_iff in Hin.
    destruct Hin as [Hin | Hin].
    + destruct (todo_unassigned line); simpl in Hin; [| tauto].
      destruct Hin as [E | []]. symmetry in E. now apply todo_not_jsdoc in E.
    + destruct (looks_like_function line && lacks_jsdoc content k) eqn:E;
        simpl in Hin; [| tauto].
      destruct Hin as [E' | []]. apply jsdoc_violation_inj in E'. subst k.
      apply andb_true_iff in E. exists line. tauto.
  - intros (line & Hle & Hnth & Hf & Hl). exists (n, line). split.
    + now apply in_enumerate.
    + unfold documentation_findings_of_line. apply in_app_iff. right.
      rewrite Hf, Hl. now left.
Qed.

(** C10: on a file that reads to its end, a function declaration on line
    1 gets no "Missing JSDoc comment for function" violation; one on a
    later line [n] gets it exactly when none of the lines one, two and
    three places before it (as far as the file has them) contains the
    marker that opens a block doc comment; a line that does not look like
    a function declaration gets none. *)
Theorem jsdoc_violation_iff (w : world) (path : string) (s : state)
    (text : string) :
  open_utf8 w path = Stream text None ->
  let content := PyStr.lines (PyStr.translate_newlines text) in
  let d := documentation_findings path content in
  check_comments_documentation w path s = (Return tt, add s d)
  /\ ~ In (jsdoc_violation path 1) d
  /\ (forall n line,
        (2 <= n)%nat -> nth_error content (n - 1) = Some line ->
        looks_like_function line = true ->
        (In (jsdoc_violation path n) d
         <-> forall k l, (1 <= k <= 3)%nat -> (k < n)%nat ->
               nth_error content (n - 1 - k) = Some l ->
               PyStr.contains "/**" l = false))
  /\ (forall n line,
        (1 <= n)%nat -> nth_error content (n - 1) = Some line ->
        looks_like_function line = false ->
        ~ In (jsdoc_violation path n) d).
Proof.
  intros Hopen content d.
  split; [now apply check_comments_documentation_appends |].
  split.
  { intros H. apply in_documentation_findings_jsdoc in H.
    destruct H as (line & _ & _ & _ & Hl). apply lacks_jsdoc_iff in Hl. lia. }
  split.
  - intros n line Hn Hnth Hf. unfold d.
    rewrite in_documentation_findings_jsdoc. split.
    + intros (line' & _ & _ & _ & Hl). now apply lacks_jsdoc_iff in Hl.
    + intros H. exists line. repeat split; try assumption; try lia.
      apply lacks_jsdoc_iff. split; [lia | assumption].
  - intros n line Hn Hnth Hf H. apply in_documentation_findings_jsdoc in H.
    destruct H as (line' & _ & Hnth' & Hf' & _).
    rewrite Hnth in Hnth'. injection Hnth' as <-. congruence.
Qed.

Lemma jsdoc_violation_iff_witness :
  In (jsdoc_violation "a.ts" 6)
     (documentation_findings "a.ts"
        (PyStr.lines (PyStr.translate_newlines jsdoc_text)))
  /\ ~ In (jsdoc_violation "a.ts" 2)
         (documentation_findings "a.ts"
            (PyStr.lines (PyStr.translate_newlines jsdoc_text))).
Proof.
  pose proof (jsdoc_violation_iff jsdoc_world "a.ts" (mk_state "." [] [])
                eq_refl) as H.
  cbv zeta in H. destruct H as (_ & _ & H & _). split.
  - apply (H 6%nat ("const sub = function (a, b) {" ++ nl));
      [lia | reflexivity | reflexivity |].
    intros k l Hk _ Hnth.
    assert (Hcase : k = 1%nat \/ k = 2%nat \/ k = 3%nat) by lia.
    destruct Hcase as [-> | [-> | ->]]; vm_compute in Hnth;
      injection Hnth as <-; reflexivity.
  - intros Hin.
    apply (H 2%nat ("function add(a, b) {" ++ nl)) with (k := 1%nat)
      (l := "/** adds */" ++ nl) in Hin; try lia; try reflexivity.
    discriminate.
Defined.

(* ------------------------------------------------------------------ *)
(** * Computations that never fail *)

Lemma returns_ret (A : Type) (a : A) : returns (ret a).
Proof. intros s. now exists a, s. Qed.

Lemma returns_logger (lv : log_level) (msg : string) : returns (logger lv msg).
Proof. intros s. eexists; eexists; reflexivity. Qed.

Lemma returns_append (v : ConventionViolation) : returns (append_violation v).
Proof. intros s. eexists; eexists; reflexivity. Qed.

Lemma returns_bind (A B : Type) (m : M A) (k : A -> M B) :
  returns m -> (forall a, returns (k a)) -> returns (bind m k).
Proof.
  intros Hm Hk s. destruct (Hm s) as (a & s' & Hrun).
  destruct (Hk a s') as (b & s'' & Hrun').
  exists b, s''. unfold bind. now rewrite Hrun.
Qed.

Lemma returns_when (b : bool) (m : M unit) : returns m -> returns (when b m).
Proof. destruct b; simpl; [trivial | intros _; apply returns_ret]. Qed.

Lemma returns_for_each (X : Type) (xs : list X) (body : X -> M unit) :
  (forall x, In x xs -> returns (body x)) -> returns (for_each xs body).
Proof.
  induction xs as [| x xs IH]; intros H; simpl.
  - apply returns_ret.
  - apply returns_bind; [apply H; now left |].
    intros _. apply IH. intros y Hy. apply H. now right.
Qed.

Ltac returns_step :=
  match goal with
  | |- returns (bind _ _) => apply returns_bind; [| intros ?]
  | |- returns (ret _) => apply returns_ret
  | |- returns (logger _ _) => apply returns_logger
  | |- returns (append_violation _) => apply returns_append
  | |- returns (when _ _) => apply returns_when
  | |- returns (for_each _ _) => apply returns_for_each; intros ? _
  | |- returns (let '(_, _) := ?x in _) => destruct x
  end.

Lemma check_file_naming_returns (path : string) :
  returns (check_file_naming path).
Proof. unfold check_file_naming. repeat returns_step. Qed.

Lemma read_file_returns (w : world) (path : string) (s : state) :
  file_error w path = None ->
  exists content, read_file w path s = (Return content, s).
Proof.
  unfold file_error, read_file. destruct (open_utf8 w path) as [e | text fault].
  - discriminate.
  - intros ->. now eexists.
Qed.

Lemma read_file_raises (w : world) (path : string) (s : state) (e : exn) :
  file_error w path = Some e -> read_file w path s = (Raise e, s).
Proof.
  unfold file_error, read_file.
  destruct (open_utf8 w path) as [e' | text fault].
  - now intros [= ->].
  - now intros ->.
Qed.

Lemma returns_after_read_file (w : world) (path : string) (B : Type)
    (k : string -> M B) :
  file_error w path = None ->
  (forall content, returns (k content)) ->
  returns (bind (read_file w path) k).
Proof.
  intros Hok Hk s. destruct (read_file_returns w path s Hok) as [c Hc].
  destruct (Hk c s) as (b & s' & Hrun). exists b, s'.
  unfold bind. now rewrite Hc.
Qed.

(** On a file that reads to its end, every check of [check_file] returns. *)
Lemma check_file_returns (w : world) (path : string) :
  file_error w path = None -> returns (check_file w path).
Proof.
  intros Hok. unfold check_file. repeat returns_step.
  - apply check_file_naming_returns.
  - intros s. rewrite check_line_length_runs, Hok.
    eexists; eexists; reflexivity.
  - unfold check_naming_conventions.
    apply returns_after_read_file; [assumption |].
    intros content. repeat returns_step.
  - unfold check_imports, readlines_file. apply returns_bind.
    + apply returns_after_read_file; [assumption |].
      intros content. apply returns_ret.
    + intros content. repeat returns_step.
  - unfold check_comments_documentation, readlines_file. apply returns_bind.
    + apply returns_after_read_file; [assumption |].
      intros content. apply returns_ret.
    + intros content. repeat returns_step.
Qed.

(** On a file that fails to open or to decode, [check_file] raises the
    file's error: the line length check is the first to read the file. *)
Lemma check_file_raises (w : world) (path : string) (e : exn) (s : state) :
  file_error w path = Some e ->
  exists s', check_file w path s = (Raise e, s').
Proof.
  intros Herr. unfold check_file.
  destruct (returns_logger INFO ("Checking file: " ++ path) s)
    as ([] & s1 & H1).
  destruct (check_file_naming_returns path s1) as ([] & s2 & H2).
  unfold bind at 1. rewrite H1. unfold bind at 1. rewrite H2.
  unfold bind at 1. rewrite check_line_length_runs, Herr.
  now eexists.
Qed.

(* ------------------------------------------------------------------ *)
(** * Paths that end in a TypeScript extension *)

Lemma append_assoc (a b c : string) : (a ++ b) ++ c = a ++ (b ++ c).
Proof. induction a as [| x a IH]; simpl; [reflexivity | now rewrite IH]. Qed.

Lemma endswith_app (p y : string) : PyStr.endswith p (y ++ p) = true.
Proof.
  induction y as [| c y IH]; simpl.
  - destruct p; simpl; rewrite ?String.eqb_refl, ?Ascii.eqb_refl; reflexivity.
  - rewrite IH. apply orb_true_r.
Qed.

Lemma endswith_split (p s : string) :
  PyStr.endswith p s = true -> exists y, s = y ++ p.
Proof.
  induction s as [| c s IH].
  - simpl. rewrite orb_false_r. intros H. apply String.eqb_eq in H.
    exists "". now subst.
  - cbn [PyStr.endswith]. intros H. apply orb_true_iff in H.
    destruct H as [H | H].
    + apply String.eqb_eq in H. exists "". now subst.
    + destruct (IH H) as [y ->]. now exists (String c y).
Qed.

Lemma basename_no_slash (s : string) :
  PyStr.contains "/" s = false -> OsPath.basename s = s.
Proof.
  destruct s as [| c s]; [reflexivity |].
  cbn [OsPath.basename]. now intros ->.
Qed.

(** The base name of a path keeps a suffix that has no slash. *)
Lemma basename_keeps_suffix (suffix y : string) :
  PyStr.contains "/" suffix = false ->
  exists y', OsPath.basename (y ++ suffix) = y' ++ suffix.
Proof.
  intros Hs. induction y as [| c y IH].
  - exists "". simpl. now apply basename_no_slash.
  - change (String c y ++ suffix) with (String c (y ++ suffix)).
    cbn [OsPath.basename].
    destruct (PyStr.contains "/" (String c (y ++ suffix))).
    + exact IH.
    + now exists (String c y).
Qed.

Lemma join_ends_with (root file : string) :
  exists x, OsPath.join root file = x ++ file.
Proof.
  unfold OsPath.join. destruct (PyStr.startswith "/" file).
  - now exists "".
  - destruct (String.eqb root "" || PyStr.endswith "/" root).
    + now exists root.
    + exists (root ++ "/"). now rewrite append_assoc.
Qed.

Lemma basename_join_endswith (suffix root file : string) :
  PyStr.contains "/" suffix = false ->
  PyStr.endswith suffix file = true ->
  PyStr.endswith suffix (OsPath.basename (OsPath.join root file)) = true.
Proof.
  intros Hs Hf. destruct (@endswith_split suffix file Hf) as [y ->].
  destruct (join_ends_with root (y ++ suffix)) as [x ->].
  rewrite <- append_assoc.
  destruct (@basename_keeps_suffix suffix (x ++ y) Hs) as [y' ->].
  apply endswith_app.
Qed.

(** A file name that [check_all] lets through passes the extension test
    of [check_file_naming], whatever directory it is joined to. *)
Lemma typescript_file_is_recognised (root file : string) :
  is_typescript file = true ->
  PyStr.endswith_any [".ts"; ".tsx"]
    (OsPath.basename (OsPath.join root file)) = true
  /\ PyStr.endswith_any recognised_endings
       (OsPath.basename (OsPath.join root file)) = true.
Proof.
  unfold is_typescript, PyStr.endswith_any, recognised_endings. simpl.
  rewrite !orb_false_r. intros H. apply orb_true_iff in H.
  destruct H as [H | H].
  - apply (@basename_join_endswith ".ts" root file eq_refl) in H.
    rewrite H. auto.
  - apply (@basename_join_endswith ".tsx" root file eq_refl) in H.
    rewrite H, !orb_true_r. auto.
Qed.

(* ------------------------------------------------------------------ *)
(** * Every check only appends *)

Ltac appender_step :=
  match goal with
  | |- appender _ (bind get_project_path _) =>
      apply appender_get_project_path; intros ?
  | |- appender _ (bind _ _) => apply appender_bind; [| intros ?]
  | |- appender _ (ret _) => apply appender_ret
  | |- appender _ (raise _) => apply appender_raise
  | |- appender _ untyped => apply appender_untyped
  | |- appender _ (lift _) => apply appender_lift
  | |- appender _ (logger _ _) => apply appender_logger
  | |- appender _ (when _ _) => apply appender_when; intros ?
  | |- appender _ (for_each _ _) => apply appender_for_each; intros ? ?
  | |- appender _ (append_violation _) => apply appender_append; reflexivity
  | |- appender _ (let '(_, _) := ?x in _) => destruct x
  | |- appender _ (match ?x with _ => _ end) => destruct x
  end.

Lemma check_project_structure_appender (w : world) :
  appender extension_accepted (check_project_structure w).
Proof. unfold check_project_structure. repeat appender_step. Qed.

Lemma check_file_naming_appender (path : string) :
  PyStr.endswith_any recognised_endings (OsPath.basename path) = true ->
  appender extension_accepted (check_file_naming path).
Proof.
  intros Hext. unfold check_file_naming. rewrite Hext.
  apply appender_bind.
  - apply appender_when. discriminate.
  - intros _. repeat appender_step.
Qed.

Lemma read_file_appender (w : world) (path : string) :
  appender extension_accepted (read_file w path).
Proof.
  unfold read_file. destruct (open_utf8 w path) as [e | text [e |]];
    appender_step.
Qed.

Lemma check_line_length_appender (w : world) (path : string) (max_length : Z) :
  appender extension_accepted (check_line_length w path max_length).
Proof.
  unfold check_line_length, for_lines_of_file. repeat appender_step.
Qed.

Lemma check_naming_conventions_appender (w : world) (path : string) :
  appender extension_accepted (check_naming_conventions w path).
Proof.
  unfold check_naming_conventions. apply appender_bind.
  - apply read_file_appender.
  - intros content. repeat appender_step.
Qed.

Lemma check_imports_appender (w : world) (path : string) :
  appender extension_accepted (check_imports w path).
Proof.
  unfold check_imports, readlines_file. apply appender_bind.
  - apply appender_bind; [apply read_file_appender |].
    intros c. appender_step.
  - intros content. repeat appender_step.
Qed.

Lemma check_comments_documentation_appender (w : world) (path : string) :
  appender extension_accepted (check_comments_documentation w path).
Proof.
  unfold check_comments_documentation, readlines_file. apply appender_bind.
  - apply appender_bind; [apply read_file_appender |].
    intros c. appender_step.
  - intros content. unfold todo_violation, jsdoc_violation.
    repeat appender_step.
Qed.

Lemma check_file_appender (w : world) (root file : string) :
  is_typescript file = true ->
  appender extension_accepted (check_file w (OsPath.join root file)).
Proof.
  intros Hts. unfold check_file.
  apply appender_bind; [apply appender_logger | intros _].
  apply appender_bind.
  { apply check_file_naming_appender.
    now apply typescript_file_is_recognised. }
  intros _. apply appender_bind; [apply check_line_length_appender | intros _].
  apply appender_bind;
    [apply check_naming_conventions_appender | intros _].
  apply appender_bind; [apply check_imports_appender | intros _].
  apply check_comments_documentation_appender.
Qed.

Lemma check_files_appender (w : world) :
  appender extension_accepted (check_files w).
Proof.
  unfold check_files. apply appender_get_project_path. intros top.
  apply appender_for_each. intros [[root dirs] files] _.
  apply appender_for_each. intros file _.
  apply appender_when. intros Hts. now apply check_file_appender.
Qed.

Lemma eslint_violations_appender (results : json) :
  appender extension_accepted (eslint_violations results).
Proof.
  unfold eslint_violations, as_str, as_int. repeat appender_step.
Qed.

Lemma run_eslint_check_appender (w : world) :
  appender extension_accepted (run_eslint_check w).
Proof.
  unfold run_eslint_check. apply appender_try_except.
  - apply appender_get_project_path. intros root.
    destruct (run_npx_eslint w root) as [e | returncode stdout].
    + apply appender_raise.
    + apply appender_when. intros _.
      destruct (json_loads w stdout) as [results | msg].
      * apply eslint_violations_appender.
      * apply appender_raise.
  - intros c h e Hin. simpl in Hin.
    destruct Hin as [[= <- <-] | [[= <- <-] | []]]; apply appender_logger.
Qed.

Lemma check_all_steps_appender (w : world) :
  appender extension_accepted (check_all_steps w).
Proof.
  unfold check_all_steps.
  apply appender_bind; [apply appender_logger | intros _].
  apply appender_bind; [apply check_project_structure_appender | intros _].
  apply appender_bind; [apply check_files_appender | intros _].
  apply appender_bind; [apply run_eslint_check_appender | intros _].
  apply appender_logger.
Qed.

(** What [check_all] does from any checker: its steps end in one way and
    append one list; when they return, the list returned is the checker's
    list so extended. *)
Lemma check_all_runs (w : world) (root : string) :
  exists (o : outcome unit) (d : list ConventionViolation)
         (lg : list log_record),
    Forall extension_accepted d /\
    forall vs l0,
      check_all w (mk_state root vs l0)
      = (match o with
         | Return _ => Return (vs ++ d)%list
         | Raise e => Raise e
         | Untyped => Untyped
         end,
         mk_state root (vs ++ d) (l0 ++ lg)%list).
Proof.
  destruct (check_all_steps_appender w root) as (o & d & lg & Hd & Hrun).
  exists o, d, lg. split; [assumption |].
  intros vs l0. unfold check_all, bind. rewrite Hrun.
  destruct o as [[] | e |]; reflexivity.
Qed.

Lemma check_files_discovered (w : world) (s : state) :
  check_files w s
  = for_each (discovered w (project_path (self s))) (check_file w) s.
Proof.
  unfold check_files, discovered, bind at 1, get_project_path.
  set (top := project_path (self s)).
  rewrite <- for_each_flat_map.
  apply for_each_ext. intros [[root dirs] files] s' _.
  now rewrite for_each_when, for_each_map.
Qed.

(** C9: a run never appends a [file_naming] violation whose message
    starts with "Invalid file extension": only names ending in [.ts] or
    [.tsx] reach the per-file checks, and the base name of every path so
    built passes the extension test of [check_file_naming]. *)
Theorem no_invalid_extension_finding (w : world) (s : state) :
  check_files w s
  = for_each (discovered w (project_path (self s))) (check_file w) s
  /\ Forall (fun path =>
               PyStr.endswith_any [".ts"; ".tsx"] (OsPath.basename path) = true
               /\ PyStr.endswith_any recognised_endings (OsPath.basename path)
                  = true)
            (discovered w (project_path (self s)))
  /\ exists d,
       violations (self (snd (check_all w s)))
       = (violations (self s) ++ d)%list
       /\ Forall (fun v => ~ (rule v = "file_naming"
                              /\ PyStr.startswith "Invalid file extension"
                                   (message v) = true)) d
       /\ forall vs, fst (check_all w s) = Return vs ->
                     vs = (violations (self s) ++ d)%list.
Proof.
  split; [apply check_files_discovered |].
  split.
  { apply Forall_forall. intros path Hin. unfold discovered in Hin.
    apply in_flat_map in Hin. destruct Hin as ([[root dirs] files] & _ & Hin).
    apply in_map_iff in Hin. destruct Hin as (file & <- & Hfile).
    apply filter_In in Hfile.
    now apply typescript_file_is_recognised. }
  destruct (check_all_runs w (project_path (self s)))
    as (o & d & lg & Hd & Hrun).
  exists d. destruct s as [[root vs] l0]. simpl in Hrun |- *.
  specialize (Hrun vs l0). unfold mk_state in Hrun. rewrite Hrun. simpl.
  split; [reflexivity |]. split.
  - eapply Forall_impl; [| exact Hd].
    intros v Hv [Hrule Hmsg]. unfold extension_accepted in Hv.
    unfold invalid_extension_finding in Hv.
    rewrite Hrule, Hmsg in Hv. discriminate.
  - intros vs'. destruct o as [[] | e |]; [| discriminate | discriminate].
    now intros [= <-].
Qed.

(* ------------------------------------------------------------------ *)
(** * Files that cannot be read *)


(** The loop over the files stops at the first one that cannot be read,
    with that file's error. *)
Lemma for_each_check_file_raises (w : world) (paths : list string) (s : state) :
  (exists path, In path paths /\ file_error w path <> None) ->
  exists path e s',
    In path paths /\ file_error w path = Some e
    /\ for_each paths (check_file w) s = (Raise e, s').
Proof.
  revert s; induction paths as [| x paths IH]; intros s (path & Hin & Herr).
  - destruct Hin.
  - cbn [for_each]. destruct (file_error w x) as [e |] eqn:Hx.
    + destruct (check_file_raises w x s Hx) as [s' Hrun].
      exists x, e, s'. split; [now left |]. split; [assumption |].
      unfold bind. now rewrite Hrun.
    + destruct (@check_file_returns w x Hx s) as ([] & s1 & Hrun).
      destruct Hin as [-> | Hin]; [contradiction |].
      destruct (IH s1 (ex_intro _ path (conj Hin Herr)))
        as (p & e & s' & Hp & He & Hloop).
      exists p, e, s'. split; [now right |]. split; [assumption |].
      unfold bind. now rewrite Hrun.
Qed.


Lemma steps_before_check_files (w : world) (s : state) :
  exists s1,
    (logger INFO "Starting convention checks..." ;;
     check_project_structure w) s = (Return tt, s1)
    /\ project_path (self s1) = project_path (self s).
Proof.
  unfold bind, logger. rewrite check_project_structure_appends.
  eexists. split; reflexivity.
Qed.




(* ------------------------------------------------------------------ *)
(** * The naming convention check *)

(** The anchor [^] inside the lookahead holds at offset 0 only. *)
Lemma lookahead_is_inert (A : Type) (body : Re.cont unit -> Re.cont unit)
    (k : Re.cont A) (pos : nat) (s : string) :
  Re.neg_lookahead (fun k' => Re.bol (body k')) k (S pos) s = k (S pos) s.
Proof. reflexivity. Qed.

Lemma star_ext (A : Type) (f : ascii -> bool) (k k' : Re.cont A)
    (s : string) (pos : nat) :
  (forall p r, k (S p) r = k' (S p) r) ->
  Re.star f k (S pos) s = Re.star f k' (S pos) s.
Proof.
  intros H. revert pos; induction s as [| c s IH]; intros pos; simpl.
  - apply H.
  - destruct (f c); [| apply H]. now rewrite IH, H.
Qed.

(** The lookahead of the two patterns never suppresses a match: each
    pattern matches exactly where the keyword, blanks and a word follow
    one another. *)
Lemma keyword_name_ignores_lookahead (keyword : string)
    (body : Re.cont unit -> Re.cont unit) (pos : nat) (s : string) :
  Re.keyword_name keyword (fun k => Re.bol (body k)) pos s
  = Re.keyword_name keyword (fun _ _ _ => None) pos s.
Proof.
  unfold Re.keyword_name, Re.lit.
  destruct (PyStr.strip_prefix keyword s) as [r |]; [| reflexivity].
  unfold Re.plus, Re.cls at 1 3.
  destruct r as [| c r]; [reflexivity |].
  destruct (PyStr.is_space c); [| reflexivity].
  apply star_ext. intros p r'. reflexivity.
Qed.

(** C2, the defect: names that are PascalCase, and PascalCase with a
    leading I, are reported all the same. *)
Theorem pascal_case_names_are_flagged :
  is_pascal_case "Foo" = true
  /\ is_i_pascal_case "IShape" = true
  /\ check_naming_conventions pascal_world "a.ts" (mk_state "." [] [])
     = (Return tt,
        mk_state "."
          [ {| file_path := "a.ts"; line_number := 1;
               rule := "naming_convention";
               message := "Class name should be PascalCase: Foo" |};
            {| file_path := "a.ts"; line_number := 2;
               rule := "naming_convention";
               message :=
                 "Interface name should be PascalCase with I prefix: IShape" |} ]
          []).
Proof. repeat split. Qed.

(* ------------------------------------------------------------------ *)
(** * The external linter *)

(** An error of [subprocess.run] that is no [CalledProcessError] and no
    [JSONDecodeError] passes both handlers. *)
Lemma run_eslint_check_spawn_error (w : world) (s : state) (e : exn) :
  run_npx_eslint w (project_path (self s)) = SpawnError e ->
  exn_cls e <> CalledProcessError -> exn_cls e <> JSONDecodeError ->
  run_eslint_check w s = (Raise e, s).
Proof.
  intros Hrun H1 H2.
  unfold run_eslint_check, try_except, bind, get_project_path.
  rewrite Hrun. unfold raise. cbn [handler_for].
  destruct (exn_cls e); try reflexivity; contradiction.
Qed.

(** X18: when the linter exits with a non-zero status and its output
    does not parse, the check returns normally, logs one error record with
    the parser's message and appends no violation. *)
Lemma run_eslint_check_parse_error (w : world) (s : state)
    (returncode : Z) (stdout msg : string) :
  run_npx_eslint w (project_path (self s)) = Completed returncode stdout ->
  returncode <> 0%Z ->
  json_loads w stdout = inr msg ->
  run_eslint_check w s
  = (Return tt,
     {| self := self s;
        log := (log s
                ++ [{| level := ERROR;
                       text_of := "Error parsing ESLint output: " ++ msg |}])%list
     |}).
Proof.
  intros Hrun Hrc Hjson.
  unfold run_eslint_check, try_except, bind, get_project_path.
  rewrite Hrun. apply Z.eqb_neq in Hrc. rewrite Hrc. cbn [negb when].
  rewrite Hjson. reflexivity.
Qed.

(** C3, the defect: when the linter cannot be started, the error leaves
    [run_eslint_check] unlogged and ends [check_all]. *)
Theorem spawn_failure_escapes_run_eslint_check :
  run_eslint_check no_npx_world (mk_state "." [] [])
  = (Raise npx_not_found, mk_state "." [] [])
  /\ fst (check_all no_npx_world (mk_state "." [] [])) = Raise npx_not_found.
Proof. split; reflexivity. Qed.

(* ------------------------------------------------------------------ *)
(** * A whole run *)

(** The scenario of the specification, run: the class name is reported at
    line 3 and the long line at line 5 (and the file name, which is neither
    camelCase nor kebab-case). *)
Example my_class_scenario :
  fst (check_all my_class_world (mk_state "/p" [] []))
  = Return
      [ {| file_path := "/p/src/MyClass.ts"; line_number := 0;
           rule := "file_naming";
           message :=
             "File name should be camelCase or kebab-case: MyClass.ts" |};
        {| file_path := "/p/src/MyClass.ts"; line_number := 5;
           rule := "line_length";
           message := "Line exceeds 100 characters" |};
        {| file_path := "/p/src/MyClass.ts"; line_number := 3;
           rule := "naming_convention";
           message := "Class name should be PascalCase: myBadName" |} ].
Proof. vm_compute. reflexivity. Qed.

(* ------------------------------------------------------------------ *)
(** * Two runs *)

(** [check_all] on the checker at [a], whatever else the heap holds. *)
Lemma call_check_all_runs (w : world) (root : string) :
  exists (o : outcome unit) (d : list ConventionViolation)
         (lg : list log_record),
    forall (a : nat) (p : process) (vs : list ConventionViolation),
      objects p a = {| project_path := root; violations := vs |} ->
      call_check_all w a p
      = (match o with
         | Return _ => Return (ViolationsOf a)
         | Raise e => Raise e
         | Untyped => Untyped
         end,
         {| objects := fun b =>
              if (b =? a)%nat
              then {| project_path := root; violations := (vs ++ d)%list |}
              else objects p b;
            next_object := next_object p;
            process_log := (process_log p ++ lg)%list |}).
Proof.
  destruct (check_all_runs w root) as (o & d & lg & _ & Hrun).
  exists o, d, lg. intros a p vs Hobj.
  unfold call_check_all, call. rewrite Hobj.
  change {| self := {| project_path := root; violations := vs |};
            log := process_log p |}
    with (mk_state root vs (process_log p)).
  rewrite Hrun. destruct o as [[] | e |]; reflexivity.
Qed.

(** C8, as the code has it: with a new checker for each run, as [main]
    makes one, two runs over the same world give the same list, element for
    element, and the second run leaves the first list as it was; with
    [check_all] called twice on one checker, the second call returns the
    findings of the first run followed by the same findings again, so its
    result equals the first only when the first run found nothing.  A run
    that fails, fails the same way again. *)
Theorem check_all_twice_with_new_checkers (w : world) (root : string)
    (p : process) :
  (let run1 := run_all_checks w root p in
   let run2 := run_all_checks w root (snd run1) in
   match fst run1, fst run2 with
   | Return r1, Return r2 =>
       deref (snd run2) r2 = deref (snd run1) r1
       /\ deref (snd run2) r1 = deref (snd run1) r1
   | Raise e1, Raise e2 => e1 = e2
   | Untyped, Untyped => True
   | _, _ => False
   end)
  /\ (let created := new_checker root p in
      let run1 := call_check_all w (fst created) (snd created) in
      let run2 := call_check_all w (fst created) (snd run1) in
      match fst run1, fst run2 with
      | Return r1, Return r2 =>
          deref (snd run2) r2
          = (deref (snd run1) r1 ++ deref (snd run1) r1)%list
          /\ (deref (snd run2) r2 = deref (snd run1) r1
              <-> deref (snd run1) r1 = [])
      | Raise e1, Raise e2 => e1 = e2
      | Untyped, Untyped => True
      | _, _ => False
      end).
Proof.
  destruct (call_check_all_runs w root) as (o & d & lg & Hrun).
  split.
  - cbv zeta. unfold run_all_checks, new_checker.
    rewrite (Hrun _ _ []) by (cbn; now rewrite Nat.eqb_refl).
    cbn [fst snd next_object objects process_log].
    rewrite (Hrun _ _ []) by (cbn; now rewrite Nat.eqb_refl).
    cbn [fst snd]. destruct o as [[] | e |]; try reflexivity.
    cbn [deref objects]. rewrite !Nat.eqb_refl.
    replace (next_object p =? S (next_object p))%nat with false
      by (symmetry; apply Nat.eqb_neq; lia).
    rewrite ?Nat.eqb_refl. split; reflexivity.
  - cbv zeta. unfold new_checker. cbn [fst snd].
    rewrite (Hrun _ _ []) by (cbn; now rewrite Nat.eqb_refl).
    cbn [fst snd].
    rewrite (Hrun _ _ ([] ++ d)%list) by (cbn; now rewrite Nat.eqb_refl).
    cbn [fst snd]. destruct o as [[] | e |]; try reflexivity.
    cbn [deref objects violations app]. rewrite !Nat.eqb_refl.
    cbn [violations]. split; [reflexivity |]. split.
    + intros H. apply (f_equal (@List.length _)) in H.
      rewrite length_app in H. destruct d; [reflexivity |].
      cbn [List.length] in H. lia.
    + now intros ->.
Qed.

(** C8 as stated fails for two calls on one checker: over the project of
    the scenario, the first [check_all] returns a list of three violations,
    the second, on the same checker and the same files, a list of six. *)
Lemma check_all_again_on_one_checker_differs :
  fst (call_check_all my_class_world 0 (snd (new_checker "/p" no_objects)))
  = Return (ViolationsOf 0)
  /\ fst (call_check_all my_class_world 0
            (snd (call_check_all my_class_world 0
                    (snd (new_checker "/p" no_objects)))))
     = Return (ViolationsOf 0)
  /\ List.length
       (deref (snd (call_check_all my_class_world 0
                      (snd (new_checker "/p" no_objects))))
              (ViolationsOf 0)) = 3
  /\ List.length
       (deref (snd (call_check_all my_class_world 0
                      (snd (call_check_all my_class_world 0
                              (snd (new_checker "/p" no_objects))))))
              (ViolationsOf 0)) = 6
  /\ deref (snd (call_check_all my_class_world 0
                   (snd (call_check_all my_class_world 0
                           (snd (new_checker "/p" no_objects))))))
           (ViolationsOf 0)
     <> deref (snd (call_check_all my_class_world 0
                      (snd (new_checker "/p" no_objects))))
              (ViolationsOf 0).
Proof.
  repeat (split; [vm_compute; reflexivity |]).
  intros H. apply (f_equal (@List.length _)) in H.
  vm_compute in H. discriminate H.
Qed.

(** X17: what a second [check_all] on the same checker leaves in the
    list it returns: the findings of the first run, then the same findings
    again. *)
Lemma check_all_again_accumulates (w : world) (root : string) (p : process) :
  let created := new_checker root p in
  let run1 := call_check_all w (fst created) (snd created) in
  let run2 := call_check_all w (fst created) (snd run1) in
  forall r1 r2,
    fst run1 = Return r1 -> fst run2 = Return r2 ->
    deref (snd run2) r2 = (deref (snd run1) r1 ++ deref (snd run1) r1)%list.
Proof.
  destruct (call_check_all_runs w root) as (o & d & lg & Hrun).
  cbv zeta. unfold new_checker. cbn [fst snd].
  rewrite (Hrun _ _ []) by (cbn; now rewrite Nat.eqb_refl).
  cbn [fst snd].
  rewrite (Hrun _ _ ([] ++ d)%list) by (cbn; now rewrite Nat.eqb_refl).
  cbn [fst snd]. intros r1 r2.
  destruct o as [[] | e |]; try discriminate.
  intros [= <-] [= <-]. cbn [deref objects]. now rewrite !Nat.eqb_refl.
Qed.

(* ------------------------------------------------------------------ *)
(** * The report *)

Lemma mem_in (key : string) (keys : list string) :
  mem key keys = true <-> In key keys.
Proof.
  unfold mem. rewrite existsb_exists. split.
  - intros (k & Hin & Heq). apply String.eqb_eq in Heq. now subst.
  - intros Hin. exists key. split; [assumption | apply String.eqb_refl].
Qed.

Lemma in_first_occurrences (key : string) (keys : list string) :
  In key (first_occurrences keys) <-> In key keys.
Proof.
  induction keys as [| k keys IH]; simpl; [tauto |].
  rewrite filter_In, IH, negb_true_iff, String.eqb_neq.
  destruct (string_dec k key) as [-> | Hne]; [tauto |].
  split; [tauto |]. intros [H | H]; [contradiction |].
  right. split; [assumption | congruence].
Qed.

Lemma NoDup_first_occurrences (keys : list string) :
  NoDup (first_occurrences keys).
Proof.
  induction keys as [| k keys IH]; simpl; constructor.
  - rewrite filter_In, negb_true_iff, String.eqb_neq. tauto.
  - now apply NoDup_filter.
Qed.

Lemma first_occurrences_snoc (keys : list string) (key : string) :
  first_occurrences (keys ++ [key])
  = (if mem key (first_occurrences keys) then first_occurrences keys
     else first_occurrences keys ++ [key])%list.
Proof.
  induction keys as [| k keys IH]; simpl; [reflexivity |].
  rewrite IH. destruct (String.eqb_spec k key) as [-> | Hne]; simpl.
  - destruct (mem key (first_occurrences keys)); [reflexivity |].
    rewrite filter_app. simpl. rewrite String.eqb_refl. simpl.
    now rewrite app_nil_r.
  - assert (Hmem : mem key (filter (fun k' => negb (k' =? k)%string)
                              (first_occurrences keys))
                   = mem key (first_occurrences keys)).
    { apply eq_true_iff_eq. rewrite !mem_in, filter_In, negb_true_iff,
        String.eqb_neq. split; [tauto |]. intros H. split; [assumption |].
      congruence. }
    rewrite Hmem. destruct (mem key (first_occurrences keys)); [reflexivity |].
    rewrite filter_app. simpl.
    replace (key =? k)%string with false
      by (symmetry; apply String.eqb_neq; congruence).
    reflexivity.
Qed.

Lemma dict_mem_map (key : string) (keys : list string)
    (g : string -> list ConventionViolation) :
  dict_mem key (map (fun k => (k, g k)) keys) = mem key keys.
Proof.
  unfold dict_mem, mem. induction keys as [| k keys IH]; simpl;
    [reflexivity | now rewrite IH].
Qed.

(** Appending under a key of a dictionary with distinct keys changes the
    entry of that key only. *)
Lemma dict_append_map (key : string) (v : ConventionViolation)
    (keys : list string) (g : string -> list ConventionViolation) :
  NoDup keys ->
  dict_append key v (map (fun k => (k, g k)) keys)
  = map (fun k => (k, if String.eqb k key then (g k ++ [v])%list else g k))
        keys.
Proof.
  induction keys as [| k keys IH]; intros Hnd; simpl; [reflexivity |].
  inversion Hnd as [| ? ? Hk Hnd']; subst.
  destruct (String.eqb_spec k key) as [-> | Hne].
  - f_equal. apply map_ext_in. intros k' Hk'.
    destruct (String.eqb_spec k' key) as [-> | _];
      [contradiction | reflexivity].
  - f_equal. now apply IH.
Qed.

Lemma of_file_snoc (key : string) (vs : list ConventionViolation)
    (v : ConventionViolation) :
  of_file key (vs ++ [v])
  = (if String.eqb key (file_path v) then (of_file key vs ++ [v])%list
     else of_file key vs).
Proof.
  unfold of_file. rewrite filter_app. simpl.
  rewrite (String.eqb_sym (file_path v) key).
  destruct (key =? file_path v)%string; [reflexivity | apply app_nil_r].
Qed.

Lemma of_file_absent (key : string) (vs : list ConventionViolation) :
  ~ In key (map file_path vs) -> of_file key vs = [].
Proof.
  intros H. unfold of_file. induction vs as [| v vs IH]; simpl; [reflexivity |].
  destruct (String.eqb_spec (file_path v) key) as [E | _].
  - exfalso. apply H. now left.
  - apply IH. intros Hin. apply H. now right.
Qed.

Lemma group_step_grouped (vs : list ConventionViolation)
    (v : ConventionViolation) :
  group_step (grouped vs) v = grouped (vs ++ [v]).
Proof.
  unfold group_step, grouped.
  rewrite map_app. change (map file_path [v]) with [file_path v].
  rewrite first_occurrences_snoc.
  set (keys := first_occurrences (map file_path vs)).
  set (key := file_path v).
  rewrite (dict_mem_map key keys (fun k => of_file k vs)).
  assert (Hnd : NoDup keys) by apply NoDup_first_occurrences.
  destruct (mem key keys) eqn:Hmem.
  - rewrite dict_append_map by assumption.
    apply map_ext. intros k. now rewrite of_file_snoc.
  - assert (Hout : ~ In key keys).
    { intros Hin. apply mem_in in Hin. congruence. }
    unfold dict_new.
    replace (map (fun k => (k, of_file k vs)) keys ++ [(key, [])])%list
      with (map (fun k => (k, of_file k vs)) (keys ++ [key])).
    2: { rewrite map_app. simpl. f_equal. f_equal. f_equal.
         apply of_file_absent. intros Hin. apply Hout.
         now apply in_first_occurrences. }
    rewrite dict_append_map.
    + apply map_ext. intros k. now rewrite of_file_snoc.
    + apply NoDup_app; [assumption | repeat constructor; simpl; tauto |].
      intros k Hk [<- | []]. contradiction.
Qed.

(** The dictionary the report builds is the grouping by first occurrence. *)
Lemma violations_by_file_grouped (vs : list ConventionViolation) :
  violations_by_file vs = grouped vs.
Proof.
  unfold violations_by_file.
  assert (H : forall pre, fold_left group_step vs (grouped pre)
                          = grouped (pre ++ vs)).
  { induction vs as [| v vs IH]; intros pre; simpl.
    - now rewrite app_nil_r.
    - rewrite group_step_grouped, IH, <- app_assoc. reflexivity. }
  apply (H []).
Qed.

Lemma report_sections_returns (w : world) (start : string) (d : dict) :
  Forall (fun kv => fst kv <> "") d ->
  report_sections w start d = Return (sections_of w start d).
Proof.
  induction d as [| [key fvs] d IH]; intros H; simpl; [reflexivity |].
  inversion H as [| ? ? Hkey Hd]; subst. simpl in Hkey.
  unfold os_path_relpath.
  destruct (String.eqb_spec key "") as [-> | _]; [contradiction |].
  now rewrite (IH Hd).
Qed.

(** C4, as the code has it: for no violation the report is the fixed
    message; for violations whose file paths are all non-empty it is the
    title, the total count, and then, for each file path in order of first
    occurrence, a heading with the path relative to the project root
    followed by the violations of that exact path in encounter order, one
    list item "- Line n: [rule] message" each, all joined by newlines. *)
Theorem generate_report_groups_by_first_occurrence (w : world)
    (c : checker) :
  (violations c = [] -> generate_report w c = Return no_violations_report)
  /\ (violations c <> [] ->
      Forall (fun v => file_path v <> "") (violations c) ->
      violations_by_file (violations c) = grouped (violations c)
      /\ generate_report w c
         = Return
             (PyStr.join nl
                (report_title
                 :: total_line (violations c)
                 :: sections_of w (project_path c) (grouped (violations c))))).
Proof.
  split.
  - intros H. unfold generate_report. now rewrite H.
  - intros Hne Hpaths. split; [apply violations_by_file_grouped |].
    unfold generate_report.
    destruct (violations c) as [| v vs] eqn:E; [contradiction |].
    rewrite violations_by_file_grouped, report_sections_returns;
      [reflexivity |].
    apply Forall_forall. intros [key fvs] Hin. simpl.
    unfold grouped in Hin. apply in_map_iff in Hin.
    destruct Hin as (k & [= <- <-] & Hk).
    apply in_first_occurrences, in_map_iff in Hk.
    destruct Hk as (v' & <- & Hv').
    rewrite Forall_forall in Hpaths. now apply Hpaths.
Qed.

Lemma generate_report_groups_by_first_occurrence_witness :
  grouped sample_violations
  = [ ("/p/src/b.ts",
       [ {| file_path := "/p/src/b.ts"; line_number := 7;
            rule := "line_length";
            message := "Line exceeds 100 characters" |};
         {| file_path := "/p/src/b.ts"; line_number := 2;
            rule := "documentation";
            message := "Missing JSDoc comment for function" |} ]);
      ("/p/src/a.ts",
       [ {| file_path := "/p/src/a.ts"; line_number := 3; rule := "imports";
            message := "Avoid using parent directory imports (..)" |} ]) ]
  /\ generate_report sample_world
       {| project_path := "/p"; violations := sample_violations |}
     = Return
         ("# Convention Check Report" ++ nl ++ nl
          ++ "Total violations found: 3" ++ nl ++ nl ++ nl
          ++ "## /p/src/b.ts" ++ nl ++ nl
          ++ "- Line 7: [line_length] Line exceeds 100 characters" ++ nl
          ++ "- Line 2: [documentation] Missing JSDoc comment for function"
          ++ nl ++ nl
          ++ "## /p/src/a.ts" ++ nl ++ nl
          ++ "- Line 3: [imports] Avoid using parent directory imports (..)").
Proof.
  split; [reflexivity |].
  destruct (generate_report_groups_by_first_occurrence sample_world
              {| project_path := "/p"; violations := sample_violations |})
    as [_ H].
  destruct H as [_ H].
  - discriminate.
  - repeat constructor; discriminate.
  - rewrite H. reflexivity.
Defined.

(** C4 as stated fails: a violation whose file path is empty, as the
    project structure check records for the project root [""], makes
    [os.path.relpath] raise, and no report is produced. *)
Lemma generate_report_fails_on_empty_path :
  check_project_structure empty_world (mk_state "" [] [])
  = (Return tt, mk_state "" (structure_findings empty_world "") [])
  /\ structure_findings empty_world "" <> []
  /\ generate_report empty_world
       {| project_path := ""; violations := structure_findings empty_world "" |}
     = Raise {| exn_cls := ValueError; exn_str := "no path specified" |}.
Proof.
  split; [reflexivity |]. split; [discriminate | reflexivity].
Qed.

Unset Implicit Arguments.

(* ------------------------------------------------------------------ *)
(** * Lines of a text *)

Lemma append_nil_r (s : string) : s ++ "" = s.
Proof. induction s as [| c s IH]; simpl; [reflexivity | now rewrite IH]. Qed.

Lemma length_append (a b : string) :
  String.length (a ++ b) = (String.length a + String.length b)%nat.
Proof. induction a as [| c a IH]; simpl; [reflexivity | now rewrite IH]. Qed.

Lemma count_newlines_append (a b : string) :
  PyStr.count_newlines (a ++ b)
  = (PyStr.count_newlines a + PyStr.count_newlines b)%nat.
Proof.
  induction a as [| c a IH]; simpl; [reflexivity |]. rewrite IH. lia.
Qed.

Lemma lines_nonempty_text (c : ascii) (s : string) :
  PyStr.lines (String c s) <> [].
Proof.
  cbn [PyStr.lines]. destruct (Ascii.eqb c PyStr.newline); [discriminate |].
  destruct (PyStr.lines s); discriminate.
Qed.

Lemma lines_empty_iff (s : string) : PyStr.lines s = [] -> s = "".
Proof.
  destruct s as [| c s]; [reflexivity |].
  intros H. now apply lines_nonempty_text in H.
Qed.

Lemma lines_cons (c : ascii) (s : string) :
  PyStr.lines (String c s)
  = if Ascii.eqb c PyStr.newline then String c "" :: PyStr.lines s
    else match PyStr.lines s with
         | [] => [String c ""]
         | l :: ls => String c l :: ls
         end.
Proof. reflexivity. Qed.

Lemma text_of_lines_lines (s : string) : text_of_lines (PyStr.lines s) = s.
Proof.
  unfold text_of_lines. induction s as [| c s IH]; [reflexivity |].
  rewrite lines_cons. destruct (Ascii.eqb_spec c PyStr.newline) as [-> | Hc].
  - cbn [fold_right String.append]. now rewrite IH.
  - destruct (PyStr.lines s) as [| l ls] eqn:Hl.
    + apply lines_empty_iff in Hl. now subst.
    + cbn [fold_right String.append] in IH |- *. now rewrite IH.
Qed.

Lemma lines_shape (s : string) : Forall line_shape (PyStr.lines s).
Proof.
  induction s as [| c s IH]; [constructor |].
  rewrite lines_cons. destruct (Ascii.eqb_spec c PyStr.newline) as [-> | Hc].
  - constructor; [| assumption]. exists "". split; [reflexivity | now left].
  - assert (Hcn : is_newline c = false).
    { unfold is_newline. now apply Ascii.eqb_neq. }
    destruct (PyStr.lines s) as [| l ls].
    + constructor; [| constructor]. exists (String c "").
      split; [cbn; now rewrite Hcn |]. right. split; [reflexivity | discriminate].
    + inversion IH as [| ? ? (body & Hbody & Hcase) Hrest]; subst.
      constructor; [| assumption].
      exists (String c body). split; [cbn; now rewrite Hcn, Hbody |].
      destruct Hcase as [-> | [-> Hne]]; [now left |].
      right. split; [reflexivity | discriminate].
Qed.

Lemma lines_inner_end (s : string) (i : nat) (l : string) :
  nth_error (PyStr.lines s) i = Some l ->
  (S i < List.length (PyStr.lines s))%nat ->
  PyStr.endswith nl l = true.
Proof.
  revert i l. induction s as [| c s IH]; intros i l.
  - destruct i; discriminate.
  - rewrite lines_cons.
    destruct (Ascii.eqb_spec c PyStr.newline) as [-> | Hc].
    + destruct i as [| i]; cbn [nth_error List.length].
      * now intros [= <-] _.
      * intros Hnth Hlt. apply (IH i l Hnth). lia.
    + destruct (PyStr.lines s) as [| l0 ls].
      * destruct i as [| [| i]]; cbn; intros; try lia; discriminate.
      * destruct i as [| i]; cbn [nth_error List.length].
        -- intros [= <-] Hlt. cbn [PyStr.endswith].
           rewrite (IH 0%nat l0 eq_refl) by (cbn [List.length]; lia).
           apply orb_true_r.
        -- intros Hnth Hlt. apply (IH (S i) l Hnth). cbn [List.length]. lia.
Qed.

Lemma ends_open_cons (c d : ascii) (s : string) :
  ends_open (String c (String d s)) = ends_open (String d s).
Proof.
  unfold ends_open. cbn [PyStr.endswith].
  replace (nl =? String c (String d s))%string with false
    by (symmetry; apply String.eqb_neq; discriminate).
  reflexivity.
Qed.

Lemma ends_open_single (c : ascii) :
  ends_open (String c "") = negb (Ascii.eqb c PyStr.newline).
Proof.
  unfold ends_open. cbn [PyStr.endswith].
  change (nl =? "")%string with false.
  change (String c "" =? "")%string with false.
  rewrite !orb_false_r.
  destruct (Ascii.eqb_spec c PyStr.newline) as [-> | Hc]; [reflexivity |].
  destruct (String.eqb_spec nl (String c "")) as [E | _]; [| reflexivity].
  injection E as E. now contradict Hc.
Qed.

Lemma lines_count (s : string) :
  List.length (PyStr.lines s)
  = (PyStr.count_newlines s + (if ends_open s then 1 else 0))%nat.
Proof.
  induction s as [| c s IH]; [reflexivity |].
  rewrite lines_cons. cbn [PyStr.count_newlines].
  destruct s as [| d s].
  - rewrite ends_open_single.
    destruct (Ascii.eqb c PyStr.newline); reflexivity.
  - rewrite ends_open_cons.
    destruct (Ascii.eqb c PyStr.newline).
    + cbn [List.length]. rewrite IH. lia.
    + destruct (PyStr.lines (String d s)) as [| l ls] eqn:Hl.
      * now apply lines_nonempty_text in Hl.
      * cbn [List.length] in IH |- *. rewrite IH. lia.
Qed.

(** X1: the lines a file yields split its text and lose nothing:
    concatenated they give the text back; each is text without a newline
    followed by a newline, or, for a last line that lacks it, by nothing
    (and is then not empty); every line but the last ends with a newline;
    and there are as many lines as newlines, plus one when text follows
    the last newline. *)
Theorem lines_partition_text (s : string) :
  text_of_lines (PyStr.lines s) = s
  /\ Forall line_shape (PyStr.lines s)
  /\ (forall i l, nth_error (PyStr.lines s) i = Some l ->
        (S i < List.length (PyStr.lines s))%nat ->
        PyStr.endswith nl l = true)
  /\ List.length (PyStr.lines s)
     = (PyStr.count_newlines s + (if ends_open s then 1 else 0))%nat.
Proof.
  split; [apply text_of_lines_lines |].
  split; [apply lines_shape |].
  split; [intros i l; apply lines_inner_end | apply lines_count].
Qed.

Lemma none_of_translate (s : string) :
  none_of is_carriage_return (PyStr.translate_newlines s) = true.
Proof.
  assert (H : forall n s, (String.length s <= n)%nat ->
            none_of is_carriage_return (PyStr.translate_newlines s) = true).
  { clear s. induction n as [| n IH]; intros s Hlen.
    - destruct s; [reflexivity | simpl in Hlen; lia].
    - destruct s as [| c s]; [reflexivity |].
      cbn [PyStr.translate_newlines]. simpl in Hlen.
      destruct (Ascii.eqb_spec c PyStr.carriage_return) as [-> | Hc].
      + cbn [none_of]. change (is_carriage_return PyStr.newline) with false.
        cbn [negb andb]. destruct s as [| d s]; [reflexivity |].
        simpl in Hlen.
        destruct (Ascii.eqb d PyStr.newline); apply IH; simpl; lia.
      + cbn [none_of]. unfold is_carriage_return at 1.
        replace (Ascii.eqb c PyStr.carriage_return) with false
          by (symmetry; now apply Ascii.eqb_neq).
        cbn [negb andb]. apply IH. lia. }
  apply (H (String.length s)). lia.
Qed.

(** Universal newlines leave no carriage return in what the checks read,
    and change nothing in a text that has none. *)
Lemma translate_newlines_normalises (s : string) :
  none_of is_carriage_return (PyStr.translate_newlines s) = true
  /\ (none_of is_carriage_return s = true -> PyStr.translate_newlines s = s)
  /\ PyStr.translate_newlines (PyStr.translate_newlines s)
     = PyStr.translate_newlines s.
Proof.
  assert (Hid : forall t, none_of is_carriage_return t = true ->
                          PyStr.translate_newlines t = t).
  { induction t as [| c t IH]; [reflexivity |].
    cbn [none_of PyStr.translate_newlines]. unfold is_carriage_return at 1.
    destruct (Ascii.eqb c PyStr.carriage_return); [discriminate |].
    cbn [negb andb]. intros H. now rewrite IH. }
  split; [apply none_of_translate |]. split; [apply Hid |].
  apply Hid, none_of_translate.
Qed.

(* ------------------------------------------------------------------ *)
(** * Trailing whitespace *)

Lemma rstrip_spaces (ws : string) :
  all_of PyStr.is_space ws = true -> PyStr.rstrip ws = "".
Proof.
  induction ws as [| c ws IH]; [reflexivity |].
  cbn [all_of PyStr.rstrip]. intros H. apply andb_true_iff in H.
  destruct H as [Hc Hws]. now rewrite (IH Hws), Hc.
Qed.

Lemma rstrip_append_spaces (s ws : string) :
  all_of PyStr.is_space ws = true ->
  PyStr.rstrip (s ++ ws) = PyStr.rstrip s.
Proof.
  intros Hws. induction s as [| c s IH].
  - simpl. now apply rstrip_spaces.
  - cbn [String.append PyStr.rstrip]. now rewrite IH.
Qed.

Lemma length_rstrip (s : string) :
  (String.length (PyStr.rstrip s) <= String.length s)%nat.
Proof.
  induction s as [| c s IH]; [apply Nat.le_refl |].
  cbn [PyStr.rstrip]. destruct (PyStr.rstrip s) as [| d r].
  - destruct (PyStr.is_space c); simpl; lia.
  - simpl in IH |- *. lia.
Qed.

(** X2: whitespace at the end of a line never counts towards its length:
    a line is too long exactly when it is so without its trailing
    whitespace, so a line of at most [max_length] characters before its
    newline is never reported, and a blank line never is for a threshold
    that is not negative. *)
Theorem trailing_whitespace_is_not_counted (max_length : Z)
    (line ws : string) :
  all_of PyStr.is_space ws = true ->
  too_long max_length (line ++ ws) = too_long max_length line
  /\ ((Z.of_nat (String.length line) <= max_length)%Z ->
      too_long max_length (line ++ ws) = false)
  /\ ((0 <= max_length)%Z -> too_long max_length ws = false).
Proof.
  intros Hws. unfold too_long. rewrite (rstrip_append_spaces line ws Hws).
  split; [reflexivity |]. split.
  - intros Hle. apply Z.ltb_ge. pose proof (length_rstrip line). lia.
  - intros Hle. rewrite (rstrip_spaces ws Hws). apply Z.ltb_ge. simpl. lia.
Qed.

Lemma trailing_whitespace_is_not_counted_witness :
  too_long 5 ("abcde" ++ "   " ++ nl) = false.
Proof.
  apply (trailing_whitespace_is_not_counted 5 "abcde" ("   " ++ nl));
    [reflexivity | simpl; lia].
Defined.

(* ------------------------------------------------------------------ *)
(** * What the quantifiers match *)

Lemma strip_prefix_append (p r : string) :
  PyStr.strip_prefix p (p ++ r) = Some r.
Proof.
  induction p as [| c p IH]; simpl; [reflexivity |].
  now rewrite Ascii.eqb_refl.
Qed.

Lemma all_of_append (f : ascii -> bool) (a b : string) :
  all_of f (a ++ b) = all_of f a && all_of f b.
Proof.
  induction a as [| c a IH]; simpl; [reflexivity |].
  now rewrite IH, andb_assoc.
Qed.

(** A greedy star finds a match whenever some run of its class, followed
    by what comes next, is one. *)
Lemma star_complete (f : ascii -> bool) (k : Re.cont unit) (a b : string)
    (pos : nat) :
  all_of f a = true ->
  k (pos + String.length a)%nat b = Some tt ->
  Re.star f k pos (a ++ b) = Some tt.
Proof.
  revert pos. induction a as [| c a IH]; intros pos Ha Hk.
  - rewrite Nat.add_0_r in Hk. simpl. destruct b as [| d b]; simpl.
    + exact Hk.
    + destruct (f d); [| exact Hk].
      destruct (Re.star f k (S pos) b) as [[] |]; [reflexivity | exact Hk].
  - simpl in Ha. apply andb_true_iff in Ha. destruct Ha as [Hc Ha].
    cbn [String.append Re.star]. rewrite Hc.
    rewrite (IH (S pos) Ha); [reflexivity |].
    simpl in Hk. now rewrite Nat.add_succ_r in Hk.
Qed.

(** And it finds no other. *)
Lemma star_sound (f : ascii -> bool) (k : Re.cont unit) (s : string)
    (pos : nat) :
  Re.star f k pos s = Some tt ->
  exists a b,
    s = a ++ b /\ all_of f a = true
    /\ k (pos + String.length a)%nat b = Some tt.
Proof.
  revert pos. induction s as [| c s IH]; intros pos H.
  - exists "", "". simpl in H |- *. now rewrite Nat.add_0_r.
  - cbn [Re.star] in H. destruct (f c) eqn:Hc.
    + destruct (Re.star f k (S pos) s) as [[] |] eqn:Hs.
      * destruct (IH (S pos) Hs) as (a & b & -> & Ha & Hk).
        exists (String c a), b. simpl. rewrite Hc, Ha.
        rewrite Nat.add_succ_r. auto.
      * exists "", (String c s). simpl. now rewrite Nat.add_0_r.
    + exists "", (String c s). simpl. now rewrite Nat.add_0_r.
Qed.

Lemma eol_iff (pos : nat) (s : string) :
  Re.eol Re.accept pos s = Some tt <-> s = "" \/ s = nl.
Proof.
  unfold Re.eol, Re.accept. destruct s as [| c [| d s]].
  - tauto.
  - destruct (Ascii.eqb_spec c PyStr.newline) as [-> | Hc].
    + split; [now right | reflexivity].
    + split; [discriminate |]. intros [H | H]; [discriminate |].
      injection H as H. now contradict Hc.
  - split; [discriminate |]. intros [H | H]; discriminate.
Qed.

(** What [^[a-z][a-zA-Z0-9]*$] accepts. *)
Lemma camel_case_iff (name : string) :
  Re.re_match Re.camel_case name = true
  <-> exists c rest tail,
        name = String c (rest ++ tail)
        /\ PyStr.is_lower c = true /\ all_of Re.alnum rest = true
        /\ (tail = "" \/ tail = nl).
Proof.
  unfold Re.re_match, Re.camel_case, Re.bol, Re.cls. cbn [Nat.eqb]. split.
  - destruct name as [| c name]; [discriminate |].
    destruct (PyStr.is_lower c) eqn:Hc; [| discriminate].
    destruct (Re.star Re.alnum (Re.eol Re.accept) 1 name) as [[] |] eqn:Hs;
      [| discriminate].
    intros _. destruct (star_sound _ _ _ _ Hs) as (a & b & -> & Ha & Hk).
    apply eol_iff in Hk. now exists c, a, b.
  - intros (c & rest & tail & -> & Hc & Hrest & Htail). rewrite Hc.
    rewrite (star_complete _ _ rest tail 1 Hrest); [reflexivity |].
    now apply eol_iff.
Qed.

(** What [^[a-z][a-z0-9-]*[a-z0-9]$] accepts. *)
Lemma kebab_case_iff (name : string) :
  Re.re_match Re.kebab_case name = true
  <-> exists c mid e tail,
        name = String c (mid ++ String e tail)
        /\ PyStr.is_lower c = true
        /\ all_of Re.lower_digit_dash mid = true
        /\ Re.lower_digit e = true
        /\ (tail = "" \/ tail = nl).
Proof.
  unfold Re.re_match, Re.kebab_case, Re.bol. cbn [Nat.eqb].
  unfold Re.cls at 1. split.
  - destruct name as [| c name]; [discriminate |].
    destruct (PyStr.is_lower c) eqn:Hc; [| discriminate].
    destruct (Re.star Re.lower_digit_dash
                (Re.cls Re.lower_digit (Re.eol Re.accept)) 1 name)
      as [[] |] eqn:Hs; [| discriminate].
    intros _. destruct (star_sound _ _ _ _ Hs) as (a & b & -> & Ha & Hk).
    unfold Re.cls in Hk. destruct b as [| e tail]; [discriminate |].
    destruct (Re.lower_digit e) eqn:He; [| discriminate].
    apply eol_iff in Hk. now exists c, a, e, tail.
  - intros (c & mid & e & tail & -> & Hc & Hmid & He & Htail). rewrite Hc.
    rewrite (star_complete _ _ mid (String e tail) 1 Hmid); [reflexivity |].
    unfold Re.cls. rewrite He. now apply eol_iff.
Qed.

(* ------------------------------------------------------------------ *)
(** * The file naming check *)

Lemma check_file_naming_appends (path : string) (s : state) :
  check_file_naming path s = (Return tt, add s (file_naming_findings path)).
Proof.
  unfold check_file_naming, file_naming_findings, bind.
  rewrite when_appends, when_appends, add_add. reflexivity.
Qed.

Lemma endswith_longer (p q s : string) :
  PyStr.endswith (q ++ p) s = true -> PyStr.endswith p s = true.
Proof.
  intros H. destruct (endswith_split (q ++ p) s H) as [y ->].
  rewrite <- append_assoc. apply endswith_app.
Qed.

Lemma recognised_endings_redundant (filename : string) :
  PyStr.endswith_any recognised_endings filename
  = PyStr.endswith_any [".ts"; ".tsx"] filename.
Proof.
  unfold PyStr.endswith_any, recognised_endings. cbn [existsb].
  rewrite !orb_false_r.
  destruct (PyStr.endswith ".ts" filename) eqn:Hts; [reflexivity |].
  destruct (PyStr.endswith ".tsx" filename); [reflexivity |]. cbn [orb].
  destruct (PyStr.endswith ".test.ts" filename) eqn:H1.
  { apply (endswith_longer ".ts" ".test") in H1. congruence. }
  destruct (PyStr.endswith ".spec.ts" filename) eqn:H2; [| reflexivity].
  apply (endswith_longer ".ts" ".spec") in H2. congruence.
Qed.

Lemma name_is_not_extension_finding (path : string) :
  name_finding path <> extension_finding path.
Proof. intros H. apply (f_equal message) in H. discriminate. Qed.

(** X3: the file naming check never fails; it records "Invalid file
    extension" exactly when the base name of the path ends in neither
    [.ts] nor [.tsx] (the endings [.test.ts] and [.spec.ts] that the code
    also lists add nothing), at most once. *)
Theorem extension_finding_iff (path : string) (s : state) :
  check_file_naming path s = (Return tt, add s (file_naming_findings path))
  /\ PyStr.endswith_any recognised_endings (OsPath.basename path)
     = PyStr.endswith ".ts" (OsPath.basename path)
       || PyStr.endswith ".tsx" (OsPath.basename path)
  /\ count_occ violation_eq_dec (file_naming_findings path)
       (extension_finding path)
     = if PyStr.endswith ".ts" (OsPath.basename path)
          || PyStr.endswith ".tsx" (OsPath.basename path)
       then 0%nat else 1%nat.
Proof.
  split; [apply check_file_naming_appends |].
  assert (Hred : PyStr.endswith_any recognised_endings (OsPath.basename path)
                 = PyStr.endswith ".ts" (OsPath.basename path)
                   || PyStr.endswith ".tsx" (OsPath.basename path)).
  { rewrite recognised_endings_redundant. unfold PyStr.endswith_any.
    cbn [existsb]. now rewrite orb_false_r. }
  split; [exact Hred |].
  unfold file_naming_findings. rewrite count_occ_app, Hred.
  assert (Hname : forall b : bool,
             count_occ violation_eq_dec
               (if b then [name_finding path] else [])
               (extension_finding path) = 0%nat).
  { intros [|]; [| reflexivity]. cbn [count_occ].
    destruct (violation_eq_dec _ _) as [E | _]; [| reflexivity].
    now apply name_is_not_extension_finding in E. }
  rewrite Hname, Nat.add_0_r.
  destruct (PyStr.endswith ".ts" (OsPath.basename path)
            || PyStr.endswith ".tsx" (OsPath.basename path));
    cbn [negb count_occ]; [reflexivity |].
  destruct (violation_eq_dec _ _) as [_ | NE]; [reflexivity | contradiction].
Qed.

(** X4: the file naming check records "File name should be camelCase or
    kebab-case" exactly when the base name up to its first dot is neither
    a lowercase letter followed by letters and digits, nor a lowercase
    letter followed by lowercase letters, digits and dashes that end in no
    dash (either with at most one final newline); so a name that is empty
    or does not start with a lowercase letter is always reported. *)
Theorem name_finding_iff (path : string) :
  let name := PyStr.before_first_dot (OsPath.basename path) in
  (forall s,
     check_file_naming path s = (Return tt, add s (file_naming_findings path)))
  /\ (In (name_finding path) (file_naming_findings path)
   <-> ~ (camel_shaped name \/ kebab_shaped name))
  /\ (name = "" -> In (name_finding path) (file_naming_findings path))
  /\ (forall c rest, name = String c rest -> PyStr.is_lower c = false ->
        In (name_finding path) (file_naming_findings path)).
Proof.
  intros name.
  assert (Hiff : In (name_finding path) (file_naming_findings path)
                 <-> ~ (camel_shaped name \/ kebab_shaped name)).
  { unfold file_naming_findings. fold name. rewrite in_app_iff.
    assert (HA : ~ In (name_finding path)
                   (if negb (PyStr.endswith_any recognised_endings
                               (OsPath.basename path))
                    then [extension_finding path] else [])).
    { destruct (negb _); cbn [In]; [| tauto].
      intros [E | []]. symmetry in E.
      now apply name_is_not_extension_finding in E. }
    unfold camel_shaped, kebab_shaped.
    rewrite <- camel_case_iff, <- kebab_case_iff.
    destruct (Re.re_match Re.camel_case name);
      destruct (Re.re_match Re.kebab_case name); cbn [orb negb In];
      intuition (auto; discriminate). }
  split; [intros s; apply check_file_naming_appends |].
  split; [exact Hiff |]. split.
  - intros Hname. apply Hiff.
    intros [(c & r & t & E & _) | (c & m & e & t & E & _)];
      rewrite Hname in E; discriminate.
  - intros c rest Hname Hc. apply Hiff.
    intros [(c' & r & t & E & Hl & _) | (c' & m & e & t & E & Hl & _)];
      rewrite Hname in E; injection E as -> _; congruence.
Qed.

Lemma name_finding_iff_witness :
  In (name_finding "/p/src/MyClass.ts")
     (file_naming_findings "/p/src/MyClass.ts").
Proof.
  apply (proj2 (proj2 (proj2 (name_finding_iff "/p/src/MyClass.ts")))
           "M"%char "yClass"); reflexivity.
Defined.

(* ------------------------------------------------------------------ *)
(** * What the documentation check looks for *)

Lemma lit_iff (p : string) (k : Re.cont unit) (pos : nat) (s : string) :
  Re.lit p k pos s = Some tt
  <-> exists r, s = p ++ r /\ k (pos + String.length p)%nat r = Some tt.
Proof.
  unfold Re.lit. split.
  - destruct (PyStr.strip_prefix p s) as [r |] eqn:E; [| discriminate].
    apply strip_prefix_app in E. intros H. now exists r.
  - intros (r & -> & H). now rewrite strip_prefix_append.
Qed.

Lemma star_iff (f : ascii -> bool) (k : Re.cont unit) (pos : nat)
    (s : string) :
  Re.star f k pos s = Some tt
  <-> exists a b, s = a ++ b /\ all_of f a = true
                  /\ k (pos + String.length a)%nat b = Some tt.
Proof.
  split; [apply star_sound |].
  intros (a & b & -> & Ha & Hk). now apply star_complete.
Qed.

Lemma plus_iff (f : ascii -> bool) (k : Re.cont unit) (pos : nat)
    (s : string) :
  Re.plus f k pos s = Some tt
  <-> exists a b, s = a ++ b /\ all_of f a = true /\ a <> ""
                  /\ k (pos + String.length a)%nat b = Some tt.
Proof.
  unfold Re.plus, Re.cls. split.
  - destruct s as [| c s]; [discriminate |].
    destruct (f c) eqn:Hc; [| discriminate].
    intros H. apply star_sound in H. destruct H as (a & b & -> & Ha & Hk).
    exists (String c a), b. cbn [all_of String.length]. rewrite Hc, Ha.
    rewrite Nat.add_succ_r. repeat split; auto. discriminate.
  - intros (a & b & -> & Ha & Hne & Hk).
    destruct a as [| c a]; [contradiction |].
    cbn [all_of] in Ha. apply andb_true_iff in Ha. destruct Ha as [Hc Ha].
    cbn [String.append]. rewrite Hc. apply star_complete; [assumption |].
    cbn [String.length] in Hk. now rewrite Nat.add_succ_r in Hk.
Qed.

Lemma accept_some (pos : nat) (s : string) : Re.accept pos s = Some tt.
Proof. reflexivity. Qed.

Lemma is_some_unit (o : option unit) : Re.is_some o = true <-> o = Some tt.
Proof. destruct o as [[] |]; simpl; split; congruence. Qed.

(** [re.search] finds a match exactly when the pattern matches at the
    start of some suffix. *)
Lemma search_from_iff (p : Re.cont unit -> Re.cont unit) (pos : nat)
    (s : string) :
  Re.search_from p pos s = true
  <-> exists pre rest,
        s = pre ++ rest
        /\ p Re.accept (pos + String.length pre)%nat rest = Some tt.
Proof.
  revert pos. induction s as [| c s IH]; intros pos; cbn [Re.search_from].
  - rewrite orb_false_r, is_some_unit. split.
    + intros H. exists "", "". now rewrite Nat.add_0_r.
    + intros (pre & rest & E & H). destruct pre; [| discriminate].
      simpl in E. subst rest. now rewrite Nat.add_0_r in H.
  - rewrite orb_true_iff, is_some_unit, IH. split.
    + intros [H | (pre & rest & -> & H)].
      * exists "", (String c s). now rewrite Nat.add_0_r.
      * exists (String c pre), rest. cbn [String.length String.append].
        now rewrite Nat.add_succ_r.
    + intros (pre & rest & E & H). destruct pre as [| d pre].
      * left. simpl in E. subst rest. now rewrite Nat.add_0_r in H.
      * right. injection E as -> ->. exists pre, rest.
        cbn [String.length] in H. now rewrite Nat.add_succ_r in H.
Qed.

Lemma todo_assignee_iff (line : string) :
  Re.re_search Re.todo_assignee line = true <-> has_assignee line.
Proof.
  unfold Re.re_search, has_assignee. rewrite search_from_iff. split.
  - intros (pre & rest & -> & H). unfold Re.todo_assignee in H.
    apply lit_iff in H. destruct H as (r1 & -> & H).
    apply star_iff in H. destruct H as (blanks & r2 & -> & Hb & H).
    apply lit_iff in H. destruct H as (r3 & -> & H).
    apply plus_iff in H. destruct H as (name & r4 & -> & Hn & Hne & H).
    apply lit_iff in H. destruct H as (post & -> & _).
    now exists pre, blanks, name, post.
  - intros (pre & blanks & name & post & -> & Hb & Hn & Hne).
    exists pre, ("TODO" ++ blanks ++ "(@" ++ name ++ ")" ++ post).
    split; [reflexivity |]. unfold Re.todo_assignee.
    apply lit_iff. eexists. split; [reflexivity |].
    apply star_iff. exists blanks, ("(@" ++ name ++ ")" ++ post).
    split; [reflexivity |]. split; [assumption |].
    apply lit_iff. eexists. split; [reflexivity |].
    apply plus_iff. exists name, (")" ++ post).
    split; [reflexivity |]. split; [assumption |]. split; [assumption |].
    apply lit_iff. eexists. split; reflexivity.
Qed.

(** X5: a line counts as an unassigned TODO exactly when it contains
    TODO and nowhere the text TODO, optional blanks, "(@", a non-empty run
    of word characters and ")"; so an annotation with any such name,
    anywhere in the line, silences the check for the whole line, and
    "TODO(@)" or "TODO(alice)" do not. *)
Theorem todo_unassigned_iff (line : string) :
  (todo_unassigned line = true
   <-> PyStr.contains "TODO" line = true /\ ~ has_assignee line)
  /\ (forall pre blanks name post,
        line = pre ++ "TODO" ++ blanks ++ "(@" ++ name ++ ")" ++ post ->
        all_of PyStr.is_space blanks = true ->
        all_of PyStr.is_word name = true -> name <> "" ->
        todo_unassigned line = false).
Proof.
  assert (Hiff : todo_unassigned line = true
                 <-> PyStr.contains "TODO" line = true /\ ~ has_assignee line).
  { unfold todo_unassigned.
    rewrite andb_true_iff, negb_true_iff, <- todo_assignee_iff.
    destruct (Re.re_search Re.todo_assignee line);
      intuition (auto; discriminate). }
  split; [exact Hiff |].
  intros pre blanks name post E Hb Hn Hne.
  apply not_true_is_false. intros Ht.
  apply Hiff in Ht. destruct Ht as [_ Hno]. apply Hno.
  now exists pre, blanks, name, post.
Qed.

Lemma todo_unassigned_iff_witness :
  todo_unassigned "// TODO  (@bob_2): tidy up, TODO later" = false.
Proof.
  apply (proj2 (todo_unassigned_iff _) "// " "  " "bob_2"
           ": tidy up, TODO later"); try reflexivity. discriminate.
Defined.

Lemma function_decl_iff (line : string) :
  Re.re_match Re.function_decl line = true <-> function_shaped line.
Proof.
  unfold Re.re_match, Re.function_decl, function_shaped.
  rewrite is_some_unit, star_iff. split.
  - intros (blanks & r & -> & Hb & H). apply lit_iff in H.
    destruct H as (rest & -> & _). now exists blanks, rest.
  - intros (blanks & rest & -> & Hb). exists blanks, ("function" ++ rest).
    split; [reflexivity |]. split; [assumption |].
    apply lit_iff. eexists. split; reflexivity.
Qed.

Lemma const_function_decl_iff (line : string) :
  Re.re_match Re.const_function_decl line = true
  <-> const_function_shaped line.
Proof.
  unfold Re.re_match, Re.const_function_decl, const_function_shaped.
  rewrite is_some_unit, star_iff. split.
  - intros (b0 & r & -> & Hb0 & H).
    apply lit_iff in H. destruct H as (r1 & -> & H).
    apply plus_iff in H. destruct H as (b1 & r2 & -> & Hb1 & Hne1 & H).
    apply plus_iff in H. destruct H as (name & r3 & -> & Hn & Hnen & H).
    apply star_iff in H. destruct H as (b2 & r4 & -> & Hb2 & H).
    apply lit_iff in H. destruct H as (r5 & -> & H).
    apply star_iff in H. destruct H as (b3 & r6 & -> & Hb3 & H).
    apply lit_iff in H. destruct H as (rest & -> & _).
    exists b0, b1, name, b2, b3, rest. repeat split; assumption.
  - intros (b0 & b1 & name & b2 & b3 & rest & -> & Hb0 & Hb1 & Hne1 & Hn
            & Hnen & Hb2 & Hb3).
    eexists b0, _. split; [reflexivity |]. split; [assumption |].
    apply lit_iff. eexists. split; [reflexivity |].
    apply plus_iff. eexists b1, _. split; [reflexivity |].
    split; [assumption |]. split; [assumption |].
    apply plus_iff. eexists name, _. split; [reflexivity |].
    split; [assumption |]. split; [assumption |].
    apply star_iff. eexists b2, _. split; [reflexivity |].
    split; [assumption |].
    apply lit_iff. eexists. split; [reflexivity |].
    apply star_iff. eexists b3, _. split; [reflexivity |].
    split; [assumption |].
    apply lit_iff. eexists. split; reflexivity.
Qed.

(** X6: the documentation check takes a line for a function declaration
    exactly when, after optional blanks, it begins with the text
    "function", or with "const", blanks, a word, "=" between optional
    blanks, and "function"; whatever follows is not looked at, and a line
    with anything else before the keyword (export, async, a dash) is not
    taken. *)
Theorem looks_like_function_iff (line : string) :
  (looks_like_function line = true
   <-> function_shaped line \/ const_function_shaped line)
  /\ (forall c rest, line = String c rest -> PyStr.is_space c = false ->
        PyStr.startswith "function" line = false ->
        PyStr.startswith "const" line = false ->
        looks_like_function line = false).
Proof.
  assert (Hiff : looks_like_function line = true
                 <-> function_shaped line \/ const_function_shaped line).
  { unfold looks_like_function.
    now rewrite orb_true_iff, function_decl_iff, const_function_decl_iff. }
  split; [exact Hiff |].
  intros c rest -> Hc Hf Hk.
  apply not_true_is_false. intros Hl. apply Hiff in Hl.
  assert (Hblank : forall blanks r kw,
             String c rest = blanks ++ kw ++ r ->
             all_of PyStr.is_space blanks = true ->
             PyStr.startswith kw (String c rest) = true).
  { intros blanks r kw E Hb. destruct blanks as [| d blanks].
    - simpl in E. rewrite E. unfold PyStr.startswith.
      now rewrite strip_prefix_append.
    - injection E as -> _. cbn [all_of] in Hb. rewrite Hc in Hb.
      discriminate. }
  destruct Hl as [(b & r & E & Hb) | (b0 & b1 & n & b2 & b3 & r & E & Hb & _)].
  - rewrite (Hblank _ _ _ E Hb) in Hf. discriminate.
  - rewrite (Hblank _ _ _ E Hb) in Hk. discriminate.
Qed.

Lemma looks_like_function_iff_witness :
  looks_like_function "export function run() {" = false.
Proof.
  apply (proj2 (looks_like_function_iff _) "e"%char "xport function run() {");
    reflexivity.
Defined.

(* ------------------------------------------------------------------ *)
(** * The import check *)

Lemma check_imports_appends (w : world) (path : string) (s : state)
    (text : string) :
  open_utf8 w path = Stream text None ->
  check_imports w path s
  = (Return tt,
     add s (import_findings path
              (PyStr.lines (PyStr.translate_newlines text)))).
Proof.
  intros Hopen. unfold check_imports, readlines_file, read_file.
  rewrite Hopen. unfold bind at 1 2. unfold ret at 1 2.
  unfold import_findings. apply for_each_appends. intros [n line] s'.
  apply when_when_appends.
Qed.

Lemma lstrip_blanks (blanks x : string) :
  all_of PyStr.is_space blanks = true ->
  PyStr.lstrip (blanks ++ x) = PyStr.lstrip x.
Proof.
  induction blanks as [| c b IH]; [reflexivity |].
  cbn [all_of String.append PyStr.lstrip]. intros H.
  apply andb_true_iff in H. destruct H as [Hc Hb]. rewrite Hc. now apply IH.
Qed.

Lemma lstrip_split (line : string) :
  exists blanks,
    line = blanks ++ PyStr.lstrip line /\ all_of PyStr.is_space blanks = true.
Proof.
  induction line as [| c line (blanks & E & Hb)]; [now exists "" |].
  cbn [PyStr.lstrip]. destruct (PyStr.is_space c) eqn:Hc.
  - exists (String c blanks). cbn [String.append all_of].
    rewrite Hc, Hb. now rewrite <- E.
  - now exists "".
Qed.

Lemma rstrip_is_prefix (x : string) : exists ws, x = PyStr.rstrip x ++ ws.
Proof.
  induction x as [| c x (ws & E)]; [now exists "" |].
  cbn [PyStr.rstrip]. destruct (PyStr.rstrip x) as [| d r].
  - destruct (PyStr.is_space c).
    + now exists (String c x).
    + exists x. reflexivity.
  - exists ws. cbn [String.append] in E |- *. now rewrite <- E.
Qed.

(** Stripping on the right keeps a prefix that ends in no whitespace. *)
Lemma rstrip_keeps_prefix (p : string) (e : ascii) (r : string) :
  PyStr.is_space e = false ->
  exists r', PyStr.rstrip (p ++ String e r) = p ++ String e r'.
Proof.
  intros He. induction p as [| c p (r' & E)].
  - cbn [String.append PyStr.rstrip]. destruct (PyStr.rstrip r) as [| d t].
    + rewrite He. now exists "".
    + now exists (String d t).
  - cbn [String.append PyStr.rstrip]. rewrite E.
    destruct p; cbn [String.append]; now exists r'.
Qed.

Lemma import_shaped_iff (line : string) :
  PyStr.startswith "import" (PyStr.strip line) = true <-> import_shaped line.
Proof.
  unfold import_shaped, PyStr.strip, PyStr.startswith. split.
  - destruct (PyStr.strip_prefix "import" (PyStr.rstrip (PyStr.lstrip line)))
      as [r |] eqn:E; [| discriminate].
    intros _. apply strip_prefix_app in E.
    destruct (rstrip_is_prefix (PyStr.lstrip line)) as [ws Hws].
    destruct (lstrip_split line) as (blanks & Hline & Hb).
    exists blanks, (r ++ ws). split; [| assumption].
    rewrite Hline at 1. rewrite Hws, E. now rewrite !append_assoc.
  - intros (blanks & rest & -> & Hb).
    rewrite (lstrip_blanks blanks _ Hb).
    change (PyStr.lstrip ("import" ++ rest)) with ("import" ++ rest).
    destruct (rstrip_keeps_prefix "impor" "t"%char rest eq_refl) as [r' E].
    change ("impor" ++ String "t" rest) with ("import" ++ rest) in E.
    rewrite E. reflexivity.
Qed.

(** X7: on a file that reads to its end, the import check records a
    violation at line [n] exactly when line [n] begins, after optional
    blanks, with the text "import" and contains ".." anywhere; it records
    nothing else. *)
Theorem import_finding_iff (w : world) (path : string) (s : state)
    (text : string) :
  open_utf8 w path = Stream text None ->
  let content := PyStr.lines (PyStr.translate_newlines text) in
  let d := import_findings path content in
  check_imports w path s = (Return tt, add s d)
  /\ (forall v, In v d -> exists n, v = import_finding path n)
  /\ (forall n,
        In (import_finding path n) d
        <-> exists line,
              (1 <= n)%nat /\ nth_error content (n - 1) = Some line
              /\ import_shaped line /\ PyStr.contains ".." line = true).
Proof.
  intros Hopen content d.
  assert (Hin : forall v, In v d <->
            exists n line, (1 <= n)%nat /\ nth_error content (n - 1) = Some line
              /\ import_shaped line /\ PyStr.contains ".." line = true
              /\ v = import_finding path n).
  { intros v. unfold d, import_findings. rewrite in_flat_map. split.
    - intros ([n line] & Hnl & Hv). apply in_enumerate in Hnl.
      destruct Hnl as [Hle Hnth].
      destruct (PyStr.startswith "import" (PyStr.strip line)) eqn:E1;
        [| destruct Hv].
      destruct (PyStr.contains ".." line) eqn:E2; [| destruct Hv].
      destruct Hv as [<- | []]. exists n, line.
      apply import_shaped_iff in E1. auto.
    - intros (n & line & Hle & Hnth & Hshape & Hdots & ->).
      exists (n, line). split; [now apply in_enumerate |].
      apply import_shaped_iff in Hshape. rewrite Hshape, Hdots. now left. }
  split; [now apply check_imports_appends |]. split.
  - intros v Hv. apply Hin in Hv.
    destruct Hv as (n & _ & _ & _ & _ & _ & ->). now exists n.
  - intros n. rewrite Hin. split.
    + intros (m & line & Hle & Hnth & Hshape & Hdots & Heq).
      assert (m = n) as ->.
      { apply (f_equal line_number) in Heq. simpl in Heq. lia. }
      now exists line.
    + intros (line & Hle & Hnth & Hshape & Hdots). now exists n, line.
Qed.

Lemma import_finding_iff_witness :
  In (import_finding "a.ts" 2)
     (import_findings "a.ts"
        (PyStr.lines (PyStr.translate_newlines import_text))).
Proof.
  pose proof (import_finding_iff import_world "a.ts" (mk_state "." [] [])
                import_text eq_refl) as H.
  cbv zeta in H. destruct H as (_ & _ & H). apply H.
  exists ("  import b from '../b';" ++ nl).
  split; [lia |]. split; [reflexivity |]. split; [| reflexivity].
  exists "  ", (" b from '../b';" ++ nl). split; reflexivity.
Defined.

(* ------------------------------------------------------------------ *)
(** * What the naming convention check reports *)

Lemma flat_map_if_true (X Y : Type) (g : X -> Y) (xs : list X) :
  flat_map (fun x => [g x]) xs = map g xs.
Proof.
  induction xs as [| x xs IH]; simpl; [reflexivity | now rewrite IH].
Qed.

Lemma check_naming_conventions_appends (w : world) (path : string)
    (s : state) (text : string) :
  open_utf8 w path = Stream text None ->
  check_naming_conventions w path s
  = (Return tt,
     add s (naming_findings path (PyStr.translate_newlines text))).
Proof.
  intros Hopen. unfold check_naming_conventions, read_file. rewrite Hopen.
  unfold bind at 1. unfold ret at 1. unfold bind, naming_findings.
  set (content := PyStr.translate_newlines text).
  rewrite (for_each_appends (fun m => [class_finding path content m])).
  2: { intros m s'. reflexivity. }
  rewrite (for_each_appends (fun m => [interface_finding path content m])).
  2: { intros m s'. reflexivity. }
  now rewrite add_add, !flat_map_if_true.
Qed.

Lemma star_sound_any (A : Type) (f : ascii -> bool) (k : Re.cont A)
    (s : string) (pos : nat) (x : A) :
  Re.star f k pos s = Some x ->
  exists a b,
    s = a ++ b /\ all_of f a = true
    /\ k (pos + String.length a)%nat b = Some x.
Proof.
  revert pos. induction s as [| c s IH]; intros pos H.
  - exists "", "". simpl in H |- *. now rewrite Nat.add_0_r.
  - cbn [Re.star] in H. destruct (f c) eqn:Hc.
    + destruct (Re.star f k (S pos) s) as [y |] eqn:Hs.
      * injection H as ->.
        destruct (IH (S pos) Hs) as (a & b & -> & Ha & Hk).
        exists (String c a), b. simpl. rewrite Hc, Ha.
        rewrite Nat.add_succ_r. auto.
      * exists "", (String c s). simpl. now rewrite Nat.add_0_r.
    + exists "", (String c s). simpl. now rewrite Nat.add_0_r.
Qed.

Lemma plus_sound_any (A : Type) (f : ascii -> bool) (k : Re.cont A)
    (s : string) (pos : nat) (x : A) :
  Re.plus f k pos s = Some x ->
  exists a b,
    s = a ++ b /\ all_of f a = true /\ a <> ""
    /\ k (pos + String.length a)%nat b = Some x.
Proof.
  unfold Re.plus, Re.cls. destruct s as [| c s]; [discriminate |].
  destruct (f c) eqn:Hc; [| discriminate].
  intros H. apply star_sound_any in H. destruct H as (a & b & -> & Ha & Hk).
  exists (String c a), b. cbn [all_of String.length]. rewrite Hc, Ha.
  rewrite Nat.add_succ_r. repeat split; auto. discriminate.
Qed.

(** Where one of the two patterns matches, the keyword, blanks and a word
    stand, and the spans of the match are theirs. *)
Lemma keyword_name_sound (keyword : string)
    (la : Re.cont unit -> Re.cont unit) (pos : nat) (s : string)
    (m : Re.span1) :
  Re.keyword_name keyword la pos s = Some m ->
  exists blanks name rest,
    s = keyword ++ blanks ++ name ++ rest
    /\ all_of PyStr.is_space blanks = true /\ blanks <> ""
    /\ all_of PyStr.is_word name = true /\ name <> ""
    /\ Re.m_start m = pos
    /\ Re.g1_start m
       = (pos + String.length keyword + String.length blanks)%nat
    /\ Re.g1_end m = (Re.g1_start m + String.length name)%nat.
Proof.
  unfold Re.keyword_name, Re.lit.
  destruct (PyStr.strip_prefix keyword s) as [r |] eqn:E; [| discriminate].
  apply strip_prefix_app in E. subst s. intros H.
  apply plus_sound_any in H. destruct H as (blanks & r2 & -> & Hb & Hbn & H).
  unfold Re.neg_lookahead in H.
  destruct (la (fun _ _ => Some tt) _ r2); [discriminate |].
  apply plus_sound_any in H. destruct H as (name & rest & -> & Hn & Hnn & H).
  injection H as <-. exists blanks, name, rest. cbn.
  repeat split; auto.
Qed.

Lemma finditer_from_sound (p : nat -> string -> option Re.span1)
    (s : string) (skip pos : nat) (m : Re.span1) :
  In m (Re.finditer_from p skip pos s) ->
  exists i, (i <= String.length s)%nat
            /\ p (pos + i)%nat (PyStr.drop i s) = Some m.
Proof.
  revert skip pos. induction s as [| c s IH]; intros skip pos.
  - destruct skip as [| skip]; cbn [Re.finditer_from]; [| intros []].
    destruct (p pos "") as [m0 |] eqn:E; [| intros []].
    intros [<- | []]. exists 0%nat. rewrite Nat.add_0_r. auto.
  - assert (Hlater : forall skip',
               In m (Re.finditer_from p skip' (S pos) s) ->
               exists i, (i <= String.length (String c s))%nat
                         /\ p (pos + i)%nat (PyStr.drop i (String c s))
                            = Some m).
    { intros skip' H. destruct (IH _ _ H) as (i & Hi & Hp).
      exists (S i). cbn [String.length PyStr.drop].
      rewrite Nat.add_succ_r. split; [lia | exact Hp]. }
    destruct skip as [| skip]; cbn [Re.finditer_from]; [| apply Hlater].
    destruct (p pos (String c s)) as [m0 |] eqn:E; [| apply Hlater].
    intros [<- | H]; [| now apply Hlater in H].
    exists 0%nat. rewrite Nat.add_0_r. split; [lia | exact E].
Qed.

Lemma drop_length_append (a b : string) :
  PyStr.drop (String.length a) (a ++ b) = b.
Proof. induction a as [| c a IH]; [now destruct b | exact IH]. Qed.

Lemma take_length_append (a b : string) :
  PyStr.take (String.length a) (a ++ b) = a.
Proof.
  induction a as [| c a IH]; [now destruct b |].
  cbn [String.length String.append PyStr.take]. now rewrite IH.
Qed.

Lemma drop_drop (i j : nat) (s : string) :
  PyStr.drop (i + j) s = PyStr.drop j (PyStr.drop i s).
Proof.
  revert s. induction i as [| i IH]; intros s; [reflexivity |].
  destruct s as [| c s]; [now destruct j | apply IH].
Qed.

Lemma count_newlines_take (i : nat) (s : string) :
  (PyStr.count_newlines (PyStr.take i s) <= PyStr.count_newlines s)%nat.
Proof.
  revert i. induction s as [| c s IH]; intros [| i]; simpl; try lia.
  specialize (IH i). lia.
Qed.

(** A finding of a pattern stands for a declaration in the text. *)
Lemma finding_declares (keyword : string)
    (la : Re.cont unit -> Re.cont unit) (content : string) (m : Re.span1) :
  In m (Re.finditer (Re.keyword_name keyword la) content) ->
  declares_at content keyword (Re.m_start m) (Re.group1 content m).
Proof.
  intros H. apply finditer_from_sound in H. destruct H as (i & Hi & Hp).
  apply keyword_name_sound in Hp.
  destruct Hp as (blanks & name & rest & E & Hb & Hbn & Hn & Hnn & Hs & Hg0
                  & Hg1).
  cbn [Nat.add] in Hs, Hg0. exists blanks, rest. rewrite Hs.
  assert (Hgroup : Re.group1 content m = name).
  { unfold Re.group1. rewrite Hg1, Hg0.
    replace (i + String.length keyword + String.length blanks
             + String.length name
             - (i + String.length keyword + String.length blanks))%nat
      with (String.length name) by lia.
    rewrite 2!drop_drop, E, drop_length_append, drop_length_append.
    apply take_length_append. }
  rewrite Hgroup. repeat split; assumption.
Qed.

Lemma contains_append (sub a b : string) :
  PyStr.contains sub (a ++ sub ++ b) = true.
Proof.
  induction a as [| c a IH].
  - cbn [String.append]. destruct (sub ++ b) eqn:E;
      cbn [PyStr.contains]; unfold PyStr.startswith;
      rewrite <- E, strip_prefix_append; reflexivity.
  - cbn [String.append PyStr.contains]. rewrite IH. apply orb_true_r.
Qed.

Lemma drop_split (i : nat) (s : string) :
  (i <= String.length s)%nat -> s = PyStr.take i s ++ PyStr.drop i s.
Proof.
  revert s. induction i as [| i IH]; intros s Hi; [now destruct s |].
  destruct s as [| c s]; [simpl in Hi; lia |].
  cbn [PyStr.take PyStr.drop String.append]. f_equal. apply IH.
  simpl in Hi. lia.
Qed.

Lemma declares_contains (content keyword : string) (i : nat)
    (name : string) :
  declares_at content keyword i name ->
  PyStr.contains keyword content = true.
Proof.
  intros (blanks & rest & E & Hi & _).
  rewrite (drop_split i content Hi), E. apply contains_append.
Qed.

(** X8: on a file that reads to its end, every finding of the naming
    convention check stands for an occurrence, at some offset of the text,
    of "class" or "interface", then blanks, then a non-empty word, which is
    the name reported, whatever its spelling; the line reported is one more
    than the newlines before that offset, so between 1 and one more than
    the newlines of the text; and a text that contains neither keyword
    gets no finding. *)
Theorem naming_findings_are_declarations (w : world) (path : string)
    (s : state) (text : string) :
  open_utf8 w path = Stream text None ->
  let content := PyStr.translate_newlines text in
  let d := naming_findings path content in
  check_naming_conventions w path s = (Return tt, add s d)
  /\ (forall v, In v d ->
        exists keyword label i name,
          ((keyword = "class"
            /\ label = "Class name should be PascalCase: ")
           \/ (keyword = "interface"
               /\ label
                  = "Interface name should be PascalCase with I prefix: "))
          /\ declares_at content keyword i name
          /\ v = {| file_path := path;
                    line_number :=
                      Z.of_nat (PyStr.count_newlines (PyStr.take i content)
                                + 1);
                    rule := "naming_convention";
                    message := label ++ name |}
          /\ (1 <= line_number v
              <= Z.of_nat (PyStr.count_newlines content) + 1)%Z)
  /\ (PyStr.contains "class" content = false ->
      PyStr.contains "interface" content = false -> d = []).
Proof.
  intros Hopen content d.
  split; [now apply check_naming_conventions_appends |].
  assert (Hline : forall i,
             (1 <= Z.of_nat (PyStr.count_newlines (PyStr.take i content) + 1)
              <= Z.of_nat (PyStr.count_newlines content) + 1)%Z).
  { intros i. pose proof (count_newlines_take i content). lia. }
  split.
  - intros v Hv. unfold d, naming_findings in Hv. apply in_app_iff in Hv.
    destruct Hv as [Hv | Hv]; apply in_map_iff in Hv;
      destruct Hv as (m & <- & Hm); apply finding_declares in Hm.
    + exists "class", "Class name should be PascalCase: ",
        (Re.m_start m), (Re.group1 content m).
      split; [now left |]. split; [assumption |]. split; [reflexivity |].
      apply Hline.
    + exists "interface",
        "Interface name should be PascalCase with I prefix: ",
        (Re.m_start m), (Re.group1 content m).
      split; [now right |]. split; [assumption |]. split; [reflexivity |].
      apply Hline.
  - intros Hc Hi. unfold d, naming_findings.
    assert (Hnone : forall keyword la,
               PyStr.contains keyword content = false ->
               Re.finditer (Re.keyword_name keyword la) content = []).
    { intros keyword la Hk.
      destruct (Re.finditer (Re.keyword_name keyword la) content)
        as [| m ms] eqn:E; [reflexivity |].
      assert (Hm : In m (Re.finditer (Re.keyword_name keyword la) content))
        by (rewrite E; now left).
      apply finding_declares, declares_contains in Hm. congruence. }
    unfold Re.class_pattern, Re.interface_pattern.
    now rewrite (Hnone _ _ Hc), (Hnone _ _ Hi).
Qed.

Lemma naming_findings_are_declarations_witness :
  naming_findings "a.ts" (PyStr.translate_newlines sample_text) = [].
Proof.
  pose proof (naming_findings_are_declarations sample_world "a.ts"
                (mk_state "." [] []) sample_text eq_refl) as H.
  cbv zeta in H. destruct H as (_ & _ & H). apply H; reflexivity.
Defined.

(* ------------------------------------------------------------------ *)
(** * What the external linter contributes *)

Lemma dict_get_subscript (key : string) (j v : json) :
  dict_get key j = Some v -> subscript j key = Return v.
Proof.
  unfold dict_get, subscript. destruct j; try discriminate.
  destruct (find _ items) as [kv |]; [| discriminate].
  now intros [= <-].
Qed.

Lemma message_fields_reads (file_result : json) (path : string) (msg : json)
    (m : Z * string) (s : state) :
  subscript file_result "filePath" = Return (JStr path) ->
  message_fields msg = Some m ->
  (path0 <- lift (subscript file_result "filePath") ;;
   line <- lift (get_default msg "line" (JInt 0)) ;;
   text <- lift (subscript msg "message") ;;
   path1 <- as_str path0 ;;
   line <- as_int line ;;
   text <- as_str text ;;
   append_violation
     {| file_path := path1;
        line_number := line;
        rule := "eslint";
        message := text |}) s
  = (Return tt, add s [eslint_finding path m]).
Proof.
  intros Hpath Hm. unfold message_fields in Hm.
  destruct (dict_get "message" msg) as [[| | | | text | |] |] eqn:Ht;
    try discriminate.
  apply dict_get_subscript in Ht.
  unfold bind, lift. rewrite Hpath, Ht.
  destruct msg as [| | | | | | items]; try discriminate.
  unfold dict_get in Hm. unfold get_default.
  destruct (find (fun kv => (fst kv =? "line")%string) items) as [kv |];
    cbn [option_map] in Hm.
  - destruct (snd kv); try discriminate. injection Hm as <-. reflexivity.
  - injection Hm as <-. reflexivity.
Qed.

Lemma messages_read (file_result : json) (path : string) (msgs : list json)
    (ms : list (Z * string)) (s : state) :
  subscript file_result "filePath" = Return (JStr path) ->
  all_some message_fields msgs = Some ms ->
  for_each msgs (fun msg =>
    path0 <- lift (subscript file_result "filePath") ;;
    line <- lift (get_default msg "line" (JInt 0)) ;;
    text <- lift (subscript msg "message") ;;
    path1 <- as_str path0 ;;
    line <- as_int line ;;
    text <- as_str text ;;
    append_violation
      {| file_path := path1;
         line_number := line;
         rule := "eslint";
         message := text |}) s
  = (Return tt, add s (map (eslint_finding path) ms)).
Proof.
  intros Hpath. revert ms s. induction msgs as [| msg msgs IH]; intros ms s.
  - intros [= <-]. cbn. unfold ret. now rewrite add_nil.
  - cbn [all_some]. destruct (message_fields msg) as [m |] eqn:Hm;
      [| discriminate].
    destruct (all_some message_fields msgs) as [ms' |]; [| discriminate].
    intros [= <-]. cbn [for_each]. unfold bind at 1.
    rewrite (message_fields_reads file_result path msg m s Hpath Hm).
    rewrite (IH ms' _ eq_refl), add_add. reflexivity.
Qed.

Lemma eslint_violations_reads (files : list json)
    (fs : list (string * list (Z * string))) (s : state) :
  all_some file_fields files = Some fs ->
  eslint_violations (JList files) s = (Return tt, add s (eslint_findings fs)).
Proof.
  unfold eslint_violations. unfold bind at 1. unfold lift at 1.
  cbn [iterate]. revert fs s.
  induction files as [| file files IH]; intros fs s.
  - intros [= <-]. cbn. unfold ret. now rewrite add_nil.
  - cbn [all_some]. destruct (file_fields file) as [[path ms] |] eqn:Hf;
      [| discriminate].
    destruct (all_some file_fields files) as [fs' |]; [| discriminate].
    intros [= <-]. cbn [for_each]. unfold bind at 1.
    unfold file_fields in Hf.
    destruct (dict_get "filePath" file) as [[| | | | p | |] |] eqn:Hp;
      try discriminate.
    destruct (dict_get "messages" file) as [[| | | | | msgs |] |] eqn:Hms;
      try discriminate.
    destruct (all_some message_fields msgs) as [ms0 |] eqn:Hall;
      [| discriminate].
    injection Hf as -> ->.
    apply dict_get_subscript in Hp, Hms.
    unfold bind at 1. unfold lift at 1. rewrite Hms.
    unfold bind at 1. unfold lift at 1. cbn [iterate].
    rewrite (messages_read file path msgs ms s Hp Hall).
    rewrite (IH fs' _ eq_refl), add_add. reflexivity.
Qed.

(** X9: when the linter exits with status 0 its output is not read and
    nothing changes; when it exits with another status and its output is a
    list of file objects, each with a string "filePath" and a list
    "messages" of objects with a string "message" and at most an integer
    "line", the check appends one [eslint] violation per message, file by
    file in the order of the output, with line 0 where "line" is absent. *)
Theorem run_eslint_check_reads_output (w : world) (s : state)
    (returncode : Z) (stdout : string) :
  run_npx_eslint w (project_path (self s)) = Completed returncode stdout ->
  (returncode = 0%Z -> run_eslint_check w s = (Return tt, s))
  /\ (forall results files,
        returncode <> 0%Z ->
        json_loads w stdout = inl results ->
        results_fields results = Some files ->
        run_eslint_check w s = (Return tt, add s (eslint_findings files))).
Proof.
  intros Hrun. split.
  - intros ->. unfold run_eslint_check, try_except, bind, get_project_path.
    rewrite Hrun. reflexivity.
  - intros results files Hrc Hjson Hfields.
    unfold run_eslint_check, try_except, bind, get_project_path.
    rewrite Hrun. apply Z.eqb_neq in Hrc. rewrite Hrc. cbn [negb when].
    rewrite Hjson. destruct results; try discriminate.
    cbn [results_fields] in Hfields.
    now rewrite (eslint_violations_reads items files s Hfields).
Qed.

Lemma run_eslint_check_reads_output_witness :
  run_eslint_check eslint_world (mk_state "/p" [] [])
  = (Return tt,
     mk_state "/p"
       [ {| file_path := "/p/src/a.ts"; line_number := 3; rule := "eslint";
            message := "Missing semicolon." |};
         {| file_path := "/p/src/a.ts"; line_number := 0; rule := "eslint";
            message := "Parsing error" |} ] []).
Proof.
  apply (proj2 (run_eslint_check_reads_output eslint_world
                  (mk_state "/p" [] []) 1 "[...]" eq_refl)
           eslint_output
           [ ("/p/src/a.ts", [(3%Z, "Missing semicolon.");
                              (0%Z, "Parsing error")]);
             ("/p/src/b.ts", []) ]);
    [discriminate | reflexivity | reflexivity].
Defined.

Lemma eslint_violations_not_a_list (results : json) (s : state) :
  not_a_list results = true ->
  exists msg,
    eslint_violations results s
    = (Raise {| exn_cls := TypeError; exn_str := msg |}, s).
Proof.
  unfold eslint_violations, bind at 1, lift at 1.
  destruct results as [| b | n | r | str | items | items]; cbn [iterate];
    try discriminate; try (intros _; eexists; reflexivity).
  - destruct str as [| c str]; [discriminate |]. intros _.
    cbn. eexists; reflexivity.
  - destruct items as [| kv items]; [discriminate |]. intros _.
    cbn. eexists; reflexivity.
Qed.

(** X10: output that parses to something other than a list (null, a
    number, a boolean, a non-empty object such as an error report, a
    non-empty string) is not handled: with a non-zero exit status the
    check raises a TypeError, which neither handler catches, logs nothing
    and appends nothing. *)
Theorem run_eslint_check_not_a_list (w : world) (s : state)
    (returncode : Z) (stdout : string) (results : json) :
  run_npx_eslint w (project_path (self s)) = Completed returncode stdout ->
  returncode <> 0%Z ->
  json_loads w stdout = inl results ->
  not_a_list results = true ->
  exists msg,
    run_eslint_check w s
    = (Raise {| exn_cls := TypeError; exn_str := msg |}, s).
Proof.
  intros Hrun Hrc Hjson Hshape.
  destruct (eslint_violations_not_a_list results s Hshape) as [msg Hmsg].
  exists msg. unfold run_eslint_check, try_except, bind, get_project_path.
  rewrite Hrun. apply Z.eqb_neq in Hrc. rewrite Hrc. cbn [negb when].
  rewrite Hjson, Hmsg. reflexivity.
Qed.

Lemma run_eslint_check_not_a_list_witness :
  exists msg,
    run_eslint_check eslint_error_world (mk_state "/p" [] [])
    = (Raise {| exn_cls := TypeError; exn_str := msg |}, mk_state "/p" [] []).
Proof.
  apply (run_eslint_check_not_a_list eslint_error_world (mk_state "/p" [] [])
           2 "{...}"
           (JDict [("error", JStr "No ESLint configuration found")]));
    [reflexivity | discriminate | reflexivity | reflexivity].
Defined.

Lemma run_eslint_check_parse_error_witness :
  run_eslint_check eslint_garbage_world (mk_state "/p" [] [])
  = (Return tt,
     mk_state "/p" []
       [ {| level := ERROR;
            text_of := "Error parsing ESLint output: "
                       ++ "Expecting value: line 1 column 1 (char 0)" |} ]).
Proof.
  apply (@run_eslint_check_parse_error eslint_garbage_world
           (mk_state "/p" [] []) 2 "Oops"
           "Expecting value: line 1 column 1 (char 0)");
    [reflexivity | discriminate | reflexivity].
Defined.

(* ------------------------------------------------------------------ *)
(** * What holds of every violation of a run *)

Ltac from_file_or_linter_tac :=
  unfold from_file_or_linter, scoped; cbn;
  split;
  [ first [ left; split; [reflexivity | auto]
          | right; left; split; [lia | auto 6]
          | right; right; reflexivity ]
  | split; [discriminate | first [left; reflexivity | right; assumption]] ].

Ltac linter_step :=
  match goal with
  | |- appender _ (bind get_project_path _) =>
      apply appender_get_project_path; intros ?
  | |- appender _ (bind _ _) => apply appender_bind; [| intros ?]
  | |- appender _ (ret _) => apply appender_ret
  | |- appender _ (raise _) => apply appender_raise
  | |- appender _ untyped => apply appender_untyped
  | |- appender _ (lift _) => apply appender_lift
  | |- appender _ (logger _ _) => apply appender_logger
  | |- appender _ (when _ _) => apply appender_when; intros ?
  | |- appender _ (for_each (enumerate 1 _) _) =>
      let n := fresh "n" in
      let line := fresh "line" in
      let H := fresh "H" in
      apply appender_for_each; intros [n line] H;
      apply in_enumerate in H; destruct H as [H _]
  | |- appender _ (for_each _ _) => apply appender_for_each; intros ? ?
  | |- appender _ (append_violation _) =>
      apply appender_append; from_file_or_linter_tac
  | |- appender _ (match ?x with _ => _ end) => destruct x
  end.

Section PerFile.
Variable w : world.
Variable path : string.
Hypothesis path_not_empty : path <> "".

Lemma check_file_naming_from_file :
  appender from_file_or_linter (check_file_naming path).
Proof. unfold check_file_naming. repeat linter_step. Qed.

Lemma read_file_from_file : appender from_file_or_linter (read_file w path).
Proof.
  unfold read_file. destruct (open_utf8 w path) as [e | text [e |]];
    linter_step.
Qed.

Lemma check_line_length_from_file (max_length : Z) :
  appender from_file_or_linter (check_line_length w path max_length).
Proof.
  unfold check_line_length, for_lines_of_file, line_length_violation.
  repeat linter_step.
Qed.

Lemma check_naming_conventions_from_file :
  appender from_file_or_linter (check_naming_conventions w path).
Proof.
  unfold check_naming_conventions, line_of_match. apply appender_bind.
  - apply read_file_from_file.
  - intros content. repeat linter_step.
Qed.

Lemma check_imports_from_file :
  appender from_file_or_linter (check_imports w path).
Proof.
  unfold check_imports, readlines_file. apply appender_bind.
  - apply appender_bind; [apply read_file_from_file |].
    intros c. linter_step.
  - intros content. repeat linter_step.
Qed.

Lemma check_comments_documentation_from_file :
  appender from_file_or_linter (check_comments_documentation w path).
Proof.
  unfold check_comments_documentation, readlines_file. apply appender_bind.
  - apply appender_bind; [apply read_file_from_file |].
    intros c. linter_step.
  - intros content. unfold todo_violation, jsdoc_violation.
    repeat linter_step.
Qed.

Lemma check_file_from_file : appender from_file_or_linter (check_file w path).
Proof.
  unfold check_file.
  apply appender_bind; [apply appender_logger | intros _].
  apply appender_bind; [apply check_file_naming_from_file | intros _].
  apply appender_bind; [apply check_line_length_from_file | intros _].
  apply appender_bind; [apply check_naming_conventions_from_file | intros _].
  apply appender_bind; [apply check_imports_from_file | intros _].
  apply check_comments_documentation_from_file.
Qed.

End PerFile.

Lemma typescript_path_not_empty (root file : string) :
  is_typescript file = true -> OsPath.join root file <> "".
Proof.
  intros Hts E.
  assert (Hend : exists y suffix, file = y ++ suffix /\ suffix <> "").
  { unfold is_typescript, PyStr.endswith_any in Hts. cbn [existsb] in Hts.
    rewrite orb_false_r in Hts. apply orb_true_iff in Hts.
    destruct Hts as [H | H]; apply endswith_split in H; destruct H as [y ->];
      eexists y, _; (split; [reflexivity | discriminate]). }
  destruct Hend as (y & suffix & -> & Hs).
  destruct (join_ends_with root (y ++ suffix)) as [x Hx].
  rewrite Hx in E. apply (f_equal String.length) in E.
  rewrite !length_append in E. destruct suffix; [contradiction |].
  simpl in E. lia.
Qed.

Lemma check_files_from_file (w : world) :
  appender from_file_or_linter (check_files w).
Proof.
  unfold check_files. apply appender_get_project_path. intros top.
  apply appender_for_each. intros [[root dirs] files] _.
  apply appender_for_each. intros file _.
  apply appender_when. intros Hts. apply check_file_from_file.
  now apply typescript_path_not_empty.
Qed.

Lemma eslint_violations_from_linter (results : json) :
  appender from_file_or_linter (eslint_violations results).
Proof.
  unfold eslint_violations, as_str, as_int. repeat linter_step.
Qed.

Lemma run_eslint_check_from_linter (w : world) :
  appender from_file_or_linter (run_eslint_check w).
Proof.
  unfold run_eslint_check. apply appender_try_except.
  - apply appender_get_project_path. intros root.
    destruct (run_npx_eslint w root) as [e | returncode stdout].
    + apply appender_raise.
    + apply appender_when. intros _.
      destruct (json_loads w stdout) as [results | msg].
      * apply eslint_violations_from_linter.
      * apply appender_raise.
  - intros c h e Hin. simpl in Hin.
    destruct Hin as [[= <- <-] | [[= <- <-] | []]]; apply appender_logger.
Qed.

(** A run appends the findings of the project structure check first,
    then those of the per-file checks and of the linter. *)
Lemma check_all_decomposes (w : world) (root : string) :
  exists (o : outcome unit) (d : list ConventionViolation)
         (lg : list log_record),
    Forall from_file_or_linter d /\
    forall vs l0,
      check_all w (mk_state root vs l0)
      = (match o with
         | Return _ => Return (vs ++ structure_findings w root ++ d)%list
         | Raise e => Raise e
         | Untyped => Untyped
         end,
         mk_state root (vs ++ structure_findings w root ++ d)
           (l0 ++ lg)%list).
Proof.
  assert (Hrest : appender from_file_or_linter
                    (check_files w ;; run_eslint_check w ;;
                     logger INFO "Convention checks completed.")).
  { apply appender_bind; [apply check_files_from_file | intros _].
    apply appender_bind; [apply run_eslint_check_from_linter | intros _].
    apply appender_logger. }
  destruct (Hrest root) as (o & d & lg & Hd & Hrun).
  exists o, d,
    ({| level := INFO; text_of := "Starting convention checks..." |} :: lg).
  split; [assumption |]. intros vs l0.
  unfold check_all, check_all_steps. unfold bind at 1 2. unfold logger at 1.
  unfold bind at 1. rewrite check_project_structure_appends.
  unfold add, mk_state. cbn [self project_path violations log].
  change {| self := {| project_path := root;
                       violations := (vs ++ structure_findings w root)%list |};
            log := (l0 ++ [{| level := INFO;
                              text_of := "Starting convention checks..." |}])%list |}
    with (mk_state root (vs ++ structure_findings w root)
            (l0 ++ [{| level := INFO;
                       text_of := "Starting convention checks..." |}])).
  rewrite Hrun. rewrite <- !app_assoc. cbn [app].
  destruct o as [[] | e |]; reflexivity.
Qed.

Lemma structure_findings_scoped (w : world) (root : string) :
  Forall (fun v => scoped v /\ file_path v = root) (structure_findings w root).
Proof.
  unfold structure_findings. apply Forall_app; split;
    apply Forall_forall; intros v Hv; apply in_map_iff in Hv;
    destruct Hv as (name & <- & _); (split; [| reflexivity]);
    left; split; [reflexivity | now left | reflexivity | now left].
Qed.

(** X11: every violation a run appends, however the run ends, is within
    the closed set of rules and numbered by its scope: line 0 for
    [project_structure] and [file_naming], a line from 1 on for
    [line_length], [naming_convention], [imports] and [documentation];
    only the linter's violations carry a line of the linter's choosing.
    The findings of the project structure check come first. *)
Theorem check_all_findings_are_scoped (w : world) (s : state) :
  exists d,
    violations (self (snd (check_all w s)))
    = (violations (self s)
       ++ structure_findings w (project_path (self s)) ++ d)%list
    /\ Forall scoped (structure_findings w (project_path (self s)) ++ d)
    /\ Forall (fun v => rule v <> "project_structure") d.
Proof.
  destruct s as [[root vs] l0]. cbn [self project_path violations].
  destruct (check_all_decomposes w root) as (o & d & lg & Hd & Hrun).
  exists d. change {| self := {| project_path := root; violations := vs |};
                      log := l0 |} with (mk_state root vs l0).
  rewrite Hrun. cbn [snd self violations mk_state]. split; [reflexivity |].
  split.
  - apply Forall_app. split.
    + eapply Forall_impl; [| apply structure_findings_scoped]. now intros v [].
    + eapply Forall_impl; [| exact Hd]. now intros v [].
  - eapply Forall_impl; [| exact Hd]. now intros v (_ & H & _).
Qed.




(* ------------------------------------------------------------------ *)
(** * The list only grows *)

Lemma appender_only_appends (P : ConventionViolation -> Prop) (A : Type)
    (m : M A) :
  appender P m -> only_appends m.
Proof.
  intros Hm [[root vs] l0]. destruct (Hm root) as (o & d & lg & _ & Hrun).
  exists d, lg.
  change {| self := {| project_path := root; violations := vs |};
            log := l0 |} with (mk_state root vs l0).
  rewrite Hrun. repeat split.
Qed.

(** X13: no method of the checker ever removes, reorders or changes a
    violation already recorded, rewrites the log or changes the project
    path: each leaves the project path as it is and only appends to the
    violations and to the log, also when it raises. *)
Theorem methods_only_append (w : world) (path : string) (max_length : Z) :
  only_appends (check_project_structure w)
  /\ only_appends (check_file_naming path)
  /\ only_appends (check_line_length w path max_length)
  /\ only_appends (check_naming_conventions w path)
  /\ only_appends (check_imports w path)
  /\ only_appends (check_comments_documentation w path)
  /\ only_appends (run_eslint_check w)
  /\ only_appends (check_all w).
Proof.
  repeat split.
  - apply (appender_only_appends extension_accepted),
      check_project_structure_appender.
  - intros s. exists (file_naming_findings path), [].
    rewrite check_file_naming_appends. cbn. now rewrite app_nil_r.
  - apply (appender_only_appends extension_accepted),
      check_line_length_appender.
  - apply (appender_only_appends extension_accepted),
      check_naming_conventions_appender.
  - apply (appender_only_appends extension_accepted),
      check_imports_appender.
  - apply (appender_only_appends extension_accepted),
      check_comments_documentation_appender.
  - apply (appender_only_appends extension_accepted),
      run_eslint_check_appender.
  - intros [[root vs] l0].
    destruct (check_all_runs w root) as (o & d & lg & _ & Hrun).
    exists d, lg.
    change {| self := {| project_path := root; violations := vs |};
              log := l0 |} with (mk_state root vs l0).
    rewrite Hrun. repeat split.
Qed.

(* ------------------------------------------------------------------ *)
(** * A run over files that can all be read *)

Lemma add_with_log (s : state) (l1 l2 : list log_record)
    (d1 d2 : list ConventionViolation) :
  add (with_log (add (with_log s l1) d1) l2) d2
  = add (with_log s (l1 ++ l2)) (d1 ++ d2).
Proof.
  unfold add, with_log. cbn. now rewrite !app_assoc.
Qed.

Lemma check_file_exact (w : world) (path : string) (s : state) :
  file_error w path = None ->
  check_file w path s
  = (Return tt,
     add (with_log s [info ("Checking file: " ++ path)])
       (file_findings w path)).
Proof.
  intros Hok. unfold file_error in Hok.
  destruct (open_utf8 w path) as [e | text fault] eqn:Hopen;
    [discriminate |]. subst fault.
  assert (Herr : file_error w path = None)
    by (unfold file_error; now rewrite Hopen).
  unfold check_file, file_findings, lines_of, content_of. rewrite Hopen.
  unfold bind at 1. unfold logger at 1.
  unfold bind at 1. rewrite check_file_naming_appends.
  unfold bind at 1. rewrite check_line_length_runs, Herr.
  unfold bind at 1.
  rewrite (check_naming_conventions_appends w path _ text Hopen).
  unfold bind at 1. rewrite (check_imports_appends w path _ text Hopen).
  rewrite (@check_comments_documentation_appends w path _ text Hopen).
  unfold lines_of. rewrite Hopen. rewrite !add_add. reflexivity.
Qed.

Lemma check_each_file_exact (w : world) (paths : list string) (s : state) :
  (forall path, In path paths -> file_error w path = None) ->
  for_each paths (check_file w) s
  = (Return tt,
     add (with_log s (map (fun path => info ("Checking file: " ++ path))
                          paths))
       (flat_map (file_findings w) paths)).
Proof.
  revert s. induction paths as [| path paths IH]; intros s Hok.
  - cbn. unfold ret, add, with_log. destruct s as [[root vs] l0]. cbn.
    now rewrite !app_nil_r.
  - cbn [for_each]. unfold bind.
    rewrite check_file_exact by (apply Hok; now left).
    rewrite IH by (intros p Hp; apply Hok; now right).
    now rewrite add_with_log.
Qed.

Lemma run_eslint_check_exit_zero (w : world) (s : state) (stdout : string) :
  run_npx_eslint w (project_path (self s)) = Completed 0 stdout ->
  run_eslint_check w s = (Return tt, s).
Proof.
  intros Hrun. unfold run_eslint_check, try_except, bind, get_project_path.
  rewrite Hrun. reflexivity.
Qed.

(** X14: when every discovered file reads to its end and the linter
    exits with status 0, [check_all] returns the violations it started
    with, then those of the project structure check, then, file by file in
    the order of discovery, those of the file naming, line length, naming
    convention, import and documentation checks, in that order; and it
    logs one "Checking file" line per discovered file between its first
    and its last line. *)
Theorem check_all_exact (w : world) (s : state) (stdout : string) :
  let root := project_path (self s) in
  let found :=
    (structure_findings w root
     ++ flat_map (file_findings w) (discovered w root))%list in
  (forall path, In path (discovered w root) -> file_error w path = None) ->
  run_npx_eslint w root = Completed 0 stdout ->
  check_all w s
  = (Return (violations (self s) ++ found)%list,
     add (with_log s (run_log (discovered w root))) found).
Proof.
  intros root found Hok Hlint.
  unfold check_all, check_all_steps.
  unfold bind at 1 2. unfold logger at 1.
  unfold bind at 1. rewrite check_project_structure_appends.
  unfold bind at 1. rewrite check_files_discovered.
  cbn [add self project_path]. fold root.
  rewrite check_each_file_exact by assumption.
  unfold bind at 1.
  rewrite run_eslint_check_exit_zero with (stdout := stdout)
    by exact Hlint.
  unfold logger, get_violations, found, run_log, add, with_log, info.
  cbn [fst snd self project_path violations log].
  generalize (structure_findings w root) as S.
  generalize (flat_map (file_findings w) (discovered w root)) as F.
  generalize (map (fun path => {| level := INFO;
                                  text_of := "Checking file: " ++ path |})
                  (discovered w root)) as L.
  intros L F S. rewrite <- !app_assoc. reflexivity.
Qed.

Lemma check_all_exact_witness :
  check_all my_class_world (mk_state "/p" [] [])
  = (Return (structure_findings my_class_world "/p"
             ++ file_findings my_class_world "/p/src/MyClass.ts")%list,
     mk_state "/p"
       (structure_findings my_class_world "/p"
        ++ file_findings my_class_world "/p/src/MyClass.ts")
       [ info "Starting convention checks...";
         info "Checking file: /p/src/MyClass.ts";
         info "Convention checks completed." ]).
Proof.
  pose proof (check_all_exact my_class_world (mk_state "/p" [] []) "[]") as H.
  cbv zeta in H. rewrite H.
  - cbn [discovered my_class_world walk flat_map]. reflexivity.
  - intros path _. reflexivity.
  - reflexivity.
Defined.

(* ------------------------------------------------------------------ *)
(** * The groups of the report *)

Lemma count_occ_of_file (key : string) (vs : list ConventionViolation)
    (v : ConventionViolation) :
  count_occ violation_eq_dec (of_file key vs) v
  = if String.eqb (file_path v) key then count_occ violation_eq_dec vs v
    else 0%nat.
Proof.
  unfold of_file. induction vs as [| x vs IH]; cbn [filter count_occ].
  - now destruct (file_path v =? key)%string.
  - destruct (String.eqb_spec (file_path x) key) as [Hx | Hx];
      cbn [count_occ]; destruct (violation_eq_dec x v) as [-> | Hne].
    + rewrite IH. subst key. now rewrite String.eqb_refl.
    + exact IH.
    + rewrite IH. destruct (String.eqb_spec (file_path v) key);
        [contradiction | reflexivity].
    + exact IH.
Qed.

Lemma count_occ_groups (keys : list string) (vs : list ConventionViolation)
    (v : ConventionViolation) :
  NoDup keys ->
  count_occ violation_eq_dec
    (List.concat (map (fun key => of_file key vs) keys)) v
  = if mem (file_path v) keys then count_occ violation_eq_dec vs v
    else 0%nat.
Proof.
  induction keys as [| k keys IH]; intros Hnd; [reflexivity |].
  inversion Hnd as [| ? ? Hk Hnd']; subst.
  cbn [map List.concat]. rewrite count_occ_app, count_occ_of_file, IH
    by assumption.
  unfold mem at 2. cbn [existsb]. fold (mem (file_path v) keys).
  rewrite (String.eqb_sym k (file_path v)).
  destruct (String.eqb_spec (file_path v) k) as [-> | Hne];
    cbn [orb]; [| reflexivity].
  destruct (mem k keys) eqn:Hm; [| lia].
  apply mem_in in Hm. contradiction.
Qed.

(** X15: the dictionary the report is built from loses and repeats
    nothing: its keys are distinct and are the file paths that occur, no
    group is empty, each group holds the violations of its path and no
    other, and every violation occurs in the groups together exactly as
    often as in the list. *)
Theorem violations_by_file_partitions (vs : list ConventionViolation) :
  let groups := violations_by_file vs in
  NoDup (map fst groups)
  /\ (forall key, In key (map fst groups) <-> In key (map file_path vs))
  /\ Forall (fun kv => snd kv <> []
                       /\ Forall (fun v => file_path v = fst kv) (snd kv))
            groups
  /\ (forall v,
        count_occ violation_eq_dec (List.concat (map snd groups)) v
        = count_occ violation_eq_dec vs v).
Proof.
  intros groups. unfold groups. rewrite violations_by_file_grouped.
  unfold grouped. rewrite !map_map. cbn [fst snd].
  rewrite map_id. split; [apply NoDup_first_occurrences |].
  split; [intros key; apply in_first_occurrences |].
  split.
  - apply Forall_forall. intros kv Hin. apply in_map_iff in Hin.
    destruct Hin as (key & <- & Hkey). cbn [fst snd].
    apply in_first_occurrences, in_map_iff in Hkey.
    destruct Hkey as (v & Hv & Hin). split.
    + intros E. assert (Hin' : In v (of_file key vs)).
      { unfold of_file. apply filter_In. split; [assumption |].
        now apply String.eqb_eq. }
      rewrite E in Hin'. destruct Hin'.
    + apply Forall_forall. intros x Hx. unfold of_file in Hx.
      apply filter_In in Hx. now apply String.eqb_eq.
  - intros v. rewrite count_occ_groups by apply NoDup_first_occurrences.
    destruct (mem (file_path v) (first_occurrences (map file_path vs)))
      eqn:Hm; [reflexivity |].
    symmetry. apply count_occ_not_In. intros Hin.
    assert (Hk : In (file_path v) (first_occurrences (map file_path vs))).
    { apply in_first_occurrences, in_map_iff. now exists v. }
    apply mem_in in Hk. congruence.
Qed.

(* ------------------------------------------------------------------ *)
(** * A checker used twice *)

Lemma check_all_again_accumulates_witness :
  List.length
    (deref (snd (call_check_all my_class_world 0
                   (snd (new_checker "/p" no_objects))))
           (ViolationsOf 0)) = 3
  /\ deref (snd (call_check_all my_class_world 0
                   (snd (call_check_all my_class_world 0
                           (snd (new_checker "/p" no_objects))))))
           (ViolationsOf 0)
     = (deref (snd (call_check_all my_class_world 0
                      (snd (new_checker "/p" no_objects))))
              (ViolationsOf 0)
        ++ deref (snd (call_check_all my_class_world 0
                         (snd (new_checker "/p" no_objects))))
                 (ViolationsOf 0))%list.
Proof.
  split; [vm_compute; reflexivity |].
  apply (check_all_again_accumulates my_class_world "/p" no_objects);
    vm_compute; reflexivity.
Defined.

(* ------------------------------------------------------------------ *)
(** * The entry point *)

(** [main] in terms of a run of [check_all] from a new checker. *)
Lemma main_runs (w : world) (write_fault : option exn) (p : process) :
  let run := check_all w (mk_state "." [] (process_log p)) in
  fst (main w write_fault p)
  = match fst run with
    | Return _ =>
        match generate_report w (self (snd run)) with
        | Return report =>
            match write_fault with
            | Some e => Raise e
            | None =>
                Return {| written := report;
                          printed :=
                            summary_line (violations (self (snd run))) |}
            end
        | Raise e => Raise e
        | Untyped => Untyped
        end
    | Raise e => Raise e
    | Untyped => Untyped
    end.
Proof.
  cbv zeta. unfold main, new_checker, call_check_all, call.
  cbn [objects process_log next_object]. rewrite Nat.eqb_refl.
  change {| self := {| project_path := "."; violations := [] |};
            log := process_log p |}
    with (mk_state "." [] (process_log p)).
  destruct (check_all w (mk_state "." [] (process_log p)))
    as [[vs | e |] s']; cbn [fst snd objects deref]; try reflexivity.
  rewrite Nat.eqb_refl.
  destruct (generate_report w (self s')) as [report | e |]; try reflexivity.
  destruct write_fault; reflexivity.
Qed.

Lemma check_all_raises_on_unreadable (w : world) (s : state) :
  (exists path, In path (discovered w (project_path (self s)))
                /\ file_error w path <> None) ->
  exists e, fst (check_all w s) = Raise e.
Proof.
  intros Hbad.
  destruct (steps_before_check_files w s) as (s1 & Hpre & Hroot).
  rewrite <- Hroot in Hbad.
  destruct (for_each_check_file_raises w _ s1 Hbad)
    as (path & e & s' & _ & _ & Hloop).
  rewrite <- check_files_discovered in Hloop.
  exists e. unfold check_all, check_all_steps.
  rewrite bind_assoc.
  unfold bind at 1 in Hpre. unfold bind at 1.
  destruct (logger INFO "Starting convention checks..." s)
    as [[[] | e0 |] s0]; try discriminate.
  rewrite bind_assoc. unfold bind at 1. rewrite Hpre.
  rewrite bind_assoc. unfold bind at 1. now rewrite Hloop.
Qed.

Lemma all_readable_or_not (w : world) (paths : list string) :
  (forall path, In path paths -> file_error w path = None)
  \/ (exists path, In path paths /\ file_error w path <> None).
Proof.
  induction paths as [| p paths [IH | (q & Hq & Hne)]].
  - left. intros path [].
  - destruct (file_error w p) as [e |] eqn:E.
    + right. exists p. split; [now left | congruence].
    + left. intros path [<- | Hin]; auto.
  - right. exists q. split; [now right | assumption].
Qed.

Lemma check_all_raises_on_spawn_error (w : world) (s : state) (e : exn) :
  (forall path, In path (discovered w (project_path (self s))) ->
                file_error w path = None) ->
  run_npx_eslint w (project_path (self s)) = SpawnError e ->
  exn_cls e <> CalledProcessError -> exn_cls e <> JSONDecodeError ->
  fst (check_all w s) = Raise e.
Proof.
  intros Hok Hrun H1 H2.
  unfold check_all, check_all_steps.
  unfold bind at 1 2. unfold logger at 1.
  unfold bind at 1. rewrite check_project_structure_appends.
  unfold bind at 1. rewrite check_files_discovered.
  cbn [add self project_path].
  rewrite check_each_file_exact by assumption.
  unfold bind at 1.
  rewrite (@run_eslint_check_spawn_error w _ e); auto.
Qed.

Lemma report_of_some_violations (w : world) (c : checker) (report : string) :
  violations c <> [] ->
  generate_report w c = Return report ->
  exists rest,
    report = report_title ++ nl ++ total_line (violations c) ++ rest.
Proof.
  intros Hne. unfold generate_report.
  destruct (violations c) as [| v vs]; [contradiction |].
  destruct (report_sections w (project_path c)
              (violations_by_file (v :: vs))) as [sections | e |];
    try discriminate.
  intros [= <-]. unfold PyStr.join.
  change (String.concat nl
            (report_title :: total_line (v :: vs) :: sections))
    with (report_title ++ nl
          ++ String.concat nl (total_line (v :: vs) :: sections)).
  destruct sections as [| x xs].
  - exists "". change (String.concat nl [total_line (v :: vs)])
      with (total_line (v :: vs)). now rewrite append_nil_r.
  - exists (nl ++ String.concat nl (x :: xs)). reflexivity.
Qed.

(** X16: [main] checks the project in the current directory with a new
    checker.  It completes only if every discovered file could be read,
    starting the linter raised nothing (but one of the two handled
    classes), the report could be generated and the report file written.
    The line it prints then gives the number of violations of the run, and
    the text it writes is the report of those: the fixed message when
    there is none, else the title followed by that same count. *)
Theorem main_completes_only_if (w : world) (write_fault : option exn)
    (p : process) (out : main_output) :
  fst (main w write_fault p) = Return out ->
  let run := check_all w (mk_state "." [] (process_log p)) in
  let vs := violations (self (snd run)) in
  fst run = Return vs
  /\ (forall path, In path (discovered w ".") -> file_error w path = None)
  /\ (forall e, run_npx_eslint w "." = SpawnError e ->
                exn_cls e = CalledProcessError
                \/ exn_cls e = JSONDecodeError)
  /\ write_fault = None
  /\ generate_report w (self (snd run)) = Return (written out)
  /\ printed out = summary_line vs
  /\ (vs = [] -> written out = no_violations_report)
  /\ (vs <> [] ->
      exists rest,
        written out = report_title ++ nl ++ total_line vs ++ rest).
Proof.
  intros Hmain run vs. pose proof (main_runs w write_fault p) as Hruns.
  cbv zeta in Hruns. fold run in Hruns. rewrite Hmain in Hruns.
  destruct (fst run) as [vs0 | e |] eqn:Hfst; try discriminate.
  destruct (generate_report w (self (snd run))) as [report | e |] eqn:Hrep;
    try discriminate.
  destruct write_fault as [e |]; [discriminate |].
  injection Hruns as ->. cbn [written printed].
  assert (Hvs : vs0 = vs).
  { destruct (check_all_runs w ".") as (o & d & lg & _ & Hrun).
    unfold vs, run in *. rewrite Hrun in Hfst |- *.
    cbn [fst snd self violations mk_state] in Hfst |- *.
    destruct o; congruence. }
  subst vs0.
  assert (Hread : forall path, In path (discovered w ".") ->
                               file_error w path = None).
  { destruct (all_readable_or_not w (discovered w ".")) as [H | H];
      [exact H |].
    destruct (check_all_raises_on_unreadable w
                (mk_state "." [] (process_log p)) H) as [e He].
    fold run in He. congruence. }
  split; [reflexivity |]. split; [exact Hread |]. split.
  { intros e He.
    destruct (exn_class_eqb (exn_cls e) CalledProcessError) eqn:E1;
      [left; now destruct (exn_cls e) |].
    destruct (exn_class_eqb (exn_cls e) JSONDecodeError) eqn:E2;
      [right; now destruct (exn_cls e) |].
    exfalso.
    assert (Hr : fst run = Raise e).
    { apply check_all_raises_on_spawn_error; auto;
        intros Hc; rewrite Hc in *; discriminate. }
    congruence. }
  split; [reflexivity |]. split; [reflexivity |]. split; [reflexivity |].
  split.
  - intros Hnil. unfold generate_report in Hrep. fold vs in Hrep.
    rewrite Hnil in Hrep. now injection Hrep as <-.
  - intros Hne. now apply (report_of_some_violations w (self (snd run))).
Qed.

Lemma main_completes_only_if_witness :
  printed
    {| written := no_violations_report;
       printed := "Found 0 violations. See convention_report.md for details."
    |}
  = summary_line
      (violations (self (snd (check_all no_files_world
                                (mk_state "." [] []))))).
Proof.
  apply (main_completes_only_if no_files_world None no_objects).
  reflexivity.
Defined.

(* ------------------------------------------------------------------ *)
(** * The name of a discovered file *)

Lemma basename_after_slash (y name : string) :
  PyStr.contains "/" name = false ->
  OsPath.basename (y ++ "/" ++ name) = name.
Proof.
  intros Hname. induction y as [| c y IH].
  - change ("" ++ "/" ++ name) with (String "/" name).
    cbn [OsPath.basename].
    replace (PyStr.contains "/" (String "/" name)) with true by reflexivity.
    now apply basename_no_slash.
  - change (String c y ++ "/" ++ name) with (String c (y ++ "/" ++ name)).
    cbn [OsPath.basename].
    replace (PyStr.contains "/" (String c (y ++ "/" ++ name))) with true.
    + exact IH.
    + symmetry. apply (contains_append "/" (String c y) name).
Qed.

(** X19: for a name without a slash, as a directory listing gives them,
    the base name of the path that [check_all] builds from a directory and
    the name is the name itself, whatever the directory; so the file
    naming check judges, and its messages quote, the very name listed. *)
Theorem basename_of_joined_name (root name : string) :
  PyStr.contains "/" name = false ->
  OsPath.basename (OsPath.join root name) = name
  /\ message (extension_finding (OsPath.join root name))
     = "Invalid file extension: " ++ name
  /\ message (name_finding (OsPath.join root name))
     = "File name should be camelCase or kebab-case: " ++ name.
Proof.
  intros Hname.
  assert (Hbase : OsPath.basename (OsPath.join root name) = name).
  { unfold OsPath.join.
    assert (Hstart : PyStr.startswith "/" name = false).
    { destruct name as [| c name]; [reflexivity |].
      cbn [PyStr.contains] in Hname. now apply orb_false_iff in Hname. }
    rewrite Hstart.
    destruct (String.eqb_spec root "") as [-> | Hroot]; cbn [orb].
    - now apply basename_no_slash.
    - destruct (PyStr.endswith "/" root) eqn:Hend.
      + apply endswith_split in Hend. destruct Hend as [y ->].
        rewrite append_assoc. now apply basename_after_slash.
      + now apply basename_after_slash. }
  unfold extension_finding, name_finding. cbn [message].
  now rewrite Hbase.
Qed.

Lemma basename_of_joined_name_witness :
  OsPath.basename (OsPath.join "/p/src/" "my-widget.test.ts")
  = "my-widget.test.ts".
Proof.
  apply (basename_of_joined_name "/p/src/" "my-widget.test.ts"). reflexivity.
Defined.
